(** * Energy and resource sampling plugins: a shallow embedding

    The development follows the Python sources

    - [examples/llama_power/RunnerConfig.py]: the RAPL readers
      [get_cpu_power] and [get_memory_power], the sampling loops
      [monitor_cpu_memory] and [monitor_gpu];
    - [examples/powerjoular_test/RunnerConfig.py]: the [interact] loop,
      [log_run_data_to_csv] and [populate_run_data];
    - [examples/powerjoular_test/pressure.py]: the workload's [is_prime].

    Python floats are IEEE 754 binary64 numbers, taken from the executable
    specification [SpecFloat]; Python integers are [Z]; wall-clock time is a
    rational number of seconds; the outside world (sysfs files, the workload
    process, psutil, nvidia-smi) is an explicit environment record, and the
    instance attributes, the clock and the console are an explicit state. *)

From Stdlib Require Import ZArith QArith Qround Qminmax Qabs Bool List String Ascii Lia Lqa.
From Stdlib Require Import Znumtheory SpecFloat.
From Stdlib Require Strings.Byte.
Import ListNotations.

Local Open Scope Z_scope.

(** ** Python numbers *)

Module PyFloat.

Definition prec : Z := 53.
Definition emax : Z := 1024.

Definition float := spec_float.

Definition fadd : float -> float -> float := SFadd prec emax.
Definition fsub : float -> float -> float := SFsub prec emax.
Definition fmul : float -> float -> float := SFmul prec emax.
Definition fdiv : float -> float -> float := SFdiv prec emax.

Definition nan : float := S754_nan.
Definition zero : float := S754_zero false.

(** The integer [n] as the pair sign, magnitude, with exponent 0: an exact
    but possibly unnormalised operand. *)
Definition exact_Z (n : Z) : float :=
  match n with
  | Z0 => S754_zero false
  | Zpos p => S754_finite false p 0
  | Zneg p => S754_finite true p 0
  end.

(** The binary64 number nearest to [n] (ties to even), infinite when [n]
    is out of range. *)
Definition of_Z (n : Z) : float := binary_normalize prec emax n 0 false.

Definition is_zero (x : float) : bool :=
  match x with S754_zero _ => true | _ => false end.

Definition is_nan (x : float) : bool :=
  match x with S754_nan => true | _ => false end.

Definition is_infinite (x : float) : bool :=
  match x with S754_infinity _ => true | _ => false end.

(** The 53-bit mantissa and the exponent of an integer below [2^53]. *)
Definition normal_mantissa (p : positive) : positive :=
  match (53 - Zpos (digits2_pos p))%Z with
  | Zpos k => Pos.iter xO p k
  | _ => p
  end.

Definition normal_exponent (p : positive) : Z := Zpos (digits2_pos p) - 53.

(** [true] for the numbers whose sign bit is set. *)
Definition sign_bit (x : float) : bool :=
  match x with
  | S754_zero s | S754_infinity s | S754_finite s _ _ => s
  | S754_nan => false
  end.

(** [n / d] rounded to the nearest integer, ties to the even one
    ([0 < d]). *)
Definition div_half_even (n d : Z) : Z :=
  let q := n / d in
  let r := n mod d in
  match 2 * r ?= d with
  | Lt => q
  | Gt => q + 1
  | Eq => if Z.even q then q else q + 1
  end.

(** The magnitude [m * 2^e] scaled by [10^3] and rounded to an integer,
    ties to even: the decimal digits that [round(x, 3)] keeps. *)
Definition scaled_digits (m : positive) (e : Z) : Z :=
  match e with
  | Zneg p => div_half_even (Zpos m * 1000) (Z.pow_pos 2 p)
  | _ => Zpos m * 1000 * 2 ^ e
  end.

(** [round(x, 3)] on a float: CPython converts [x] to the correctly
    rounded decimal string with three digits after the point and reads
    that string back as the nearest binary64 number; zeros, infinities
    and NaN are returned as they are, and the sign is kept. *)
Definition round3 (x : float) : float :=
  match x with
  | S754_finite s m e =>
      match scaled_digits m e with
      | Zpos n => fdiv (S754_finite s n 0) (exact_Z 1000)
      | _ => S754_zero s
      end
  | _ => x
  end.

(** What rounding to three decimals means, in the words of the
    specification and not of CPython's algorithm. The magnitude
    [m * 2^e] as a rational number: *)
Definition magnitude (m : positive) (e : Z) : Q :=
  match e with
  | Zneg p => Zpos m # Pos.pow 2 p
  | _ => inject_Z (Zpos m * 2 ^ e)
  end.

(** [n] is the integer nearest to [x], the even one of the two when [x]
    lies half-way between them. *)
Definition nearest_even (x : Q) (n : Z) : Prop :=
  (Qabs (x - inject_Z n) <= 1 # 2)%Q /\
  ((Qabs (x - inject_Z n) == 1 # 2)%Q -> Z.even n = true).

(** [j] is [x] rounded to three decimals: the binary64 number nearest to
    [n / 1000], where [n] is the integer nearest to [1000 * |x|] (ties
    to even), with the sign of [x]; zeros, infinities and NaN are left
    as they are. *)
Definition is_round3_of (x j : float) : Prop :=
  match x with
  | S754_finite s m e =>
      exists n : Z,
        nearest_even (magnitude m e * 1000) n /\
        j = match n with
            | Zpos k => fdiv (S754_finite s k 0) (exact_Z 1000)
            | _ => S754_zero s
            end
  | _ => j = x
  end.

(** [numpy.float64.__round__(3)]: scale by [10^3], round to the nearest
    integer (ties to even), scale back. *)
Definition rint (x : float) : float :=
  match x with
  | S754_finite s m (Zneg p) =>
      match div_half_even (Zpos m) (Z.pow_pos 2 p) with
      | Zpos n => binary_normalize prec emax (if s then Zneg n else Zpos n) 0 s
      | _ => S754_zero s
      end
  | _ => x
  end.

Definition np_round3 (x : float) : float :=
  fdiv (rint (fmul x (of_Z 1000))) (of_Z 1000).

(** A decimal literal [n / 10^k], as the Python parser reads it. *)
Definition decimal (n : Z) (k : positive) : float :=
  fdiv (exact_Z n) (exact_Z (Z.pow_pos 10 k)).

End PyFloat.

Import PyFloat.

(** ** Python values, exceptions and the arithmetic the sources use *)

Module Py.

(** The two numeric types that flow through the metrics. *)
Inductive value : Type :=
| Int (n : Z)
| Float (x : float).

Inductive exn : Type :=
| OverflowError
| ZeroDivisionError
| ValueError
| FileNotFoundError
| CalledProcessError (msg : string).

(** A computation returns, raises, or is cut by the iteration bound of a
    [while] loop. *)
Inductive result (A : Type) : Type :=
| Ok (a : A)
| Raise (e : exn)
| OutOfFuel.

Arguments Ok {A} a.
Arguments Raise {A} e.
Arguments OutOfFuel {A}.

Definition rbind {A B} (r : result A) (k : A -> result B) : result B :=
  match r with
  | Ok a => k a
  | Raise e => Raise e
  | OutOfFuel => OutOfFuel
  end.

(** [float(n)]: nearest binary64 number, [OverflowError] out of range. *)
Definition float_of_int (n : Z) : result float :=
  let x := of_Z n in
  if is_infinite x then Raise OverflowError else Ok x.

Definition to_float (v : value) : result float :=
  match v with
  | Int n => float_of_int n
  | Float x => Ok x
  end.

(** [a - b] *)
Definition sub (a b : value) : result value :=
  match a, b with
  | Int m, Int n => Ok (Int (m - n))
  | _, _ =>
      rbind (to_float a) (fun x =>
      rbind (to_float b) (fun y => Ok (Float (fsub x y))))
  end.

(** [a / b]: true division. Two integers give the correctly rounded
    quotient; otherwise the integer operand is converted first. *)
Definition truediv (a b : value) : result float :=
  match a, b with
  | Int m, Int n =>
      if n =? 0 then Raise ZeroDivisionError
      else
        let q := fdiv (exact_Z m) (exact_Z n) in
        if is_infinite q then Raise OverflowError else Ok q
  | _, _ =>
      rbind (to_float a) (fun x =>
      rbind (to_float b) (fun y =>
      if is_zero y then Raise ZeroDivisionError else Ok (fdiv x y)))
  end.

(** [sum(xs)] on a list of floats: the integer 0 for the empty list,
    otherwise [0 + x1 + x2 + ...] added from the left (the plain
    accumulation; CPython 3.12 compensates the rounding errors of the
    partial sums, which changes nothing when they are exact). *)
Definition sum (xs : list float) : value :=
  match xs with
  | [] => Int 0
  | x :: r => Float (fold_left fadd r (fadd zero x))
  end.

(** [float(sum(xs))] *)
Definition float_sum (xs : list float) : float :=
  match xs with
  | [] => zero
  | x :: r => fold_left fadd r (fadd zero x)
  end.

(** [len(xs)] *)
Definition len {A} (xs : list A) : value := Int (Z.of_nat (List.length xs)).

(** [round(v, 3)]: an integer is returned unchanged. *)
Definition round (v : value) : value :=
  match v with
  | Int n => Int n
  | Float x => Float (round3 x)
  end.

(** [v == 0] *)
Definition is_zero_value (v : value) : bool :=
  match v with
  | Int n => n =? 0
  | Float x => is_zero x
  end.

(** [a < b] on two readings of the clock. *)
Definition Qltb (a b : Q) : bool := negb (Qle_bool b a).

(** The literals [1e6], [1e3] and [0.0]. *)
Definition lit_1e6 : value := Float (of_Z 1000000).
Definition lit_1e3 : value := Float (of_Z 1000).
Definition lit_0_0 : value := Float zero.

End Py.

(** ** llama_power/RunnerConfig.py *)

Module LlamaPower.
Import Py.

(** *** The world outside the plugin *)

(** One line of [nvidia-smi --query-gpu=power.draw,utilization.gpu,
    --format=csv,nounits,noheader]: two fields that [float] accepts, or
    anything else (a different number of fields, a field such as [N/A]),
    on which [line.split(",")] or [float] raises [ValueError]. *)
Inductive smi_line : Type :=
| SmiLine (power_draw utilization : float)
| SmiMalformed.

(** What [subprocess.check_output] does with the tool: the binary is
    missing, it exits non-zero, or it exits with status 0 and its
    output holds these lines, none when it printed no text. *)
Inductive smi_result : Type :=
| SmiNotFound
| SmiFailed (msg : string)
| SmiOutput (lines : list smi_line).

Record env : Type := {
  (** content of [/sys/class/powercap/intel-rapl:0/energy_uj] at a given
      time, [None] when the file does not exist *)
  rapl_cpu : Q -> option Z;
  (** the same for [intel-rapl:1] *)
  rapl_mem : Q -> option Z;
  (** when the workload process exits, [None] if it never does *)
  exit_time : option Q;
  (** [psutil.cpu_percent(interval=1)] returning at a given time *)
  cpu_percent : Q -> float;
  (** [psutil.virtual_memory().percent] *)
  virtual_memory_percent : Q -> float;
  (** the outcome of an [nvidia-smi] call started at a given time *)
  nvidia_smi : Q -> smi_result;
  (** the wall-clock time one [nvidia-smi] call takes *)
  smi_latency : Q
}.

(** The instance attribute, the clock and the console. *)
Record state : Type := {
  now : Q;
  rapl_error_printed : bool;
  stdout : list string
}.

Definition M (A : Type) : Type := state -> result A * state.

Definition ret {A} (a : A) : M A := fun s => (Ok a, s).

Definition bind {A B} (c : M A) (k : A -> M B) : M B :=
  fun s =>
    match c s with
    | (Ok a, s') => k a s'
    | (Raise e, s') => (Raise e, s')
    | (OutOfFuel, s') => (OutOfFuel, s')
    end.

Definition lift {A} (r : result A) : M A := fun s => (r, s).

Declare Scope py_scope.
Delimit Scope py_scope with py.
Notation "x <- c ;; k" := (bind c (fun x => k))
  (at level 61, c at next level, right associativity) : py_scope.
Notation "c ;; k" := (bind c (fun _ => k))
  (at level 61, right associativity) : py_scope.
Notation "' pat <- c ;; k" := (bind c (fun x => match x with pat => k end))
  (at level 61, pat pattern, c at next level, right associativity) : py_scope.
Local Open Scope py_scope.

(** [try: body except ...: handler]: [handler] tells which exceptions
    the [except] clauses catch and what they run. *)
Definition try_except {A} (body : M A) (handler : exn -> option (M A))
    : M A :=
  fun s =>
    match body s with
    | (Raise ex, s') =>
        match handler ex with
        | Some h => h s'
        | None => (Raise ex, s')
        end
    | r => r
    end.

Definition except_FileNotFoundError {A} (h : M A) (ex : exn)
    : option (M A) :=
  match ex with
  | FileNotFoundError => Some h
  | _ => None
  end.

(** [time.sleep(d)] and the blocking part of [cpu_percent(interval=d)] *)
Definition sleep (d : Q) : M unit :=
  fun s => (Ok tt, {| now := now s + d;
                      rapl_error_printed := rapl_error_printed s;
                      stdout := stdout s |}).

(** [time.time()] *)
Definition time_time : M Q := fun s => (Ok (now s), s).

(** [print(msg)] *)
Definition print (msg : string) : M unit :=
  fun s => (Ok tt, {| now := now s;
                      rapl_error_printed := rapl_error_printed s;
                      stdout := stdout s ++ [msg] |}).

Definition get_rapl_error_printed : M bool :=
  fun s => (Ok (rapl_error_printed s), s).

Definition set_rapl_error_printed (b : bool) : M unit :=
  fun s => (Ok tt, {| now := now s;
                      rapl_error_printed := b;
                      stdout := stdout s |}).

(** [with open(path, "r") as f: int(f.read().strip())]. A file that
    does not exist makes [open] raise [FileNotFoundError], the one
    exception the callers catch; a file that exists is taken to be
    readable and to hold an integer. *)
Definition read_energy_uj (file : Q -> option Z) : M Z :=
  fun s =>
    match file (now s) with
    | Some n => (Ok n, s)
    | None => (Raise FileNotFoundError, s)
    end.

(** [self.process.poll() is None] *)
Definition running (e : env) (t : Q) : bool :=
  match exit_time e with
  | None => true
  | Some x => Qltb t x
  end.

Definition poll_is_None (e : env) : M bool :=
  fun s => (Ok (running e (now s)), s).

(** The [except FileNotFoundError] handlers: warn unless a warning was
    already printed, then fall back. *)
Definition warn_once (msg : string) : M unit :=
  printed <- get_rapl_error_printed ;;
  if negb printed
  then print msg ;; set_rapl_error_printed true
  else ret tt.

Definition msg_cpu_power : string := "RAPL 功率接口不可用".
Definition msg_mem_power : string := "RAPL 内存功率接口不可用".
Definition msg_energy : string := "RAPL 能量接口不可用".

(** The body shared by [get_cpu_power] and [get_memory_power], which
    differ in the file and in the message. *)
Definition get_power (file : Q -> option Z) (msg : string) : M float :=
  try_except
    (energy_start <- read_energy_uj file ;;
     sleep 1 ;;
     energy_end <- read_energy_uj file ;;
     energy_diff <- lift (sub (Int energy_end) (Int energy_start)) ;;
     power_watts <- lift (truediv energy_diff lit_1e6) ;;
     ret power_watts)
    (except_FileNotFoundError
       (warn_once msg ;;
        ret zero)).

Definition get_cpu_power (e : env) : M float :=
  get_power (rapl_cpu e) msg_cpu_power.

Definition get_memory_power (e : env) : M float :=
  get_power (rapl_mem e) msg_mem_power.

(** *** [monitor_cpu_memory] *)

(** The four lists the loop appends to. *)
Record samples : Type := {
  cpu_usage : list float;
  memory_usage : list float;
  cpu_power_usage : list float;
  mem_power_usage : list float
}.

Definition no_samples : samples :=
  {| cpu_usage := []; memory_usage := [];
     cpu_power_usage := []; mem_power_usage := [] |}.

(** One pass through the body of the [while]. The readers never return
    [None], so both [is not None] tests pass. *)
Definition sample_once (e : env) (acc : samples) : M samples :=
  sleep 1 ;;
  t <- time_time ;;
  let cpu := cpu_percent e t in
  let mem := virtual_memory_percent e t in
  cpu_power <- get_cpu_power e ;;
  mem_power <- get_memory_power e ;;
  ret {| cpu_usage := cpu_usage acc ++ [cpu];
         memory_usage := memory_usage acc ++ [mem];
         cpu_power_usage := cpu_power_usage acc ++ [cpu_power];
         mem_power_usage := mem_power_usage acc ++ [mem_power] |}.

(** [while self.process.poll() is None and (time.time() - start_time) < 10] *)
Definition keep_sampling (e : env) (start_time : Q) : M bool :=
  alive <- poll_is_None e ;;
  t <- time_time ;;
  ret (alive && Qltb (t - start_time) 10).

Fixpoint sampling_loop (fuel : nat) (e : env) (start_time : Q)
    (acc : samples) : M samples :=
  go <- keep_sampling e start_time ;;
  if go then
    match fuel with
    | O => lift OutOfFuel
    | S fuel' =>
        acc' <- sample_once e acc ;;
        sampling_loop fuel' e start_time acc'
    end
  else ret acc.

(** Every pass blocks for at least the second of [cpu_percent], so ten
    passes exhaust the ten-second budget. *)
Definition sampling_passes : nat := 10.

(** [round(sum(xs) / len(xs), 3) if xs else default] *)
Definition mean_or (default : value) (xs : list float) : result value :=
  match xs with
  | [] => Ok default
  | _ => rbind (truediv (sum xs) (len xs)) (fun q => Ok (round (Float q)))
  end.

(** [round((final - initial) / 1e6, 3)] *)
Definition energy_joules (final initial : value) : result value :=
  rbind (sub final initial) (fun d =>
  rbind (truediv d lit_1e6) (fun q => Ok (round (Float q)))).

Record cpu_memory_metrics : Type := {
  avg_cpu : value;
  avg_mem : value;
  avg_cpu_power : value;
  avg_mem_power : value;
  cpu_energy_usage : value;
  mem_energy_usage : value
}.

(** Both counters are read in one [try]; a missing file of either domain
    sends both variables to the handler's values. *)
Definition read_counters (e : env) (fallback : value * value)
    : M (value * value) :=
  try_except
    (cpu_energy <- read_energy_uj (rapl_cpu e) ;;
     mem_energy <- read_energy_uj (rapl_mem e) ;;
     ret (Int cpu_energy, Int mem_energy))
    (except_FileNotFoundError
       (warn_once msg_energy ;;
        ret fallback)).

Definition monitor_cpu_memory (e : env) : M cpu_memory_metrics :=
  '(initial_cpu_energy, initial_mem_energy) <-
     read_counters e (lit_0_0, lit_0_0) ;;
  start_time <- time_time ;;
  acc <- sampling_loop sampling_passes e start_time no_samples ;;
  '(final_cpu_energy, final_mem_energy) <-
     read_counters e (initial_cpu_energy, initial_mem_energy) ;;
  cpu_energy <- lift (energy_joules final_cpu_energy initial_cpu_energy) ;;
  mem_energy <- lift (energy_joules final_mem_energy initial_mem_energy) ;;
  a_cpu <- lift (mean_or (Int 0) (cpu_usage acc)) ;;
  a_mem <- lift (mean_or (Int 0) (memory_usage acc)) ;;
  a_cpu_power <- lift (mean_or lit_0_0 (cpu_power_usage acc)) ;;
  a_mem_power <- lift (mean_or lit_0_0 (mem_power_usage acc)) ;;
  ret {| avg_cpu := a_cpu;
         avg_mem := a_mem;
         avg_cpu_power := a_cpu_power;
         avg_mem_power := a_mem_power;
         cpu_energy_usage := cpu_energy;
         mem_energy_usage := mem_energy |}.

(** *** [monitor_gpu] *)

Record gpu_metrics : Type := {
  avg_gpu_power : value;
  avg_gpu_utilization : value;
  gpu_energy_usage : value
}.

Definition gpu_fallback : gpu_metrics :=
  {| avg_gpu_power := lit_0_0;
     avg_gpu_utilization := lit_0_0;
     gpu_energy_usage := lit_0_0 |}.

(** [subprocess.check_output([...])] *)
Definition check_output_nvidia_smi (e : env) : M (list smi_line) :=
  t <- time_time ;;
  match nvidia_smi e t with
  | SmiNotFound => lift (Raise FileNotFoundError)
  | SmiFailed msg => sleep (smi_latency e) ;; lift (Raise (CalledProcessError msg))
  | SmiOutput lines => sleep (smi_latency e) ;; ret lines
  end.

(** [gpu_stats.strip().split("\n")] is never an empty list: an output
    without text gives one empty line, which does not hold two
    fields. *)
Definition strip_split (lines : list smi_line) : list smi_line :=
  match lines with
  | [] => [SmiMalformed]
  | _ => lines
  end.

(** [for line in ...: power_draw, utilization = line.split(","); ...]:
    a line that is not two numbers raises [ValueError], from the
    unpacking or from [float]. *)
Fixpoint parse_lines (lines : list smi_line) (power util : list float)
    : result (list float * list float) :=
  match lines with
  | [] => Ok (power, util)
  | SmiLine p u :: rest => parse_lines rest (power ++ [p]) (util ++ [u])
  | SmiMalformed :: _ => Raise ValueError
  end.

Definition msg_smi_not_found : string :=
  "nvidia-smi command not found. Skipping GPU monitoring.".
Definition msg_smi_failed (msg : string) : string :=
  "Error occurred while fetching GPU data: " ++ msg.

(** A pass of the loop either goes on with the two lists, or leaves the
    function through one of the two [return 0.0, 0.0, 0.0]. *)
Inductive gpu_pass_exit : Type :=
| Continue (gpu_power_usage gpu_utilization : list float)
| Return (m : gpu_metrics).

Definition except_gpu (ex : exn) : option (M gpu_pass_exit) :=
  match ex with
  | FileNotFoundError =>
      Some (print msg_smi_not_found ;; ret (Return gpu_fallback))
  | CalledProcessError msg =>
      Some (print (msg_smi_failed msg) ;; ret (Return gpu_fallback))
  | _ => None
  end.

Definition gpu_pass (e : env) (power util : list float) : M gpu_pass_exit :=
  try_except
    (gpu_stats <- check_output_nvidia_smi e ;;
     acc <- lift (parse_lines (strip_split gpu_stats) power util) ;;
     ret (Continue (fst acc) (snd acc)))
    except_gpu.

Fixpoint gpu_loop (fuel : nat) (e : env) (start_time : Q)
    (power util : list float) : M gpu_pass_exit :=
  go <- keep_sampling e start_time ;;
  if go then
    match fuel with
    | O => lift OutOfFuel
    | S fuel' =>
        r <- gpu_pass e power util ;;
        match r with
        | Continue power' util' => gpu_loop fuel' e start_time power' util'
        | Return m => ret (Return m)
        end
    end
  else ret (Continue power util).

(** Enough passes for the ten-second budget when every call of the tool
    takes [smi_latency]: the calls that fit into ten seconds and one
    more. *)
Definition gpu_passes (e : env) : nat :=
  S (Z.to_nat (Qceiling (10 / smi_latency e))).

(** [round(sum(xs) / len(xs) if xs else 0, 3)] *)
Definition gpu_mean (xs : list float) : result value :=
  match xs with
  | [] => Ok (round (Int 0))
  | _ => rbind (truediv (sum xs) (len xs)) (fun q => Ok (round (Float q)))
  end.

(** [round(sum(gpu_power_usage) / 1e3, 3)] *)
Definition gpu_energy (gpu_power_usage : list float) : result value :=
  rbind (truediv (sum gpu_power_usage) lit_1e3) (fun q => Ok (round (Float q))).

Definition monitor_gpu (e : env) : M gpu_metrics :=
  start_time <- time_time ;;
  exit <- gpu_loop (gpu_passes e) e start_time [] [] ;;
  match exit with
  | Return m => ret m
  | Continue gpu_power_usage gpu_utilization =>
      energy <- lift (gpu_energy gpu_power_usage) ;;
      a_power <- lift (gpu_mean gpu_power_usage) ;;
      a_util <- lift (gpu_mean gpu_utilization) ;;
      ret {| avg_gpu_power := a_power;
             avg_gpu_utilization := a_util;
             gpu_energy_usage := energy |}
  end.

(** *** [monitor_usage] *)

(** The method from the call of [monitor_cpu_memory] on, for a workload
    that has been started; the start itself, [subprocess.Popen], is
    [Hooks.popen]. *)
Definition monitor_usage (e : env) : M (cpu_memory_metrics * gpu_metrics) :=
  cm <- monitor_cpu_memory e ;;
  g <- monitor_gpu e ;;
  ret (cm, g).

(** *** Vocabulary of the statements *)

(** The state in which [warn_once msg] leaves [s]. *)
Definition warned (msg : string) (s : state) : state :=
  if rapl_error_printed s then s
  else {| now := now s;
          rapl_error_printed := true;
          stdout := stdout s ++ [msg] |}.

(** What a computation may do to the console: nothing, or one warning
    that sets the flag. *)
Definition at_most_one_warning (s s' : state) : Prop :=
  (stdout s' = stdout s /\ rapl_error_printed s' = rapl_error_printed s) \/
  (rapl_error_printed s = false /\ rapl_error_printed s' = true /\
   exists msg, stdout s' = stdout s ++ [msg]).

(** The state [d] seconds after [s]. *)
Definition later (d : Q) (s : state) : state :=
  {| now := now s + d;
     rapl_error_printed := rapl_error_printed s;
     stdout := stdout s |}.

(** The instant at which the workload has exited or the ten seconds of
    a loop started at [start_time] are over, whichever comes first. *)
Definition deadline (e : env) (start_time : Q) : Q :=
  match exit_time e with
  | Some x => Qmin x (start_time + 10)
  | None => start_time + 10
  end.

(** The two RAPL domains, their files and their readers. *)
Inductive domain : Type := Package | Dram.

Definition energy_file (e : env) (d : domain) : Q -> option Z :=
  match d with
  | Package => rapl_cpu e
  | Dram => rapl_mem e
  end.

Definition reader (e : env) (d : domain) : M float :=
  match d with
  | Package => get_cpu_power e
  | Dram => get_memory_power e
  end.

Definition reader_message (d : domain) : string :=
  match d with
  | Package => msg_cpu_power
  | Dram => msg_mem_power
  end.

(** How long the four lists are. *)
Definition sizes (acc : samples) (n : nat) : Prop :=
  List.length (cpu_usage acc) = n /\
  List.length (memory_usage acc) = n /\
  List.length (cpu_power_usage acc) = n /\
  List.length (mem_power_usage acc) = n.

(** Every counter value that can be read is an unsigned 64-bit number,
    as the kernel prints it. *)
Definition counters_in_range (e : env) : Prop :=
  forall d t c, energy_file e d t = Some c -> 0 <= c < 2 ^ 64.

(** The pair of variables after the first [try] of
    [monitor_cpu_memory], run at time [t]. *)
Definition initial_energy (e : env) (t : Q) : value * value :=
  match rapl_cpu e t, rapl_mem e t with
  | Some c, Some m => (Int c, Int m)
  | _, _ => (lit_0_0, lit_0_0)
  end.

(** The pair of variables after the second [try], run at time [t]. *)
Definition final_energy (e : env) (t : Q) (initial : value * value)
    : value * value :=
  match rapl_cpu e t, rapl_mem e t with
  | Some c, Some m => (Int c, Int m)
  | _, _ => initial
  end.

(** A counter variable of [monitor_cpu_memory]: the handler's 0.0 or a
    value read from a file. *)
Definition reading (v : value) : Prop :=
  v = lit_0_0 \/ exists c, v = Int c /\ 0 <= c < 2 ^ 64.

(** The state after [print(msg)]. *)
Definition printed (msg : string) (s : state) : state :=
  {| now := now s;
     rapl_error_printed := rapl_error_printed s;
     stdout := stdout s ++ [msg] |}.

(** The call of the tool started at time [t] does not give an output:
    the binary is missing or it exits non-zero. *)
Definition tool_fails (e : env) (t : Q) : Prop :=
  nvidia_smi e t = SmiNotFound \/ exists msg, nvidia_smi e t = SmiFailed msg.

(** An answer of the tool that cannot be parsed: no text at all, or a
    line that is not two numbers. *)
Definition unparsable (lines : list smi_line) : Prop :=
  lines = [] \/ In SmiMalformed lines.

(** The three metrics are zero. *)
Definition all_zero (m : gpu_metrics) : Prop :=
  is_zero_value (avg_gpu_power m) = true /\
  is_zero_value (avg_gpu_utilization m) = true /\
  is_zero_value (gpu_energy_usage m) = true.

(** The metrics of a run whose loop made no pass. *)
Definition gpu_nothing : gpu_metrics :=
  {| avg_gpu_power := Int 0;
     avg_gpu_utilization := Int 0;
     gpu_energy_usage := lit_0_0 |}.

(** The readers called one after the other on the same instance. *)
Fixpoint call_readers (e : env) (ds : list domain) : M (list float) :=
  match ds with
  | [] => ret []
  | d :: rest =>
      x <- reader e d ;;
      xs <- call_readers e rest ;;
      ret (x :: xs)
  end.

(** A fresh instance at time 0: [__init__] clears the flag. *)
Definition fresh : state :=
  {| now := 0; rapl_error_printed := false; stdout := [] |}.

End LlamaPower.

(** ** powerjoular_test/RunnerConfig.py *)

Module PowerJoular.
Import Py.

(** *** [interact] *)

Record env : Type := {
  (** when [pressure.py] exits by itself, [None] if it never does *)
  exit_time : option Q;
  (** [process.cpu_percent(interval=1)] returning at a given time *)
  process_cpu_percent : Q -> float
}.

(** What [output.console_log] receives. *)
Inductive log_line : Type :=
| Current_CPU_usage (cpu_usage : float)
| Terminated_after_20_seconds
| What_to_do_next.

Record state : Type := {
  now : Q;
  (** [self.target.terminate()] was called *)
  terminated : bool;
  console : list log_line
}.

(** [self.target.poll() is None] *)
Definition running (e : env) (t : Q) : bool :=
  match exit_time e with
  | None => true
  | Some x => Qltb t x
  end.

Definition console_log (l : log_line) (s : state) : state :=
  {| now := now s; terminated := terminated s; console := console s ++ [l] |}.

Definition sleep (d : Q) (s : state) : state :=
  {| now := now s + d; terminated := terminated s; console := console s |}.

Definition terminate (s : state) : state :=
  {| now := now s; terminated := true; console := console s |}.

(** The [while] loop; [None] when the iteration bound is hit. A pass is
    taken to last the second of [cpu_percent(interval=1)] and no more;
    passes that last longer reach the twenty seconds in fewer passes. *)
Fixpoint interact_loop (fuel : nat) (e : env) (start_time : Q) (s : state)
    : option state :=
  if running e (now s) then
    match fuel with
    | O => None
    | S fuel' =>
        let s1 := sleep 1 s in
        let s2 := console_log (Current_CPU_usage (process_cpu_percent e (now s1))) s1 in
        if Qltb 20 (now s2 - start_time) then
          Some (console_log Terminated_after_20_seconds (terminate s2))
        else interact_loop fuel' e start_time s2
    end
  else Some s.

(** Every pass takes at least one second and the pass that ends after
    more than twenty seconds is the last one. *)
Definition interact_passes : nat := 21.

Definition interact (e : env) (s : state) : option state :=
  let start_time := now s in
  match interact_loop interact_passes e start_time s with
  | Some s' => Some (console_log What_to_do_next s')
  | None => None
  end.

(** *** [log_run_data_to_csv] *)

(** The files of the run directory: path to content. *)
Definition filesystem : Type := string -> option string.

Definition write_file (fs : filesystem) (path content : string) : filesystem :=
  fun p => if String.eqb p path then Some content else fs p.

(** [open(path, mode="w")] followed by one [write] *)
Definition open_w_write (fs : filesystem) (path text : string) : filesystem :=
  write_file fs path text.

(** [open(path, mode="a")] followed by one [write] *)
Definition open_a_write (fs : filesystem) (path text : string) : filesystem :=
  match fs path with
  | Some old => write_file fs path (old ++ text)
  | None => write_file fs path text
  end.

Definition newline : string := String (ascii_of_nat 10) EmptyString.


Section Csv.
(** The values of the dictionary and Python's [str] on them. *)
Variable V : Type.
Variable str : V -> string.

(** A dictionary in insertion order. *)
Definition dict : Type := list (string * V).

Definition keys (d : dict) : list string := map fst d.
Definition values (d : dict) : list V := map snd d.

Definition header_row (run_data : dict) : string :=
  String.concat "," (keys run_data) ++ newline.

Definition value_row (run_data : dict) : string :=
  String.concat "," (map str (values run_data)) ++ newline.

Definition log_run_data_to_csv (file_path : string) (run_data : dict)
    (fs : filesystem) : filesystem :=
  let fs1 :=
    match fs file_path with
    | None => open_w_write fs file_path (header_row run_data)
    | Some _ => fs
    end in
  open_a_write fs1 file_path (value_row run_data).
End Csv.

(** *** [populate_run_data] *)

(** The frame read from the profiler's CSV: column name to cells. *)
Definition dataframe : Type := list (string * list float).

(** ["name" in df.columns] *)
Definition has_column (df : dataframe) (name : string) : bool :=
  existsb (fun c => String.eqb (fst c) name) df.

(** [df["name"]] *)
Fixpoint column (df : dataframe) (name : string) : list float :=
  match df with
  | [] => []
  | (n, cells) :: rest => if String.eqb n name then cells else column rest name
  end.

(** [Series.sum()] on a column of float cells none of which is NaN
    (pandas leaves NaN cells out): the cells added from the left, which
    is what pandas returns whenever the partial sums are exact; zero
    for a series without rows, where pandas gives the integer 0 or the
    float 0.0 according to the type it gave the column. *)
Definition series_sum (cells : list float) : float :=
  fold_left fadd cells zero.

(** [Series.mean()] on such a column: the sum over the count, NaN for a
    series without rows. *)
Definition series_mean (cells : list float) : float :=
  match cells with
  | [] => nan
  | _ => fdiv (series_sum cells) (of_Z (Z.of_nat (List.length cells)))
  end.

(** [round(x, 3)] on the numpy scalar a reduction returns. *)
Definition round_np (x : float) : value := Float (np_round3 x).

(** [round(df[name].mean(), 3) if name in df.columns else 0] *)
Definition mean_or_0 (df : dataframe) (name : string) : value :=
  if has_column df name then round_np (series_mean (column df name)) else Int 0.

(** [round(df[name].sum(), 3) if name in df.columns else 0] *)
Definition sum_or_0 (df : dataframe) (name : string) : value :=
  if has_column df name then round_np (series_sum (column df name)) else Int 0.

Definition run_metrics (df : dataframe) : dict value :=
  [ ("avg_cpu_utilization", mean_or_0 df "CPU Utilization");
    ("avg_cpu_power", mean_or_0 df "CPU Power");
    ("total_cpu_energy", sum_or_0 df "CPU Power");
    ("avg_gpu_utilization", mean_or_0 df "GPU Utilization");
    ("avg_gpu_power", mean_or_0 df "GPU Power");
    ("total_gpu_energy", sum_or_0 df "GPU Power") ]%string.

(** The instance's [run_data_list] and the run directory. *)
Record sink : Type := {
  run_data_list : list (dict value);
  files : filesystem
}.

Definition populate_run_data (str : value -> string) (run_table_csv : string)
    (df : dataframe) (k : sink) : dict value * sink :=
  let run_data := run_metrics df in
  (run_data,
   {| run_data_list := run_data_list k ++ [run_data];
      files := log_run_data_to_csv value str run_table_csv run_data (files k) |}).

(** *** Vocabulary of the statements *)

(** The instant at which [pressure.py] has exited or the twenty seconds
    of a loop started at [start_time] are over, whichever comes first. *)
Definition deadline (e : env) (start_time : Q) : Q :=
  match exit_time e with
  | Some x => Qmin x (start_time + 20)
  | None => start_time + 20
  end.

Definition fresh : state :=
  {| now := 0; terminated := false; console := [] |}.

End PowerJoular.

(** ** powerjoular_test/pressure.py *)

Module Pressure.

(** [for i in range(i, i + n): if p % i == 0: return False] and then
    [return True]. *)
Fixpoint trial_division (n : nat) (i p : Z) : bool :=
  match n with
  | O => true
  | S n' => if p mod i =? 0 then false else trial_division n' (i + 1) p
  end.

(** [len(range(a, b))] *)
Definition range_len (a b : Z) : nat := Z.to_nat (b - a).

Definition is_prime (p : Z) : bool :=
  if (p =? 0) || (p =? 1) then false
  else trial_division (range_len 2 (p / 2 + 1)) 2 p.

End Pressure.

(** ** The hooks around the sampling functions *)

Module Hooks.
Import Py.

(** *** llama_power *)






(** No RAPL file of either domain at any time. *)
Definition no_rapl (e : LlamaPower.env) : Prop :=
  forall t, LlamaPower.rapl_cpu e t = None /\ LlamaPower.rapl_mem e t = None.

(** Both RAPL files at all times. *)
Definition rapl_present (e : LlamaPower.env) : Prop :=
  forall t, LlamaPower.rapl_cpu e t <> None /\ LlamaPower.rapl_mem e t <> None.

(** The state after one of the two [try] blocks of
    [monitor_cpu_memory] run in [s]: unchanged when both files are read,
    after the handler's warning otherwise. *)
Definition after_read (e : LlamaPower.env) (s : LlamaPower.state)
    : LlamaPower.state :=
  match LlamaPower.rapl_cpu e (LlamaPower.now s),
        LlamaPower.rapl_mem e (LlamaPower.now s) with
  | Some _, Some _ => s
  | _, _ => LlamaPower.warned LlamaPower.msg_energy s
  end.

(** The reductions of [monitor_cpu_memory] that follow its loop. *)
Definition reduce (initial final : value * value) (acc : LlamaPower.samples)
    : result LlamaPower.cpu_memory_metrics :=
  rbind (LlamaPower.energy_joules (fst final) (fst initial)) (fun cpu_energy =>
  rbind (LlamaPower.energy_joules (snd final) (snd initial)) (fun mem_energy =>
  rbind (LlamaPower.mean_or (Int 0) (LlamaPower.cpu_usage acc)) (fun a_cpu =>
  rbind (LlamaPower.mean_or (Int 0) (LlamaPower.memory_usage acc)) (fun a_mem =>
  rbind (LlamaPower.mean_or lit_0_0 (LlamaPower.cpu_power_usage acc))
    (fun a_cpu_power =>
  rbind (LlamaPower.mean_or lit_0_0 (LlamaPower.mem_power_usage acc))
    (fun a_mem_power =>
  Ok {| LlamaPower.avg_cpu := a_cpu;
        LlamaPower.avg_mem := a_mem;
        LlamaPower.avg_cpu_power := a_cpu_power;
        LlamaPower.avg_mem_power := a_mem_power;
        LlamaPower.cpu_energy_usage := cpu_energy;
        LlamaPower.mem_energy_usage := mem_energy |})))))).

(** Every power sample collected so far is 0.0. *)
Definition no_power (acc : LlamaPower.samples) : Prop :=
  Forall (fun x => x = zero) (LlamaPower.cpu_power_usage acc) /\
  Forall (fun x => x = zero) (LlamaPower.mem_power_usage acc).

(** *** powerjoular_test *)

(** [create_run_table_model]: the [data_columns] of the run table. *)
Definition data_columns : list string :=
  [ "avg_cpu_utilization"; "avg_cpu_power"; "total_cpu_energy";
    "avg_gpu_utilization"; "avg_gpu_power"; "total_gpu_energy" ]%string.

(** [populate_run_data] called for one run after the other on the same
    instance; a run comes with its context: the path of
    [context.run_dir / "run_table.csv"] and the frame read from the
    profiler's file of that run. *)
Fixpoint populate_runs (str : value -> string)
    (runs : list (string * PowerJoular.dataframe)) (k : PowerJoular.sink)
    : PowerJoular.sink :=
  match runs with
  | [] => k
  | (run_table_csv, df) :: rest =>
      populate_runs str rest
        (snd (PowerJoular.populate_run_data str run_table_csv df k))
  end.

(** A subscript either gives the value or raises [KeyError]. *)
Inductive subscript (A : Type) : Type :=
| Found (a : A)
| KeyError (key : string).

Arguments Found {A} a.
Arguments KeyError {A} key.

(** [run_data[key]] *)
Fixpoint getitem (run_data : PowerJoular.dict value) (key : string)
    : subscript value :=
  match run_data with
  | [] => KeyError key
  | (k, v) :: rest => if String.eqb k key then Found v else getitem rest key
  end.

Definition sbind {A B} (r : subscript A) (k : A -> subscript B)
    : subscript B :=
  match r with
  | Found a => k a
  | KeyError key => KeyError key
  end.

(** The tuple [row_data] of [after_experiment]. *)
Definition row_data (run_data : PowerJoular.dict value)
    : subscript (list value) :=
  sbind (getitem run_data "avg_cpu_utilization") (fun a =>
  sbind (getitem run_data "avg_cpu_power") (fun b =>
  sbind (getitem run_data "total_cpu_energy") (fun c =>
  sbind (getitem run_data "avg_gpu_utilization") (fun d =>
  sbind (getitem run_data "avg_gpu_power") (fun e =>
  sbind (getitem run_data "total_gpu_energy") (fun f =>
  Found [a; b; c; d; e; f])))))).

(** The object in [self.run_table_model]: one with an [add_row]
    method, of which [rows] records the tuples the method was called
    with, or one without an [add_row] attribute ([None], as [__init__]
    leaves it, or a run table of a framework that has no such method),
    on which the call raises [AttributeError]. *)
Inductive run_table_model : Type :=
| With_add_row (rows : list (list value))
| Without_add_row.

(** What [after_experiment] sends to the console log. *)
Inductive transfer_log : Type :=
| Experiment_complete
| Does_not_support_adding_rows
| Data_transferred.

(** The [for] loop of [after_experiment]. *)
Fixpoint transfer_rows (run_data_list : list (PowerJoular.dict value))
    (table : run_table_model) (console : list transfer_log)
    : subscript (run_table_model * list transfer_log) :=
  match run_data_list with
  | [] => Found (table, console)
  | run_data :: rest =>
      sbind (row_data run_data) (fun row =>
      match table with
      | With_add_row rows =>
          transfer_rows rest (With_add_row (rows ++ [row])) console
      | Without_add_row =>
          transfer_rows rest Without_add_row
            (console ++ [Does_not_support_adding_rows])
      end)
  end.

Definition after_experiment (run_data_list : list (PowerJoular.dict value))
    (table : run_table_model) (console : list transfer_log)
    : subscript (run_table_model * list transfer_log) :=
  sbind (transfer_rows run_data_list table (console ++ [Experiment_complete]))
    (fun r => Found (fst r, snd r ++ [Data_transferred])).

End Hooks.

(** ** The main loop of pressure.py *)

Module PressureMain.
Import Pressure.

(** The value of a byte string read as a little-endian number, the native
    order of the machines that have RAPL counters. *)
Fixpoint little_endian (data : list Byte.byte) : Z :=
  match data with
  | [] => 0
  | b :: rest => Z.of_N (Strings.Byte.to_N b) + 256 * little_endian rest
  end.

(** [struct.unpack("@Q", data)[0]]: [None] stands for [struct.error],
    raised unless [data] holds eight bytes. *)
Definition unpack_Q (data : list Byte.byte) : option Z :=
  if Nat.eqb (List.length data) 8 then Some (little_endian data) else None.

(** The lines the loop prints. *)
Inductive line : Type :=
| Testing (p : Z)
| Is_prime
| Is_not_prime.

(** One pass of [while True]. The thousand calls of [is_prime] that come
    before the prints only take time: their results are dropped. *)
Definition test_once (data : list Byte.byte) : option (list line) :=
  match unpack_Q data with
  | None => None
  | Some p => Some [Testing p; if is_prime p then Is_prime else Is_not_prime]
  end.

(** The loop has no exit of its own: after the reads it was given it is
    still looping, unless a read made [struct.unpack] raise. *)
Inductive run : Type :=
| Still_looping (printed : list line)
| Struct_error (printed : list line).

Fixpoint main_loop (reads : list (list Byte.byte)) (printed : list line)
    : run :=
  match reads with
  | [] => Still_looping printed
  | data :: rest =>
      match test_once data with
      | None => Struct_error printed
      | Some lines => main_loop rest (printed ++ lines)
      end
  end.

End PressureMain.

(** ** Concrete runs *)

Module Scenarios.
Import Py LlamaPower.
Local Open Scope Q_scope.

(** A counter that reads [before] until time [t0] and [after] from then
    on. *)
Definition step_counter (t0 : Q) (before after : Z) (t : Q) : option Z :=
  Some (if Qle_bool t0 t then after else before).

Definition absent (t : Q) : option Z := None.

Definition one_gpu (power util : Z) : smi_result :=
  SmiOutput [SmiLine (of_Z power) (of_Z util)].

(** The package counter goes from 1,000,000 to 3,500,000 microjoules
    while the workload runs for three seconds. *)
Definition window : env :=
  {| rapl_cpu := step_counter 3 1000000 3500000;
     rapl_mem := step_counter 3 5000 6500;
     exit_time := Some 3;
     cpu_percent := fun _ => of_Z 50;
     virtual_memory_percent := fun _ => of_Z 20;
     nvidia_smi := fun _ => one_gpu 100 30;
     smi_latency := 1 # 2 |}.

(** The package counter wraps around during the window. *)
Definition wrapped : env :=
  {| rapl_cpu := step_counter 3 3500000 1000000;
     rapl_mem := step_counter 3 5000 6500;
     exit_time := Some 3;
     cpu_percent := fun _ => of_Z 50;
     virtual_memory_percent := fun _ => of_Z 20;
     nvidia_smi := fun _ => one_gpu 100 30;
     smi_latency := 1 # 2 |}.

(** Counter differences that do not fall on a thousandth of a joule:
    1,234,567 microjoules for the package and 62,500 for the memory,
    which lies half-way between 0.062 and 0.063. *)
Definition uneven : env :=
  {| rapl_cpu := step_counter 3 1000000 2234567;
     rapl_mem := step_counter 3 5000 67500;
     exit_time := Some 3;
     cpu_percent := fun _ => of_Z 50;
     virtual_memory_percent := fun _ => of_Z 20;
     nvidia_smi := fun _ => one_gpu 100 30;
     smi_latency := 1 # 2 |}.

(** The memory domain has no file. *)
Definition no_dram : env :=
  {| rapl_cpu := step_counter 3 1000000 3500000;
     rapl_mem := absent;
     exit_time := Some 3;
     cpu_percent := fun _ => of_Z 50;
     virtual_memory_percent := fun _ => of_Z 20;
     nvidia_smi := fun _ => one_gpu 100 30;
     smi_latency := 1 # 2 |}.

(** The file of the memory domain appears during the window. *)
Definition late_dram : env :=
  {| rapl_cpu := step_counter 3 1000000 3500000;
     rapl_mem := fun t => if Qle_bool 1 t then Some 6500%Z else None;
     exit_time := Some 3;
     cpu_percent := fun _ => of_Z 50;
     virtual_memory_percent := fun _ => of_Z 20;
     nvidia_smi := fun _ => one_gpu 100 30;
     smi_latency := 1 # 2 |}.

(** No RAPL interface at all, and no nvidia-smi. *)
Definition bare : env :=
  {| rapl_cpu := absent;
     rapl_mem := absent;
     exit_time := Some 3;
     cpu_percent := fun _ => of_Z 50;
     virtual_memory_percent := fun _ => of_Z 20;
     nvidia_smi := fun _ => SmiNotFound;
     smi_latency := 1 # 2 |}.

(** The workload outlives every budget. *)
Definition busy : env :=
  {| rapl_cpu := step_counter 3 1000000 3500000;
     rapl_mem := step_counter 3 5000 6500;
     exit_time := None;
     cpu_percent := fun _ => of_Z 50;
     virtual_memory_percent := fun _ => of_Z 20;
     nvidia_smi := fun _ => one_gpu 100 30;
     smi_latency := 1 # 2 |}.

(** Two polls of one GPU, drawing 100 W and then 150 W, before the
    workload exits. *)
Definition two_polls : env :=
  {| rapl_cpu := absent;
     rapl_mem := absent;
     exit_time := Some 1;
     cpu_percent := fun _ => of_Z 50;
     virtual_memory_percent := fun _ => of_Z 20;
     nvidia_smi := fun t => if Qle_bool (1 # 2) t then one_gpu 150 40
                            else one_gpu 100 30;
     smi_latency := 1 # 2 |}.

(** The tool answers once and then exits non-zero. *)
Definition flaky : env :=
  {| rapl_cpu := absent;
     rapl_mem := absent;
     exit_time := Some 1;
     cpu_percent := fun _ => of_Z 50;
     virtual_memory_percent := fun _ => of_Z 20;
     nvidia_smi := fun t => if Qle_bool (1 # 2) t then SmiFailed "exit status 9"
                            else one_gpu 100 30;
     smi_latency := 1 # 2 |}.

(** The tool answers with a line for one GPU and a line that does not
    hold two numbers, such as [[N/A], [N/A]]. *)
Definition garbled : env :=
  {| rapl_cpu := absent;
     rapl_mem := absent;
     exit_time := None;
     cpu_percent := fun _ => of_Z 50;
     virtual_memory_percent := fun _ => of_Z 20;
     nvidia_smi := fun _ => SmiOutput [SmiLine (of_Z 100) (of_Z 30);
                                       SmiMalformed];
     smi_latency := 1 # 2 |}.

(** The tool exits with status 0 and prints nothing. *)
Definition mute : env :=
  {| rapl_cpu := absent;
     rapl_mem := absent;
     exit_time := None;
     cpu_percent := fun _ => of_Z 50;
     virtual_memory_percent := fun _ => of_Z 20;
     nvidia_smi := fun _ => SmiOutput [];
     smi_latency := 1 # 2 |}.

(** 2.5, 0.25 and 0.1 *)
Definition f_2_5 : float := decimal 25 1.
Definition f_0_25 : float := decimal 25 2.
Definition f_0_1 : float := decimal 1 1.

(** [pressure.py] exits after three seconds, or never. *)
Definition short_target : PowerJoular.env :=
  {| PowerJoular.exit_time := Some 3;
     PowerJoular.process_cpu_percent := fun _ => of_Z 99 |}.

Definition endless_target : PowerJoular.env :=
  {| PowerJoular.exit_time := None;
     PowerJoular.process_cpu_percent := fun _ => of_Z 99 |}.


(** The profiler wrote its header and no row. *)
Definition header_only : PowerJoular.dataframe :=
  [("CPU Utilization", []); ("CPU Power", [])]%string.

End Scenarios.

(** * Properties *)

(** ** Binary64 arithmetic *)

Module PyFloatFacts.
Import PyFloat.

Lemma digits2_pos_iter_xO (p k : positive) :
  digits2_pos (Pos.iter xO p k) = (digits2_pos p + k)%positive.
Proof.
  apply (Pos.iter_ind _ xO p
           (fun k r => digits2_pos r = (digits2_pos p + k)%positive)).
  - cbn. lia.
  - intros q r IH. cbn. rewrite IH. lia.
Qed.

Lemma fexp_small (d : Z) : 1 <= d -> fexp prec emax d = Z.max (d - 53) (-1074).
Proof. intros _. reflexivity. Qed.

(** An exact mantissa of 53 bits with an exponent in range is left alone
    by the rounding step. *)
Lemma binary_round_aux_exact (s : bool) (m : positive) (e : Z) :
  Zpos (digits2_pos m) = 53 -> -1074 <= e <= 971 ->
  binary_round_aux prec emax s (Zpos m) e loc_Exact = S754_finite s m e.
Proof.
  intros Hd He.
  assert (Hf : fexp prec emax (Zdigits2 (Zpos m) + e) - e = 0).
  { cbn [Zdigits2]. rewrite Hd. unfold fexp, SpecFloat.emin, prec, emax. lia. }
  unfold binary_round_aux, shr_fexp.
  rewrite Hf. cbn [shr shr_record_of_loc shr_m loc_of_shr_record round_nearest_even].
  rewrite Hf. cbn [shr shr_record_of_loc shr_m].
  replace (e <=? emax - prec) with true; [reflexivity|].
  symmetry. apply Z.leb_le. unfold emax, prec. lia.
Qed.

Lemma binary_round_small (s : bool) (p : positive) :
  Zpos (digits2_pos p) <= 53 ->
  binary_round prec emax s p 0 =
  S754_finite s (normal_mantissa p) (normal_exponent p).
Proof.
  intros Hd. unfold binary_round, shl_align, normal_mantissa, normal_exponent.
  assert (Hf : fexp prec emax (Zpos (digits2_pos p) + 0) = Zpos (digits2_pos p) - 53).
  { unfold fexp, SpecFloat.emin, prec, emax. lia. }
  rewrite Hf.
  destruct (Zpos (digits2_pos p) - 53 - 0) as [|k|k] eqn:E.
  - replace (53 - Zpos (digits2_pos p)) with 0 by lia.
    replace (Zpos (digits2_pos p) - 53) with 0 by lia.
    apply binary_round_aux_exact; lia.
  - lia.
  - replace (53 - Zpos (digits2_pos p)) with (Zpos k) by lia.
    apply binary_round_aux_exact; [|lia].
    rewrite digits2_pos_iter_xO. lia.
Qed.

Lemma digits2_pos_bound (p : positive) :
  Zpos p < 2 ^ Zpos (digits2_pos p).
Proof.
  induction p as [p IH|p IH|]; cbn [digits2_pos].
  - rewrite Pos2Z.inj_succ, Z.pow_succ_r by lia. lia.
  - rewrite Pos2Z.inj_succ, Z.pow_succ_r by lia. lia.
  - reflexivity.
Qed.

Lemma digits2_pos_lower (p : positive) :
  2 ^ (Zpos (digits2_pos p) - 1) <= Zpos p.
Proof.
  induction p as [p IH|p IH|]; cbn [digits2_pos].
  - rewrite Pos2Z.inj_succ.
    replace (Z.succ (Zpos (digits2_pos p)) - 1)
      with (Z.succ (Zpos (digits2_pos p) - 1)) by lia.
    rewrite Z.pow_succ_r by lia. lia.
  - rewrite Pos2Z.inj_succ.
    replace (Z.succ (Zpos (digits2_pos p)) - 1)
      with (Z.succ (Zpos (digits2_pos p) - 1)) by lia.
    rewrite Z.pow_succ_r by lia. lia.
  - cbn. lia.
Qed.

Lemma digits2_pos_le_53 (p : positive) :
  Zpos p < 2 ^ 53 -> Zpos (digits2_pos p) <= 53.
Proof.
  intros H. pose proof (digits2_pos_lower p) as L.
  destruct (Z_le_gt_dec (Zpos (digits2_pos p)) 53) as [|G]; [assumption|].
  exfalso.
  assert (2 ^ 53 <= 2 ^ (Zpos (digits2_pos p) - 1))
    by (apply Z.pow_le_mono_r; lia).
  lia.
Qed.

(** Integers of magnitude below [2^53] convert exactly: the result is
    finite, has the sign of the integer, and is zero only for 0. *)
Lemma of_Z_small (n : Z) :
  Z.abs n < 2 ^ 53 ->
  of_Z n =
  match n with
  | Z0 => S754_zero false
  | Zpos p => S754_finite false (normal_mantissa p) (normal_exponent p)
  | Zneg p => S754_finite true (normal_mantissa p) (normal_exponent p)
  end.
Proof.
  intros H. destruct n as [|p|p]; unfold of_Z, binary_normalize.
  - reflexivity.
  - apply binary_round_small, digits2_pos_le_53. exact H.
  - apply binary_round_small, digits2_pos_le_53. exact H.
Qed.

(** *** Signs *)

Lemma shr_1_nonneg (r : shr_record) : 0 <= shr_m r -> 0 <= shr_m (shr_1 r).
Proof.
  destruct r as [m r s]. cbn [shr_m]. intros H.
  destruct m as [|[p|p|]|p]; cbn; lia.
Qed.

Lemma iter_pos_invariant {A} (f : A -> A) (Inv : A -> Prop) :
  (forall x, Inv x -> Inv (f x)) ->
  forall n x, Inv x -> Inv (iter_pos f n x).
Proof.
  intros Hf. induction n as [n IH|n IH|]; intros x Hx; cbn [iter_pos].
  - apply IH, IH, Hf, Hx.
  - apply IH, IH, Hx.
  - apply Hf, Hx.
Qed.

Lemma shr_fexp_nonneg (m e : Z) (l : location) :
  0 <= m -> 0 <= shr_m (fst (shr_fexp prec emax m e l)).
Proof.
  intros H. unfold shr_fexp, shr.
  assert (H0 : 0 <= shr_m (shr_record_of_loc m l))
    by (destruct l as [|[| |]]; exact H).
  destruct (fexp prec emax (Zdigits2 m + e) - e) as [|n|n]; cbn [fst];
    try exact H0.
  apply (iter_pos_invariant shr_1 (fun r => 0 <= shr_m r)); [|exact H0].
  apply shr_1_nonneg.
Qed.

Lemma round_nearest_even_nonneg (m : Z) (l : location) :
  0 <= m -> 0 <= round_nearest_even m l.
Proof.
  intros H. destruct l as [|[| |]]; cbn; try lia.
  destruct (Z.even m); lia.
Qed.

(** Rounding a non-negative mantissa never gives NaN and keeps the
    sign it is given. *)
Lemma binary_round_aux_sign (s : bool) (m e : Z) (l : location) :
  0 <= m ->
  let r := binary_round_aux prec emax s m e l in
  is_nan r = false /\ sign_bit r = s.
Proof.
  intros H. cbv zeta. unfold binary_round_aux.
  pose proof (shr_fexp_nonneg m e l H) as H1.
  destruct (shr_fexp prec emax m e l) as [mrs' e'] eqn:E1. cbn [fst] in H1.
  pose proof (shr_fexp_nonneg
                (round_nearest_even (shr_m mrs') (loc_of_shr_record mrs'))
                e' loc_Exact
                (round_nearest_even_nonneg _ _ H1)) as H2.
  destruct (shr_fexp prec emax _ e' loc_Exact) as [mrs'' e''] eqn:E2.
  cbn [fst] in H2.
  destruct (shr_m mrs'') as [|q|q]; [split; reflexivity| |lia].
  destruct (e'' <=? emax - prec); split; reflexivity.
Qed.

Lemma fdiv_finite_sign (sx sy : bool) (mx my : positive) (ex ey : Z) :
  let r := fdiv (S754_finite sx mx ex) (S754_finite sy my ey) in
  is_nan r = false /\ sign_bit r = xorb sx sy.
Proof.
  cbv zeta. unfold fdiv, SFdiv.
  destruct (SFdiv_core_binary prec emax (Zpos mx) ex (Zpos my) ey)
    as [[mz ez] lz] eqn:E.
  apply binary_round_aux_sign.
  unfold SFdiv_core_binary in E.
  set (e' := Z.min _ _) in E.
  set (m' := match ex - ey - e' with Z0 => _ | Zpos _ => _ | Zneg _ => _ end) in E.
  assert (Hm' : 0 <= m').
  { unfold m'. destruct (ex - ey - e'); try lia.
    apply Z.shiftl_nonneg. lia. }
  pose proof (Z_div_mod m' (Zpos my) ltac:(lia)) as Hdm.
  destruct (Z.div_eucl m' (Zpos my)) as [q r] eqn:Eqr.
  injection E as <- _ _.
  destruct Hdm as [Hq Hr]. nia.
Qed.

(** [round(x, 3)] keeps the sign bit and never turns a number into NaN. *)
Lemma round3_sign (x : float) :
  is_nan x = false ->
  is_nan (round3 x) = false /\ sign_bit (round3 x) = sign_bit x.
Proof.
  intros Hx. destruct x as [s|s| |s m e]; try (split; reflexivity);
    [discriminate|].
  unfold round3. destruct (scaled_digits m e) as [|n|n];
    try (split; reflexivity).
  unfold exact_Z.
  pose proof (fdiv_finite_sign s false n 1000 0 0) as H. cbv zeta in H.
  rewrite xorb_false_r in H. exact H.
Qed.

(** *** Range *)

Lemma shr_1_halves (r : shr_record) :
  0 <= shr_m r -> shr_m (shr_1 r) = shr_m r / 2.
Proof.
  destruct r as [m r s]. cbn [shr_m]. intros H.
  destruct m as [|[p|p|]|p]; cbn [shr_1 shr_m].
  - reflexivity.
  - rewrite Pos2Z.inj_xI. apply Z.div_unique with (r := 1); lia.
  - rewrite Pos2Z.inj_xO. apply Z.div_unique with (r := 0); lia.
  - reflexivity.
  - lia.
Qed.

Lemma iter_shr_1_divides (n : positive) : forall r,
  0 <= shr_m r ->
  shr_m (iter_pos shr_1 n r) = shr_m r / 2 ^ Zpos n.
Proof.
  assert (Hnn : forall k r, 0 <= shr_m r -> 0 <= shr_m (iter_pos shr_1 k r)).
  { intros k r. apply (iter_pos_invariant shr_1 (fun x => 0 <= shr_m x)).
    apply shr_1_nonneg. }
  induction n as [n IH|n IH|]; intros r H; cbn [iter_pos].
  - rewrite IH, IH, shr_1_halves by auto using shr_1_nonneg.
    rewrite !Z.div_div by lia. f_equal.
    change 2 with (2 ^ 1) at 1. rewrite <- !Z.pow_add_r by lia.
    f_equal. lia.
  - rewrite IH, IH by auto.
    rewrite !Z.div_div by lia. f_equal.
    rewrite <- Z.pow_add_r by lia. f_equal. lia.
  - rewrite shr_1_halves by exact H. reflexivity.
Qed.

Lemma Zdigits2_le_54 (m : Z) : 0 <= m <= 2 ^ 53 -> Zdigits2 m <= 54.
Proof.
  intros H. destruct m as [|q|q]; cbn [Zdigits2]; try lia.
  pose proof (digits2_pos_lower q) as L.
  destruct (Z_le_gt_dec (Zpos (digits2_pos q)) 54) as [|G]; [assumption|].
  exfalso.
  assert (2 ^ 54 <= 2 ^ (Zpos (digits2_pos q) - 1))
    by (apply Z.pow_le_mono_r; lia).
  assert (2 ^ 53 < 2 ^ 54) by (apply Z.pow_lt_mono_r; lia).
  lia.
Qed.

Lemma round_nearest_even_le (m : Z) (l : location) :
  round_nearest_even m l <= m + 1.
Proof.
  destruct l as [|[| |]]; cbn; try lia. destruct (Z.even m); lia.
Qed.

Lemma shr_exponent (r : shr_record) (e n : Z) :
  snd (shr r e n) = Z.max e (e + n).
Proof. unfold shr. destruct n; cbn [snd]; lia. Qed.

(** An integer of at most 1023 bits converts to a finite number. *)
Lemma binary_round_in_range (s : bool) (p : positive) :
  Zpos (digits2_pos p) <= 1023 ->
  is_infinite (binary_round prec emax s p 0) = false.
Proof.
  intros Hd.
  destruct (Z_le_gt_dec (Zpos (digits2_pos p)) 53) as [Hs|Hl].
  { now rewrite binary_round_small. }
  set (d := Zpos (digits2_pos p)) in *.
  assert (Hf : fexp prec emax (d + 0) = d - 53).
  { unfold fexp, SpecFloat.emin, prec, emax. lia. }
  unfold binary_round, shl_align. fold d. rewrite Hf.
  destruct (d - 53 - 0) as [|k|k] eqn:Ek; try lia.
  unfold binary_round_aux, shr_fexp.
  cbn [Zdigits2]. fold d. rewrite Hf.
  replace (d - 53 - 0) with (Zpos k) by lia.
  cbn [shr shr_record_of_loc].
  set (mrs' := iter_pos shr_1 k _).
  assert (Hm : 0 <= shr_m mrs' < 2 ^ 53).
  { unfold mrs'. rewrite iter_shr_1_divides by (cbn; lia). cbn [shr_m].
    pose proof (digits2_pos_bound p) as Hb. fold d in Hb.
    split; [apply Z.div_pos; lia|].
    apply Z.div_lt_upper_bound; [lia|].
    rewrite <- Z.pow_add_r by lia.
    replace (Zpos k + 53) with d by lia. exact Hb. }
  set (m1 := round_nearest_even (shr_m mrs') (loc_of_shr_record mrs')).
  assert (Hm1 : 0 <= m1 <= 2 ^ 53).
  { unfold m1. split; [apply round_nearest_even_nonneg; lia|].
    pose proof (round_nearest_even_le (shr_m mrs') (loc_of_shr_record mrs')).
    lia. }
  pose proof (Zdigits2_le_54 m1 Hm1) as Hd1.
  pose proof (shr_exponent {| shr_m := m1; shr_r := false; shr_s := false |}
                (0 + Zpos k)
                (fexp prec emax (Zdigits2 m1 + (0 + Zpos k)) - (0 + Zpos k)))
    as He.
  destruct (shr {| shr_m := m1; shr_r := false; shr_s := false |}
              (0 + Zpos k) _) as [mrs'' e''].
  cbn [snd] in He.
  destruct (shr_m mrs'') as [|q|q]; try reflexivity.
  replace (e'' <=? emax - prec) with true; [reflexivity|].
  symmetry. apply Z.leb_le. rewrite He.
  unfold fexp, SpecFloat.emin, prec, emax. lia.
Qed.

Lemma digits2_pos_le (p : positive) (n : Z) :
  0 <= n -> Zpos p < 2 ^ n -> Zpos (digits2_pos p) <= n.
Proof.
  intros Hn H. pose proof (digits2_pos_lower p) as L.
  destruct (Z_le_gt_dec (Zpos (digits2_pos p)) n) as [|G]; [assumption|].
  exfalso.
  assert (2 ^ n <= 2 ^ (Zpos (digits2_pos p) - 1))
    by (apply Z.pow_le_mono_r; lia).
  lia.
Qed.

(** Integers of magnitude below [2^1023] convert to a finite number or
    zero, with the sign of the integer. *)
Lemma of_Z_in_range (n : Z) :
  Z.abs n < 2 ^ 1023 ->
  is_nan (of_Z n) = false /\
  is_infinite (of_Z n) = false /\
  sign_bit (of_Z n) = (n <? 0).
Proof.
  intros H. destruct n as [|p|p]; unfold of_Z, binary_normalize.
  - repeat split.
  - split; [|split].
    + unfold binary_round.
      destruct (shl_align p 0 _) as [mz ez].
      apply (binary_round_aux_sign false (Zpos mz) ez loc_Exact). lia.
    + apply binary_round_in_range, digits2_pos_le; [lia | exact H].
    + unfold binary_round.
      destruct (shl_align p 0 _) as [mz ez].
      apply (binary_round_aux_sign false (Zpos mz) ez loc_Exact). lia.
  - split; [|split].
    + unfold binary_round.
      destruct (shl_align p 0 _) as [mz ez].
      apply (binary_round_aux_sign true (Zpos mz) ez loc_Exact). lia.
    + apply binary_round_in_range, digits2_pos_le; [lia | exact H].
    + unfold binary_round.
      destruct (shl_align p 0 _) as [mz ez].
      apply (binary_round_aux_sign true (Zpos mz) ez loc_Exact). lia.
Qed.

(** Dividing a number that is not NaN by a positive finite number keeps
    its sign bit. *)
Lemma fdiv_positive_sign (x : float) (m : positive) (e : Z) :
  is_nan x = false ->
  let q := fdiv x (S754_finite false m e) in
  is_nan q = false /\ sign_bit q = sign_bit x.
Proof.
  intros Hx. cbv zeta. destruct x as [s|s| |s mx ex].
  - cbn. rewrite xorb_false_r. split; reflexivity.
  - cbn. rewrite xorb_false_r. split; reflexivity.
  - discriminate.
  - pose proof (fdiv_finite_sign s false mx m ex e) as H. cbv zeta in H.
    rewrite xorb_false_r in H. exact H.
Qed.

(** *** Rounding to three decimals *)

(** The test of [nearest_even] on a fraction, in integers. *)
Lemma nearest_even_Z (a : Z) (d : positive) (n : Z) :
  nearest_even (a # d) n <->
  2 * Z.abs (a - n * Zpos d) <= Zpos d /\
  (2 * Z.abs (a - n * Zpos d) = Zpos d -> Z.even n = true).
Proof.
  unfold nearest_even.
  assert (E : (Qabs ((a # d) - inject_Z n) == Z.abs (a - n * Zpos d) # d)%Q).
  { unfold Qminus, Qplus, Qopp, inject_Z, Qabs, Qeq. cbn [Qnum Qden].
    rewrite Pos.mul_1_r. f_equal. f_equal. lia. }
  rewrite E. unfold Qle, Qeq. cbn [Qnum Qden].
  split; intros [H1 H2]; (split; [lia|]); intros H; apply H2; lia.
Qed.

Lemma div_half_even_nearest (a : Z) (d : positive) :
  nearest_even (a # d) (div_half_even a (Zpos d)).
Proof.
  apply nearest_even_Z. unfold div_half_even.
  pose proof (Z.div_mod a (Zpos d) ltac:(lia)) as Hdm.
  pose proof (Z.mod_pos_bound a (Zpos d) ltac:(lia)) as Hr.
  set (q := a / Zpos d) in *. set (r := a mod Zpos d) in *.
  destruct (Z.compare_spec (2 * r) (Zpos d)) as [H|H|H].
  - destruct (Z.even q) eqn:Ev.
    + split; [lia|]. intros _. exact Ev.
    + split; [lia|]. intros _. rewrite Z.even_add, Ev. reflexivity.
  - split; [lia|]. intros K. lia.
  - split; [lia|]. intros K. lia.
Qed.

Lemma nearest_even_unique (x : Q) (n n' : Z) :
  nearest_even x n -> nearest_even x n' -> n = n'.
Proof.
  destruct x as [a d]. rewrite !nearest_even_Z.
  intros [H1 E1] [H2 E2].
  assert (Hd : Z.abs (n - n') * Zpos d <= Zpos d) by nia.
  assert (Hc : Z.abs (n - n') <= 1) by nia.
  destruct (Z.eq_dec n n') as [|Hne]; [assumption|exfalso].
  assert (Ht : 2 * Z.abs (a - n * Zpos d) = Zpos d /\
               2 * Z.abs (a - n' * Zpos d) = Zpos d) by nia.
  destruct Ht as [T1 T2]. specialize (E1 T1). specialize (E2 T2).
  assert (Hs : n' = n + 1 \/ n' = n - 1) by lia.
  destruct Hs as [-> | ->].
  - rewrite Z.even_add in E2. rewrite E1 in E2. discriminate.
  - rewrite Z.even_sub in E2. rewrite E1 in E2. discriminate.
Qed.

Lemma scaled_digits_nearest (m : positive) (e : Z) :
  nearest_even (magnitude m e * 1000) (scaled_digits m e).
Proof.
  unfold scaled_digits, magnitude. destruct e as [|p|p].
  - assert (E : (inject_Z (Zpos m * 2 ^ 0) * 1000 == (Zpos m * 1000 * 2 ^ 0) # 1)%Q).
    { unfold Qeq, Qmult, inject_Z. cbn [Qnum Qden]. lia. }
    unfold nearest_even. rewrite E.
    fold (nearest_even ((Zpos m * 1000 * 2 ^ 0) # 1) (Zpos m * 1000 * 2 ^ 0)).
    apply nearest_even_Z. split; [lia|]. intros H. lia.
  - assert (E : (inject_Z (Zpos m * 2 ^ Zpos p) * 1000
                 == (Zpos m * 1000 * 2 ^ Zpos p) # 1)%Q).
    { unfold Qeq, Qmult, inject_Z. cbn [Qnum Qden]. lia. }
    unfold nearest_even. rewrite E.
    fold (nearest_even ((Zpos m * 1000 * 2 ^ Zpos p) # 1)
            (Zpos m * 1000 * 2 ^ Zpos p)).
    apply nearest_even_Z. split; [lia|]. intros H. lia.
  - assert (E : ((Zpos m # Pos.pow 2 p) * 1000
                 == (Zpos m * 1000) # Pos.pow 2 p)%Q).
    { unfold Qeq, Qmult. cbn [Qnum Qden]. lia. }
    assert (P : Z.pow_pos 2 p = Zpos (Pos.pow 2 p)).
    { change (Z.pow_pos 2 p) with (2 ^ Zpos p). now rewrite Pos2Z.inj_pow. }
    rewrite P. unfold nearest_even. rewrite E.
    apply div_half_even_nearest.
Qed.

Lemma round3_spec (x : float) : is_round3_of x (round3 x).
Proof.
  destruct x as [s|s| |s m e]; try reflexivity.
  cbn [is_round3_of round3]. exists (scaled_digits m e).
  split; [apply scaled_digits_nearest | reflexivity].
Qed.

(** The specification leaves one result only. *)
Lemma is_round3_of_unique (x j j' : float) :
  is_round3_of x j -> is_round3_of x j' -> j = j'.
Proof.
  destruct x as [s|s| |s m e]; cbn [is_round3_of]; try congruence.
  intros (n & Hn & ->) (n' & Hn' & ->).
  now rewrite (nearest_even_unique _ n n' Hn Hn').
Qed.

End PyFloatFacts.

(** ** Python arithmetic on the values of the metrics *)

Module PyFacts.
Import Py PyFloatFacts.

Lemma float_of_int_small (n : Z) :
  Z.abs n < 2 ^ 53 -> float_of_int n = Ok (of_Z n).
Proof.
  intros H. unfold float_of_int. rewrite (of_Z_small n H).
  destruct n; reflexivity.
Qed.

Lemma of_Z_small_shape (n : Z) :
  Z.abs n < 2 ^ 53 ->
  is_nan (of_Z n) = false /\
  is_infinite (of_Z n) = false /\
  is_zero (of_Z n) = (n =? 0) /\
  sign_bit (of_Z n) = (n <? 0).
Proof.
  intros H. rewrite (of_Z_small n H). destruct n; repeat split.
Qed.

(** [float(n)] does not overflow below [2^1023]. *)
Lemma float_of_int_in_range (n : Z) :
  Z.abs n < 2 ^ 1023 -> float_of_int n = Ok (of_Z n).
Proof.
  intros H. unfold float_of_int.
  destruct (of_Z_in_range n H) as (_ & Hi & _). now rewrite Hi.
Qed.

(** Differences of unsigned 64-bit counters are far below [2^1023]. *)
Lemma u64_below_2_1023 (a : Z) : 0 <= a < 2 ^ 64 -> Z.abs a < 2 ^ 1023.
Proof.
  intros H. assert (2 ^ 64 < 2 ^ 1023) by (apply Z.pow_lt_mono_r; lia). lia.
Qed.

Lemma u64_difference (a b : Z) :
  0 <= a < 2 ^ 64 -> 0 <= b < 2 ^ 64 -> Z.abs (a - b) < 2 ^ 1023.
Proof.
  intros Ha Hb.
  assert (2 ^ 64 < 2 ^ 1023) by (apply Z.pow_lt_mono_r; lia). lia.
Qed.

(** [n / 1e6] for an integer below [2^1023] in magnitude. *)
Lemma truediv_int_1e6 (n : Z) :
  Z.abs n < 2 ^ 1023 ->
  truediv (Int n) lit_1e6 = Ok (fdiv (of_Z n) (of_Z 1000000)).
Proof.
  intros H. unfold truediv, lit_1e6, to_float.
  rewrite (float_of_int_in_range n H). reflexivity.
Qed.

Lemma fdiv_1e6_sign (n : Z) :
  Z.abs n < 2 ^ 1023 ->
  let q := fdiv (of_Z n) (of_Z 1000000) in
  is_nan q = false /\ sign_bit q = (n <? 0).
Proof.
  intros H. cbv zeta. destruct (of_Z_in_range n H) as (Hn & _ & Hs).
  change (of_Z 1000000) with (S754_finite false 8589934592000000 (-33)).
  destruct (fdiv_positive_sign (of_Z n) 8589934592000000 (-33) Hn) as [Qn Qs].
  split; [exact Qn | now rewrite Qs].
Qed.

(** The joules reported for a counter difference [n]: never NaN, with
    the sign of [n]. *)
Lemma rounded_joules_sign (n : Z) :
  Z.abs n < 2 ^ 1023 ->
  let j := round3 (fdiv (of_Z n) (of_Z 1000000)) in
  is_nan j = false /\ sign_bit j = (n <? 0).
Proof.
  intros H. cbv zeta. destruct (fdiv_1e6_sign n H) as [Hn Hs].
  destruct (round3_sign _ Hn) as [Hn' Hs']. split; [exact Hn'|].
  now rewrite Hs'.
Qed.

Lemma Qltb_lt (a b : Q) : Qltb a b = true <-> (a < b)%Q.
Proof.
  unfold Qltb. rewrite negb_true_iff. split.
  - intros H. apply Qnot_le_lt. intros L. apply Qle_bool_iff in L. congruence.
  - intros H. destruct (Qle_bool b a) eqn:E; [|reflexivity].
    apply Qle_bool_iff in E. lra.
Qed.

Lemma Qltb_ge (a b : Q) : Qltb a b = false <-> (b <= a)%Q.
Proof.
  unfold Qltb. rewrite negb_false_iff. apply Qle_bool_iff.
Qed.

Lemma inject_S (n : nat) :
  (inject_Z (Z.of_nat (S n)) == inject_Z (Z.of_nat n) + 1)%Q.
Proof. rewrite Nat2Z.inj_succ. unfold Z.succ. rewrite inject_Z_plus. reflexivity. Qed.

(** Arithmetic returns or raises. *)
Lemma truediv_returns_or_raises (a b : value) : truediv a b <> OutOfFuel.
Proof.
  unfold truediv, to_float, float_of_int, rbind.
  destruct a as [m|x], b as [n|y];
    repeat match goal with
           | |- context [if ?c then _ else _] => destruct c
           end; discriminate.
Qed.

(** The mean of up to [2^53 - 1] samples is computed without an
    exception. *)
Lemma truediv_sum_len (x : float) (xs : list float) :
  Z.of_nat (List.length (x :: xs)) < 2 ^ 53 ->
  truediv (sum (x :: xs)) (len (x :: xs)) =
  Ok (fdiv (fold_left fadd xs (fadd zero x))
           (of_Z (Z.of_nat (List.length (x :: xs))))).
Proof.
  intros H. unfold truediv, sum, len, to_float, rbind.
  set (n := Z.of_nat (List.length (x :: xs))) in *.
  assert (Hn : 0 < n) by (unfold n; cbn [List.length]; lia).
  assert (Ha : Z.abs n < 2 ^ 53) by lia.
  rewrite (float_of_int_small n Ha).
  destruct (of_Z_small_shape n Ha) as (_ & _ & Hz & _).
  rewrite Hz. destruct (Z.eqb_spec n 0); [lia | reflexivity].
Qed.

End PyFacts.

(** ** The workload's primality test *)

Module PressureFacts.
Import Pressure.

(** The loop answers [true] exactly when no [j] of the [n] numbers from
    [i] on divides [p]. *)
Lemma trial_division_true (n : nat) : forall i p,
  trial_division n i p = true <->
  (forall j, i <= j < i + Z.of_nat n -> p mod j <> 0).
Proof.
  induction n as [|n IH]; intros i p; cbn [trial_division].
  - split; [intros _ j Hj; lia | reflexivity].
  - destruct (Z.eqb_spec (p mod i) 0) as [Hz|Hz].
    + split; [discriminate|].
      intros H. exfalso. apply (H i); [lia | exact Hz].
    + rewrite IH. split.
      * intros H j Hj. destruct (Z.eq_dec j i) as [->|Hne]; [exact Hz|].
        apply H. lia.
      * intros H j Hj. apply H. lia.
Qed.

Lemma is_prime_true (p : Z) : 0 <= p ->
  (is_prime p = true <->
   2 <= p /\ forall j, 2 <= j <= p / 2 -> p mod j <> 0).
Proof.
  intros Hp. unfold is_prime, range_len.
  destruct (Z.eqb_spec p 0) as [->|H0]; cbn [orb].
  { split; [discriminate | intros [H _]; lia]. }
  destruct (Z.eqb_spec p 1) as [->|H1].
  { split; [discriminate | intros [H _]; lia]. }
  rewrite trial_division_true.
  assert (Hh : 1 <= p / 2) by (apply Z.div_le_lower_bound; lia).
  rewrite Z2Nat.id by lia.
  split.
  - intros H. split; [lia|]. intros j Hj. apply H. lia.
  - intros [_ H] j Hj. apply H. lia.
Qed.

(** A proper divisor of [p] is at most [p // 2]. *)
Lemma proper_divisor_le_half (p n : Z) :
  1 < n < p -> (n | p) -> n <= p / 2.
Proof.
  intros Hn [k Hk].
  assert (Hk2 : 2 <= k) by nia.
  apply Z.div_le_lower_bound; [lia|]. nia.
Qed.

Lemma no_small_divisor_prime (p : Z) :
  2 <= p -> (forall j, 2 <= j <= p / 2 -> p mod j <> 0) -> prime p.
Proof.
  intros Hp H. apply prime_alt. split; [lia|].
  intros n Hn Hd.
  apply (H n).
  - split; [lia | apply proper_divisor_le_half; assumption].
  - apply Z.mod_divide in Hd; [exact Hd | lia].
Qed.

Lemma prime_no_small_divisor (p : Z) :
  prime p -> 2 <= p /\ forall j, 2 <= j <= p / 2 -> p mod j <> 0.
Proof.
  intros Hp. assert (H2 : 2 <= p) by (destruct Hp; lia). split; [exact H2|].
  intros j Hj Hm.
  assert (Hhalf : p / 2 < p) by (apply Z.div_lt; lia).
  apply prime_alt in Hp. destruct Hp as [_ Hp].
  apply (Hp j); [lia|].
  apply Z.mod_divide; [lia | exact Hm].
Qed.

(** C10. On every non-negative integer [is_prime] decides primality: it
    answers [False] on 0 and on 1, and from 2 on it answers [False]
    exactly when a number between 2 and [p // 2] divides [p]. *)
Theorem is_prime_decides_primality (p : Z) :
  0 <= p ->
  (is_prime p = true <-> prime p) /\
  is_prime 0 = false /\
  is_prime 1 = false /\
  (2 <= p ->
   (is_prime p = false <-> exists j, 2 <= j <= p / 2 /\ (j | p))).
Proof.
  intros Hp. split; [|split; [reflexivity | split; [reflexivity|]]].
  - rewrite is_prime_true by exact Hp. split.
    + intros [H2 H]. apply no_small_divisor_prime; assumption.
    + apply prime_no_small_divisor.
  - intros H2. split.
    + intros Hf.
      assert (Hnot : ~ (2 <= p /\ forall j, 2 <= j <= p / 2 -> p mod j <> 0)).
      { intros Ht. apply is_prime_true in Ht; [congruence | exact Hp]. }
      unfold is_prime, range_len in Hf.
      destruct (Z.eqb_spec p 0); [lia|]. destruct (Z.eqb_spec p 1); [lia|].
      cbn [orb] in Hf.
      assert (Hex : forall n i, trial_division n i p = false -> 2 <= i ->
                exists j, i <= j < i + Z.of_nat n /\ (j | p)).
      { clear. induction n as [|n IH]; intros i Hf Hi; cbn [trial_division] in Hf.
        - discriminate.
        - destruct (Z.eqb_spec (p mod i) 0) as [Hz|Hz].
          + exists i. split; [lia|]. apply Z.mod_divide; [lia | exact Hz].
          + destruct (IH _ Hf) as [j [Hj Hd]]; [lia|].
            exists j. split; [lia | exact Hd]. }
      destruct (Hex _ _ Hf) as [j [Hj Hd]]; [lia|].
      assert (Hh : 1 <= p / 2) by (apply Z.div_le_lower_bound; lia).
      rewrite Z2Nat.id in Hj by lia.
      exists j. split; [lia | exact Hd].
    + intros [j [Hj Hd]].
      destruct (is_prime p) eqn:E; [|reflexivity].
      apply is_prime_true in E; [|exact Hp]. destruct E as [_ E].
      exfalso. apply (E j Hj). apply Z.mod_divide; [lia | exact Hd].
Qed.

Lemma is_prime_decides_primality_witness :
  0 <= 97 /\
  ((is_prime 97 = true <-> prime 97) /\
   is_prime 0 = false /\
   is_prime 1 = false /\
   (2 <= 97 ->
    (is_prime 97 = false <-> exists j, 2 <= j <= 97 / 2 /\ (j | 97)))).
Proof.
  split; [lia | apply (is_prime_decides_primality 97); lia].
Defined.

End PressureFacts.

(** ** The CSV sink and the reductions of powerjoular_test *)

Module PowerJoularFacts.
Import Py PowerJoular.

Lemma append_assoc (a b c : string) : ((a ++ b) ++ c = a ++ (b ++ c))%string.
Proof. induction a as [|x a IH]; cbn; [reflexivity | now rewrite IH]. Qed.



Lemma write_file_same (fs : filesystem) (path text : string) :
  write_file fs path text path = Some text.
Proof. unfold write_file. now rewrite String.eqb_refl. Qed.

Lemma write_file_other (fs : filesystem) (path text p : string) :
  p <> path -> write_file fs path text p = fs p.
Proof.
  intros H. unfold write_file.
  destruct (String.eqb_spec p path); [contradiction | reflexivity].
Qed.

Section CsvFacts.
Variable V : Type.
Variable str : V -> string.

Let log := log_run_data_to_csv V str.
Let header := header_row V.
Let row := value_row V str.

Lemma log_absent path d fs :
  fs path = None -> log path d fs path = Some (header d ++ row d)%string.
Proof.
  intros H. unfold log, log_run_data_to_csv, open_a_write, open_w_write.
  rewrite H, write_file_same, write_file_same. reflexivity.
Qed.

Lemma log_present path d fs old :
  fs path = Some old -> log path d fs path = Some (old ++ row d)%string.
Proof.
  intros H. unfold log, log_run_data_to_csv, open_a_write.
  rewrite H, H, write_file_same. reflexivity.
Qed.

Lemma log_other path d fs p :
  p <> path -> log path d fs p = fs p.
Proof.
  intros H. unfold log, log_run_data_to_csv, open_a_write, open_w_write.
  destruct (fs path) as [old|] eqn:E.
  - rewrite E. now apply write_file_other.
  - rewrite write_file_same. rewrite !write_file_other by exact H.
    reflexivity.
Qed.



End CsvFacts.

(** *** The [interact] loop *)

Lemma running_false (e : env) (start t : Q) :
  running e t = false -> (deadline e start <= t)%Q.
Proof.
  unfold running, deadline. destruct (exit_time e) as [x|]; [|discriminate].
  intros H. apply PyFacts.Qltb_ge in H.
  pose proof (Q.le_min_l x (start + 20)). lra.
Qed.

Lemma running_true (e : env) (start t : Q) :
  running e t = true -> (t - start <= 20)%Q -> (t <= deadline e start)%Q.
Proof.
  unfold running, deadline. destruct (exit_time e) as [x|].
  - intros H Ht. apply PyFacts.Qltb_lt in H.
    apply Q.min_glb; lra.
  - intros _ Ht. lra.
Qed.

(** The loop of [interact], entered at any point of its run at most
    twenty seconds after the start and with passes left for the rest:
    it ends; it does not end before the deadline; either no pass ran,
    or the last pass began at or before the deadline and the loop ends
    at most one second after it; and the target is terminated exactly
    when the loop ends more than twenty seconds after the start. *)
Lemma interact_loop_run (e : env) (start : Q) : forall fuel s,
  (now s - start <= 20)%Q ->
  (21 - (now s - start) <= inject_Z (Z.of_nat fuel))%Q ->
  exists s', interact_loop fuel e start s = Some s' /\
    (deadline e start <= now s')%Q /\
    (s' = s \/
     (now s <= deadline e start /\ now s + 1 <= now s' /\
      now s' <= deadline e start + 1)%Q) /\
    (terminated s = false ->
     (terminated s' = true <-> (20 < now s' - start)%Q)).
Proof.
  induction fuel as [|fuel IH]; intros s Hel Hfuel.
  - exfalso. change (inject_Z (Z.of_nat 0)) with 0%Q in Hfuel. lra.
  - cbn [interact_loop].
    destruct (running e (now s)) eqn:R.
    + pose proof (running_true e start (now s) R Hel) as Hd.
      cbn [now sleep console_log].
      destruct (Qltb 20 (now s + 1 - start)) eqn:B.
      * apply PyFacts.Qltb_lt in B.
        eexists. split; [reflexivity|].
        cbn [now terminate console_log sleep].
        assert (Hdl : (deadline e start <= start + 20)%Q).
        { unfold deadline. destruct (exit_time e) as [x|];
            [apply Q.le_min_r | lra]. }
        split; [lra|]. split; [right; split; [exact Hd | split; lra]|].
        intros _. cbn [terminated terminate console_log sleep].
        split; [intros _; exact B | reflexivity].
      * apply PyFacts.Qltb_ge in B.
        set (s2 := console_log
                     (Current_CPU_usage (process_cpu_percent e (now s + 1)))
                     (sleep 1 s)).
        assert (N2 : now s2 = (now s + 1)%Q) by reflexivity.
        destruct (IH s2) as (s' & E & D & W & T).
        { rewrite N2. lra. }
        { rewrite N2. rewrite PyFacts.inject_S in Hfuel. lra. }
        exists s'. split; [exact E|]. split; [exact D|].
        rewrite N2 in W. split.
        -- right. split; [exact Hd|].
           destruct W as [->|(W1 & W2 & W3)]; [rewrite N2|]; split; lra.
        -- intros Ht. apply T. exact Ht.
    + exists s. split; [reflexivity|].
      split; [now apply running_false|]. split; [left; reflexivity|].
      intros Ht. rewrite Ht. split; [discriminate | intros H; lra].
Qed.

End PowerJoularFacts.

(** ** The RAPL readers and the sampling loops of llama_power *)

Module LlamaPowerFacts.
Import Py PyFloatFacts PyFacts LlamaPower.
Local Open Scope py_scope.

(** Running [bind] and [try_except] once the first part is known. *)
Lemma bind_Ok {A B} (c : M A) (k : A -> M B) (s s' : state) (a : A) :
  c s = (Ok a, s') -> bind c k s = k a s'.
Proof. intros H. unfold bind. now rewrite H. Qed.

Lemma bind_Raise {A B} (c : M A) (k : A -> M B) (s s' : state) (ex : exn) :
  c s = (Raise ex, s') -> bind c k s = (Raise ex, s').
Proof. intros H. unfold bind. now rewrite H. Qed.

Lemma bind_OutOfFuel {A B} (c : M A) (k : A -> M B) (s s' : state) :
  c s = (OutOfFuel, s') -> bind c k s = (OutOfFuel, s').
Proof. intros H. unfold bind. now rewrite H. Qed.

Lemma try_except_Ok {A} (body : M A) h (s s' : state) (a : A) :
  body s = (Ok a, s') -> try_except body h s = (Ok a, s').
Proof. intros H. unfold try_except. now rewrite H. Qed.

Lemma try_except_caught {A} (body : M A) h (k : M A) (s s' : state) ex :
  body s = (Raise ex, s') -> h ex = Some k -> try_except body h s = k s'.
Proof. intros H Hh. unfold try_except. now rewrite H, Hh. Qed.

Lemma try_except_passed {A} (body : M A) h (s s' : state) ex :
  body s = (Raise ex, s') -> h ex = None ->
  try_except body h s = (Raise ex, s').
Proof. intros H Hh. unfold try_except. now rewrite H, Hh. Qed.

Lemma read_energy_uj_Some (file : Q -> option Z) (s : state) (n : Z) :
  file (now s) = Some n -> read_energy_uj file s = (Ok n, s).
Proof. intros H. unfold read_energy_uj. now rewrite H. Qed.

Lemma read_energy_uj_None (file : Q -> option Z) (s : state) :
  file (now s) = None -> read_energy_uj file s = (Raise FileNotFoundError, s).
Proof. intros H. unfold read_energy_uj. now rewrite H. Qed.

Lemma sleep_run (d : Q) (s : state) : sleep d s = (Ok tt, later d s).
Proof. reflexivity. Qed.

(** *** The readers *)

Lemma warn_once_run (msg : string) (s : state) :
  warn_once msg s = (Ok tt, warned msg s).
Proof.
  unfold warn_once, warned, bind, get_rapl_error_printed, print,
    set_rapl_error_printed, ret.
  destruct s as [t printed out]; cbn. destruct printed; reflexivity.
Qed.

Lemma now_warned (msg : string) (s : state) : now (warned msg s) = now s.
Proof. unfold warned. destruct (rapl_error_printed s); reflexivity. Qed.

Lemma warn_then_zero (msg : string) (s : state) :
  (warn_once msg ;; ret zero) s = (Ok zero, warned msg s).
Proof. now rewrite (bind_Ok _ _ s (warned msg s) tt (warn_once_run msg s)). Qed.

(** The file is missing when the reader opens it the first time. *)
Lemma get_power_absent (file : Q -> option Z) (msg : string) (s : state) :
  file (now s) = None ->
  get_power file msg s = (Ok zero, warned msg s).
Proof.
  intros H. unfold get_power.
  rewrite (try_except_caught _ _ (warn_once msg ;; ret zero) s s
             FileNotFoundError).
  - apply warn_then_zero.
  - apply bind_Raise, read_energy_uj_None, H.
  - reflexivity.
Qed.

(** The file is there before and after the second of sleep. *)
Lemma get_power_present (file : Q -> option Z) (msg : string) (s : state)
    (a b : Z) :
  file (now s) = Some a -> file (now s + 1)%Q = Some b ->
  get_power file msg s = (truediv (Int (b - a)) lit_1e6, later 1 s).
Proof.
  intros Ha Hb. unfold get_power.
  set (body := bind (read_energy_uj file) _).
  assert (Hbody : body s = (truediv (Int (b - a)) lit_1e6, later 1 s)).
  { unfold body.
    rewrite (bind_Ok _ _ s s a (read_energy_uj_Some file s a Ha)).
    rewrite (bind_Ok _ _ s (later 1 s) tt (sleep_run 1 s)).
    rewrite (bind_Ok _ _ (later 1 s) (later 1 s) b
               (read_energy_uj_Some file (later 1 s) b Hb)).
    rewrite (bind_Ok _ _ (later 1 s) (later 1 s) (Int (b - a))) by reflexivity.
    unfold bind, lift, ret.
    destruct (truediv (Int (b - a)) lit_1e6); reflexivity. }
  destruct (truediv (Int (b - a)) lit_1e6) as [x|ex|] eqn:E.
  - now apply try_except_Ok.
  - apply try_except_passed; [exact Hbody|].
    unfold truediv, lit_1e6, to_float, rbind, float_of_int in E.
    destruct (is_infinite (of_Z (b - a))); cbn in E; [|discriminate].
    injection E as <-. reflexivity.
  - unfold try_except. now rewrite Hbody.
Qed.

(** The file disappears during the second of sleep. *)
Lemma get_power_vanished (file : Q -> option Z) (msg : string) (s : state)
    (a : Z) :
  file (now s) = Some a -> file (now s + 1)%Q = None ->
  get_power file msg s = (Ok zero, warned msg (later 1 s)).
Proof.
  intros Ha Hb. unfold get_power.
  rewrite (try_except_caught _ _ (warn_once msg ;; ret zero) s (later 1 s)
             FileNotFoundError).
  - apply warn_then_zero.
  - rewrite (bind_Ok _ _ s s a (read_energy_uj_Some file s a Ha)).
    rewrite (bind_Ok _ _ s (later 1 s) tt (sleep_run 1 s)).
    apply bind_Raise, read_energy_uj_None, Hb.
  - reflexivity.
Qed.

Lemma at_most_one_warning_refl (s : state) : at_most_one_warning s s.
Proof. left. split; reflexivity. Qed.

Lemma at_most_one_warning_trans (s1 s2 s3 : state) :
  at_most_one_warning s1 s2 -> at_most_one_warning s2 s3 ->
  at_most_one_warning s1 s3.
Proof.
  intros [[Ho1 Hf1]|(Hf1 & Ht1 & msg1 & Ho1)] [[Ho2 Hf2]|(Hf2 & Ht2 & msg2 & Ho2)].
  - left. split; congruence.
  - right. split; [congruence|]. split; [exact Ht2|].
    exists msg2. congruence.
  - right. split; [exact Hf1|]. split; [congruence|].
    exists msg1. congruence.
  - congruence.
Qed.

Lemma at_most_one_warning_warned (msg : string) (s : state) :
  at_most_one_warning s (warned msg s).
Proof.
  unfold warned. destruct (rapl_error_printed s) eqn:E.
  - apply at_most_one_warning_refl.
  - right. cbn. split; [exact E|]. split; [reflexivity|].
    exists msg. reflexivity.
Qed.

Lemma at_most_one_warning_later (d : Q) (s : state) :
  at_most_one_warning s (later d s).
Proof. left. split; reflexivity. Qed.

(** The three ways a reader can run. *)
Lemma get_power_cases (file : Q -> option Z) (msg : string) (s : state) :
  get_power file msg s = (Ok zero, warned msg s) \/
  get_power file msg s = (Ok zero, warned msg (later 1 s)) \/
  exists d, get_power file msg s = (truediv (Int d) lit_1e6, later 1 s).
Proof.
  destruct (file (now s)) as [a|] eqn:Ha.
  - destruct (file (now s + 1)%Q) as [b|] eqn:Hb.
    + right. right. exists (b - a). now apply get_power_present.
    + right. left. now apply (get_power_vanished file msg s a).
  - left. now apply get_power_absent.
Qed.

Lemma get_power_warns_once (file : Q -> option Z) (msg : string) (s : state) :
  at_most_one_warning s (snd (get_power file msg s)).
Proof.
  destruct (get_power_cases file msg s) as [E|[E|[d E]]]; rewrite E; cbn [snd].
  - apply at_most_one_warning_warned.
  - eapply at_most_one_warning_trans;
      [apply at_most_one_warning_later | apply at_most_one_warning_warned].
  - apply at_most_one_warning_later.
Qed.

Lemma reader_get_power (e : env) (d : domain) :
  reader e d = get_power (energy_file e d) (reader_message d).
Proof. destruct d; reflexivity. Qed.

Lemma call_readers_warn_once (e : env) (ds : list domain) : forall s,
  at_most_one_warning s (snd (call_readers e ds s)).
Proof.
  induction ds as [|d ds IH]; intros s; cbn [call_readers].
  - apply at_most_one_warning_refl.
  - unfold bind. rewrite reader_get_power.
    pose proof (get_power_warns_once (energy_file e d) (reader_message d) s) as H1.
    destruct (get_power (energy_file e d) (reader_message d) s) as [[x|ex|] s1];
      cbn [snd] in *; try exact H1.
    pose proof (IH s1) as H2.
    destruct (call_readers e ds s1) as [[xs|ex|] s2]; cbn [snd ret] in *;
      eapply at_most_one_warning_trans; eassumption.
Qed.

(** C2, as the code has it. A reader whose file is absent returns 0.0 and
    warns only if no warning was printed before; the flag it sets is
    shared by the two readers, so however the readers of the two domains
    are called on one instance, at most one warning is printed in all,
    and none once the flag is set. *)
Theorem readers_share_one_warning (e : env) (ds : list domain) (s : state) :
  (forall d, energy_file e d (now s) = None ->
     reader e d s = (Ok zero, warned (reader_message d) s)) /\
  (exists w, stdout (snd (call_readers e ds s)) = stdout s ++ w /\
             (List.length w <= 1)%nat /\
             (rapl_error_printed s = true -> w = [])).
Proof.
  split.
  - intros d H. rewrite reader_get_power. now apply get_power_absent.
  - destruct (call_readers_warn_once e ds s) as [[Ho Hf]|(Hf & Ht & msg & Ho)].
    + exists []. rewrite Ho, app_nil_r. repeat split. cbn. lia.
    + exists [msg]. split; [exact Ho|]. split; [cbn; lia|].
      intros H. congruence.
Qed.

(** *** Time *)

(** The loop goes on exactly before the deadline. *)
Lemma keep_sampling_run (e : env) (start : Q) (s : state) :
  keep_sampling e start s =
  (Ok (running e (now s) && Qltb (now s - start) 10), s).
Proof. reflexivity. Qed.

Lemma before_deadline (e : env) (start t : Q) :
  running e t && Qltb (t - start) 10 = true <-> (t < deadline e start)%Q.
Proof.
  unfold running, deadline. rewrite andb_true_iff, Qltb_lt.
  destruct (exit_time e) as [x|].
  - rewrite Qltb_lt, Q.min_glb_lt_iff. split; intros [H1 H2]; split; lra.
  - split; [intros [_ H]; lra | intros H; split; [reflexivity | lra]].
Qed.

Lemma after_deadline (e : env) (start t : Q) :
  running e t && Qltb (t - start) 10 = false <-> (deadline e start <= t)%Q.
Proof.
  split.
  - intros H. apply Qnot_lt_le. intros L.
    apply before_deadline in L. congruence.
  - intros H. destruct (running e t && Qltb (t - start) 10) eqn:E;
      [|reflexivity].
    apply before_deadline in E. lra.
Qed.

(** A reader takes between no time and one second, and never diverges;
    with counters in range it returns. *)
Lemma get_power_step (file : Q -> option Z) (msg : string) (s : state) :
  exists r s', get_power file msg s = (r, s') /\
    (now s <= now s' <= now s + 1)%Q /\
    r <> OutOfFuel /\
    ((forall t c, file t = Some c -> 0 <= c < 2 ^ 64) -> exists x, r = Ok x).
Proof.
  destruct (file (now s)) as [a|] eqn:Ha.
  - destruct (file (now s + 1)%Q) as [b|] eqn:Hb.
    + exists (truediv (Int (b - a)) lit_1e6), (later 1 s).
      split; [now apply get_power_present|].
      split; [cbn; lra|]. split.
      * unfold truediv, lit_1e6, to_float, rbind, float_of_int.
        destruct (is_infinite (of_Z (b - a))); discriminate.
      * intros Hr.
        rewrite truediv_int_1e6
          by (apply u64_difference; [apply (Hr _ _ Hb) | apply (Hr _ _ Ha)]).
        eexists; reflexivity.
    + exists (Ok zero), (warned msg (later 1 s)).
      split; [now apply (get_power_vanished file msg s a)|].
      rewrite now_warned. split; [cbn; lra|].
      split; [discriminate | intros _; eexists; reflexivity].
  - exists (Ok zero), (warned msg s).
    split; [now apply get_power_absent|].
    rewrite now_warned. split; [lra|].
    split; [discriminate | intros _; eexists; reflexivity].
Qed.

(** One pass takes between one and three seconds and adds one sample to
    every list. *)
Lemma sample_once_step (e : env) (acc : samples) (s : state) :
  exists r s', sample_once e acc s = (r, s') /\
    (now s + 1 <= now s' <= now s + 3)%Q /\
    r <> OutOfFuel /\
    (forall acc' n, r = Ok acc' -> sizes acc n -> sizes acc' (S n)) /\
    (counters_in_range e -> exists acc', r = Ok acc').
Proof.
  unfold sample_once.
  rewrite (bind_Ok _ _ s (later 1 s) tt (sleep_run 1 s)).
  rewrite (bind_Ok _ _ (later 1 s) (later 1 s) (now (later 1 s)))
    by reflexivity.
  destruct (get_power_step (rapl_cpu e) msg_cpu_power (later 1 s))
    as (r1 & s1 & E1 & T1 & F1 & R1).
  fold (get_cpu_power e) in E1. cbn [now later] in T1.
  destruct r1 as [x|ex|]; [| |congruence].
  2:{ exists (Raise ex), s1. split; [now apply bind_Raise|].
      split; [lra|]. split; [discriminate|]. split; [discriminate|].
      intros Hr. destruct R1 as [y Hy]; [|discriminate].
      intros t c. apply (Hr Package). }
  rewrite (bind_Ok _ _ _ s1 x E1).
  destruct (get_power_step (rapl_mem e) msg_mem_power s1)
    as (r2 & s2 & E2 & T2 & F2 & R2).
  fold (get_memory_power e) in E2.
  destruct r2 as [y|ex|]; [| |congruence].
  2:{ exists (Raise ex), s2. split; [now apply bind_Raise|].
      split; [lra|]. split; [discriminate|]. split; [discriminate|].
      intros Hr. destruct R2 as [z Hz]; [|discriminate].
      intros t c. apply (Hr Dram). }
  rewrite (bind_Ok _ _ _ s2 y E2).
  eexists; exists s2. split; [reflexivity|].
  split; [lra|]. split; [discriminate|]. split.
  - intros acc' n E (H1 & H2 & H3 & H4). injection E as <-.
    unfold sizes. cbn. rewrite !length_app. cbn. lia.
  - intros _. eexists; reflexivity.
Qed.

(** The loop of [monitor_cpu_memory], started at any point of its run
    with enough passes left for the rest of the budget: it does not
    diverge; when it returns, the deadline has passed, and either no pass
    ran or the last pass began before the deadline, so that the loop ends
    less than three seconds after it; every pass adds one sample to every
    list; with counters in range the loop returns. *)
Lemma sampling_loop_run (e : env) (start : Q) : forall fuel acc s,
  (10 - (now s - start) <= inject_Z (Z.of_nat fuel))%Q ->
  exists r s', sampling_loop fuel e start acc s = (r, s') /\
    r <> OutOfFuel /\
    (forall acc', r = Ok acc' ->
       (deadline e start <= now s')%Q /\
       ((s' = s /\ acc' = acc) \/
        (now s < deadline e start /\ now s + 1 <= now s' /\
         now s' < deadline e start + 3)%Q) /\
       (forall n, sizes acc n ->
          exists k, (k <= fuel)%nat /\ sizes acc' (n + k))) /\
    (counters_in_range e -> exists acc', r = Ok acc').
Proof.
  induction fuel as [|fuel IH]; intros acc s Hfuel.
  - cbn [sampling_loop].
    rewrite (bind_Ok _ _ s s _ (keep_sampling_run e start s)).
    destruct (running e (now s) && Qltb (now s - start) 10) eqn:K.
    + exfalso. apply andb_true_iff in K. destruct K as [_ K].
      apply Qltb_lt in K. change (inject_Z (Z.of_nat 0)) with 0%Q in Hfuel. lra.
    + apply after_deadline in K.
      exists (Ok acc), s. split; [reflexivity|]. split; [discriminate|].
      split; [|intros _; eexists; reflexivity].
      intros acc' E. injection E as <-. split; [exact K|].
      split; [left; split; reflexivity|].
      intros n Hn. exists 0%nat. split; [lia|]. now rewrite Nat.add_0_r.
  - cbn [sampling_loop].
    rewrite (bind_Ok _ _ s s _ (keep_sampling_run e start s)).
    destruct (running e (now s) && Qltb (now s - start) 10) eqn:K.
    + apply before_deadline in K.
      destruct (sample_once_step e acc s) as (r1 & s1 & E1 & T1 & F1 & Z1 & R1).
      destruct r1 as [acc1|ex|]; [| |congruence].
      2:{ exists (Raise ex), s1. split; [now apply bind_Raise|].
          split; [discriminate|]. split; [discriminate|].
          intros Hr. destruct (R1 Hr) as [? ?]. discriminate. }
      rewrite (bind_Ok _ _ s s1 acc1 E1).
      assert (Hfuel1 : (10 - (now s1 - start) <= inject_Z (Z.of_nat fuel))%Q).
      { rewrite inject_S in Hfuel. lra. }
      destruct (IH acc1 s1 Hfuel1) as (r & s' & E & F & P & R).
      exists r, s'. split; [exact E|]. split; [exact F|].
      split; [|exact R].
      intros acc' Eacc. destruct (P acc' Eacc) as (D & W & Z).
      split; [exact D|]. split.
      * right. split; [exact K|].
        destruct W as [[-> _]|(W1 & W2 & W3)]; split; lra.
      * intros n Hn. destruct (Z (S n) (Z1 acc1 n eq_refl Hn)) as (k & Hk & Hs).
        exists (S k). split; [lia|].
        replace (n + S k)%nat with (S n + k)%nat by lia. exact Hs.
    + apply after_deadline in K.
      exists (Ok acc), s. split; [reflexivity|]. split; [discriminate|].
      split; [|intros _; eexists; reflexivity].
      intros acc' E. injection E as <-. split; [exact K|].
      split; [left; split; reflexivity|].
      intros n Hn. exists 0%nat. split; [lia|]. now rewrite Nat.add_0_r.
Qed.

(** *** [monitor_cpu_memory] *)

Lemma read_counters_run (e : env) (fallback : value * value) (s : state) :
  read_counters e fallback s =
  match rapl_cpu e (now s), rapl_mem e (now s) with
  | Some c, Some m => (Ok (Int c, Int m), s)
  | _, _ => (Ok fallback, warned msg_energy s)
  end.
Proof.
  unfold read_counters.
  assert (Hh : forall s0, (warn_once msg_energy ;; ret fallback) s0 =
                          (Ok fallback, warned msg_energy s0)).
  { intros s0.
    now rewrite (bind_Ok _ _ s0 _ tt (warn_once_run msg_energy s0)). }
  destruct (rapl_cpu e (now s)) as [c|] eqn:Hc.
  - destruct (rapl_mem e (now s)) as [m|] eqn:Hm.
    + apply try_except_Ok.
      rewrite (bind_Ok _ _ s s c (read_energy_uj_Some _ s c Hc)).
      rewrite (bind_Ok _ _ s s m (read_energy_uj_Some _ s m Hm)).
      reflexivity.
    + rewrite (try_except_caught _ _ (warn_once msg_energy ;; ret fallback)
                 s s FileNotFoundError); [apply Hh | | reflexivity].
      rewrite (bind_Ok _ _ s s c (read_energy_uj_Some _ s c Hc)).
      apply bind_Raise, read_energy_uj_None, Hm.
  - rewrite (try_except_caught _ _ (warn_once msg_energy ;; ret fallback)
               s s FileNotFoundError); [apply Hh | | reflexivity].
    apply bind_Raise, read_energy_uj_None, Hc.
Qed.

Lemma pow_2_53 : 2 ^ 53 = 9007199254740992.
Proof. reflexivity. Qed.

Lemma pow_2_64 : 2 ^ 64 = 18446744073709551616.
Proof. reflexivity. Qed.

(** The joules of two counter variables are computed without an
    exception. *)
Lemma energy_joules_total (final initial : value) :
  reading final -> reading initial ->
  exists x, energy_joules final initial = Ok (Float x).
Proof.
  unfold energy_joules.
  intros [->|(c1 & -> & H1)] [->|(c0 & -> & H0)].
  - eexists; reflexivity.
  - unfold sub, to_float, lit_0_0.
    rewrite float_of_int_in_range by (now apply u64_below_2_1023).
    cbn [rbind]. eexists; reflexivity.
  - unfold sub, to_float, lit_0_0.
    rewrite float_of_int_in_range by (now apply u64_below_2_1023).
    cbn [rbind]. eexists; reflexivity.
  - cbn [sub rbind].
    rewrite truediv_int_1e6 by (now apply u64_difference).
    eexists; reflexivity.
Qed.

Lemma initial_energy_reading (e : env) (t : Q) :
  counters_in_range e ->
  reading (fst (initial_energy e t)) /\ reading (snd (initial_energy e t)).
Proof.
  intros Hr. unfold initial_energy.
  destruct (rapl_cpu e t) as [c|] eqn:Hc;
    [destruct (rapl_mem e t) as [m|] eqn:Hm|];
    cbn [fst snd]; try (split; left; reflexivity).
  split; right; eexists; (split; [reflexivity|]).
  - apply (Hr Package t c Hc).
  - apply (Hr Dram t m Hm).
Qed.

Lemma final_energy_reading (e : env) (t : Q) (initial : value * value) :
  counters_in_range e ->
  reading (fst initial) -> reading (snd initial) ->
  reading (fst (final_energy e t initial)) /\
  reading (snd (final_energy e t initial)).
Proof.
  intros Hr H1 H2. unfold final_energy.
  destruct (rapl_cpu e t) as [c|] eqn:Hc;
    [destruct (rapl_mem e t) as [m|] eqn:Hm|];
    cbn [fst snd]; try (split; assumption).
  split; right; eexists; (split; [reflexivity|]).
  - apply (Hr Package t c Hc).
  - apply (Hr Dram t m Hm).
Qed.

(** The mean of at most ten samples is computed without an exception. *)
Lemma mean_or_total (default : value) (xs : list float) :
  (List.length xs <= 10)%nat -> exists v, mean_or default xs = Ok v.
Proof.
  intros H. destruct xs as [|x xs]; [eexists; reflexivity|].
  unfold mean_or. rewrite truediv_sum_len; [eexists; reflexivity|].
  rewrite pow_2_53. lia.
Qed.

Lemma read_counters_step (e : env) (fallback : value * value) (s : state) :
  exists s', read_counters e fallback s =
               (Ok (final_energy e (now s) fallback), s') /\
             now s' = now s.
Proof.
  rewrite read_counters_run. unfold final_energy.
  destruct (rapl_cpu e (now s)) as [c|];
    [destruct (rapl_mem e (now s)) as [m|]|];
    eexists; (split; [reflexivity|]); try apply now_warned; reflexivity.
Qed.

Lemma initial_is_final (e : env) (t : Q) :
  initial_energy e t = final_energy e t (lit_0_0, lit_0_0).
Proof. reflexivity. Qed.

(** One run of [monitor_cpu_memory] with counters in range: it returns;
    the loop ends at the first check at or after the deadline; the two
    energies are the joules of the counter variables of the two [try]
    blocks, the four averages the means of the lists. *)
Lemma monitor_cpu_memory_run (e : env) (s : state) :
  counters_in_range e ->
  exists m s' acc,
    monitor_cpu_memory e s = (Ok m, s') /\
    (deadline e (now s) <= now s')%Q /\
    ((now s' = now s /\ acc = no_samples) \/
     (now s < deadline e (now s) /\ now s + 1 <= now s' /\
      now s' < deadline e (now s) + 3)%Q) /\
    (exists k, (k <= 10)%nat /\ sizes acc k) /\
    (let initial := initial_energy e (now s) in
     let final := final_energy e (now s') initial in
     energy_joules (fst final) (fst initial) = Ok (cpu_energy_usage m) /\
     energy_joules (snd final) (snd initial) = Ok (mem_energy_usage m)) /\
    mean_or (Int 0) (cpu_usage acc) = Ok (avg_cpu m) /\
    mean_or (Int 0) (memory_usage acc) = Ok (avg_mem m) /\
    mean_or lit_0_0 (cpu_power_usage acc) = Ok (avg_cpu_power m) /\
    mean_or lit_0_0 (mem_power_usage acc) = Ok (avg_mem_power m).
Proof.
  intros Hr. unfold monitor_cpu_memory.
  destruct (read_counters_step e (lit_0_0, lit_0_0) s) as (s1 & E1 & T1).
  rewrite <- initial_is_final in E1.
  rewrite (bind_Ok _ _ s s1 _ E1).
  destruct (initial_energy_reading e (now s) Hr) as [Ri1 Ri2].
  destruct (initial_energy e (now s)) as [ic im] eqn:Ei. cbn [fst snd] in *.
  rewrite (bind_Ok _ _ s1 s1 (now s1)) by reflexivity.
  assert (Hfuel : (10 - (now s1 - now s1)
                   <= inject_Z (Z.of_nat sampling_passes))%Q).
  { unfold sampling_passes. change (inject_Z (Z.of_nat 10)) with 10%Q. lra. }
  destruct (sampling_loop_run e (now s1) sampling_passes no_samples s1 Hfuel)
    as (r & s2 & E2 & _ & P & R).
  destruct (R Hr) as [acc ->].
  destruct (P acc eq_refl) as (D & W & Z).
  rewrite (bind_Ok _ _ s1 s2 acc E2).
  destruct (read_counters_step e (ic, im) s2) as (s3 & E3 & T3).
  rewrite (bind_Ok _ _ s2 s3 _ E3).
  destruct (final_energy_reading e (now s2) (ic, im) Hr Ri1 Ri2) as [Rf1 Rf2].
  destruct (final_energy e (now s2) (ic, im)) as [fc fm] eqn:Ef.
  cbn [fst snd] in *.
  destruct (Z 0%nat) as (k & Hk & Hs); [repeat split|].
  cbn [Nat.add] in Hs. unfold sampling_passes in Hk.
  destruct (energy_joules_total fc ic Rf1 Ri1) as [jc Ejc].
  destruct (energy_joules_total fm im Rf2 Ri2) as [jm Ejm].
  pose proof Hs as (L1 & L2 & L3 & L4).
  destruct (mean_or_total (Int 0) (cpu_usage acc)) as [a1 A1]; [lia|].
  destruct (mean_or_total (Int 0) (memory_usage acc)) as [a2 A2]; [lia|].
  destruct (mean_or_total lit_0_0 (cpu_power_usage acc)) as [a3 A3]; [lia|].
  destruct (mean_or_total lit_0_0 (mem_power_usage acc)) as [a4 A4]; [lia|].
  unfold bind, lift, ret. rewrite Ejc, Ejm, A1, A2, A3, A4.
  eexists; exists s3, acc. split; [reflexivity|].
  rewrite T3. rewrite T1 in *.
  split; [exact D|]. split.
  - destruct W as [[-> ->]|W]; [left; split; [exact T1 | reflexivity]|].
    right. exact W.
  - split; [exists k; split; assumption|].
    cbn [cpu_energy_usage mem_energy_usage avg_cpu avg_mem
         avg_cpu_power avg_mem_power].
    rewrite Ef. cbn [fst snd]. repeat split; assumption.
Qed.

(** The joules computed from two counter variables. *)
Lemma energy_joules_ints (c1 c0 : Z) :
  Z.abs (c1 - c0) < 2 ^ 1023 ->
  energy_joules (Int c1) (Int c0) =
  Ok (Float (round3 (fdiv (of_Z (c1 - c0)) (of_Z 1000000)))).
Proof.
  intros H. unfold energy_joules. cbn [sub rbind].
  rewrite truediv_int_1e6 by exact H. reflexivity.
Qed.

Lemma energy_joules_same (v : value) :
  reading v -> energy_joules v v = Ok lit_0_0.
Proof.
  intros [->|(c & -> & H)]; [reflexivity|].
  unfold energy_joules. cbn [sub rbind]. rewrite Z.sub_diag. reflexivity.
Qed.

Lemma fsub_zero_r (x : float) : fsub x zero = x.
Proof. destruct x as [[|]|[|]| |s m e]; reflexivity. Qed.

Lemma energy_joules_from_zero (c1 : Z) :
  Z.abs c1 < 2 ^ 1023 ->
  energy_joules (Int c1) lit_0_0 =
  Ok (Float (round3 (fdiv (of_Z c1) (of_Z 1000000)))).
Proof.
  intros H. unfold energy_joules, sub, lit_0_0, to_float.
  rewrite float_of_int_in_range by exact H. cbn [rbind].
  rewrite fsub_zero_r. reflexivity.
Qed.

(** The energies of a run in which the four reads succeed. *)
Lemma monitor_cpu_memory_energy (e : env) (s : state) :
  counters_in_range e ->
  exists m s',
    monitor_cpu_memory e s = (Ok m, s') /\
    forall c0 m0 c1 m1,
      rapl_cpu e (now s) = Some c0 -> rapl_mem e (now s) = Some m0 ->
      rapl_cpu e (now s') = Some c1 -> rapl_mem e (now s') = Some m1 ->
      cpu_energy_usage m =
        Float (round3 (fdiv (of_Z (c1 - c0)) (of_Z 1000000))) /\
      mem_energy_usage m =
        Float (round3 (fdiv (of_Z (m1 - m0)) (of_Z 1000000))) /\
      Z.abs (c1 - c0) < 2 ^ 1023 /\ Z.abs (m1 - m0) < 2 ^ 1023.
Proof.
  intros Hr.
  destruct (monitor_cpu_memory_run e s Hr)
    as (m & s' & acc & E & _ & _ & _ & J & _).
  exists m, s'. split; [exact E|].
  intros c0 m0 c1 m1 Hc0 Hm0 Hc1 Hm1.
  cbv zeta in J. unfold initial_energy, final_energy in J.
  rewrite Hc0, Hm0, Hc1, Hm1 in J. cbn [fst snd] in J.
  pose proof (Hr Package _ _ Hc0). pose proof (Hr Package _ _ Hc1).
  pose proof (Hr Dram _ _ Hm0). pose proof (Hr Dram _ _ Hm1).
  destruct J as [Jc Jm].
  assert (Bc : Z.abs (c1 - c0) < 2 ^ 1023) by (now apply u64_difference).
  assert (Bm : Z.abs (m1 - m0) < 2 ^ 1023) by (now apply u64_difference).
  rewrite energy_joules_ints in Jc by exact Bc.
  rewrite energy_joules_ints in Jm by exact Bm.
  injection Jc as <-. injection Jm as <-.
  repeat split; assumption.
Qed.

(** C1, as the code has it. [monitor_cpu_memory] reads the counters of
    the two domains in one [try] at each end of the window. When the
    four reads succeed, with values in range, it returns, and for a
    domain whose counter did not decrease the energy metric is
    [(end - start) / 1e6] rounded to three decimals: the binary64 number
    nearest to [n / 1000] for the integer [n] nearest to a thousand
    times the quotient, the even one on a tie. It is not NaN and not
    negative. *)
Theorem energy_is_rounded_counter_delta (e : env) (s : state) :
  counters_in_range e ->
  exists m s',
    monitor_cpu_memory e s = (Ok m, s') /\
    forall c0 m0 c1 m1,
      rapl_cpu e (now s) = Some c0 -> rapl_mem e (now s) = Some m0 ->
      rapl_cpu e (now s') = Some c1 -> rapl_mem e (now s') = Some m1 ->
      (c0 <= c1 ->
       exists j,
         cpu_energy_usage m = Float j /\
         is_round3_of (fdiv (of_Z (c1 - c0)) (of_Z 1000000)) j /\
         is_nan j = false /\ sign_bit j = false) /\
      (m0 <= m1 ->
       exists j,
         mem_energy_usage m = Float j /\
         is_round3_of (fdiv (of_Z (m1 - m0)) (of_Z 1000000)) j /\
         is_nan j = false /\ sign_bit j = false).
Proof.
  intros Hr. destruct (monitor_cpu_memory_energy e s Hr) as (m & s' & E & J).
  exists m, s'. split; [exact E|].
  intros c0 m0 c1 m1 Hc0 Hm0 Hc1 Hm1.
  destruct (J c0 m0 c1 m1 Hc0 Hm0 Hc1 Hm1) as (Jc & Jm & Bc & Bm).
  split; intros Hle.
  - destruct (rounded_joules_sign (c1 - c0) Bc) as [Hn Hs].
    eexists. split; [exact Jc|]. split; [apply round3_spec|].
    split; [exact Hn|]. rewrite Hs. apply Z.ltb_ge. lia.
  - destruct (rounded_joules_sign (m1 - m0) Bm) as [Hn Hs].
    eexists. split; [exact Jm|]. split; [apply round3_spec|].
    split; [exact Hn|]. rewrite Hs. apply Z.ltb_ge. lia.
Qed.

(** C3, as the code has it. A counter that decreased over the window is
    not treated as unavailable: [monitor_cpu_memory] returns and reports
    [(end - start) / 1e6] rounded to three decimals with its negative
    sign, which is never the fallback 0.0. *)
Theorem negative_delta_is_reported (e : env) (s : state) :
  counters_in_range e ->
  exists m s',
    monitor_cpu_memory e s = (Ok m, s') /\
    forall c0 m0 c1 m1,
      rapl_cpu e (now s) = Some c0 -> rapl_mem e (now s) = Some m0 ->
      rapl_cpu e (now s') = Some c1 -> rapl_mem e (now s') = Some m1 ->
      (c1 < c0 ->
       let j := round3 (fdiv (of_Z (c1 - c0)) (of_Z 1000000)) in
       cpu_energy_usage m = Float j /\
       is_nan j = false /\ sign_bit j = true /\
       cpu_energy_usage m <> lit_0_0) /\
      (m1 < m0 ->
       let j := round3 (fdiv (of_Z (m1 - m0)) (of_Z 1000000)) in
       mem_energy_usage m = Float j /\
       is_nan j = false /\ sign_bit j = true /\
       mem_energy_usage m <> lit_0_0).
Proof.
  intros Hr. destruct (monitor_cpu_memory_energy e s Hr) as (m & s' & E & J).
  exists m, s'. split; [exact E|].
  intros c0 m0 c1 m1 Hc0 Hm0 Hc1 Hm1.
  destruct (J c0 m0 c1 m1 Hc0 Hm0 Hc1 Hm1) as (Jc & Jm & Bc & Bm).
  split; intros Hlt; cbv zeta.
  - destruct (rounded_joules_sign (c1 - c0) Bc) as [Hn Hs].
    assert (Hs' : sign_bit (round3 (fdiv (of_Z (c1 - c0)) (of_Z 1000000)))
                  = true) by (rewrite Hs; apply Z.ltb_lt; lia).
    split; [exact Jc|]. split; [exact Hn|]. split; [exact Hs'|].
    rewrite Jc. unfold lit_0_0. intros Heq.
    assert (Hz : round3 (fdiv (of_Z (c1 - c0)) (of_Z 1000000)) = zero)
      by congruence.
    rewrite Hz in Hs'. discriminate.
  - destruct (rounded_joules_sign (m1 - m0) Bm) as [Hn Hs].
    assert (Hs' : sign_bit (round3 (fdiv (of_Z (m1 - m0)) (of_Z 1000000)))
                  = true) by (rewrite Hs; apply Z.ltb_lt; lia).
    split; [exact Jm|]. split; [exact Hn|]. split; [exact Hs'|].
    rewrite Jm. unfold lit_0_0. intros Heq.
    assert (Hz : round3 (fdiv (of_Z (m1 - m0)) (of_Z 1000000)) = zero)
      by congruence.
    rewrite Hz in Hs'. discriminate.
Qed.

(** C9. The two domains share the [try] blocks. When the file of the
    memory domain is missing at the final read, the energy of the CPU
    domain is reported as 0.0 although its own file can be read, and
    when it is missing at the initial read only, the CPU energy is the
    final counter value itself, in joules. *)
Theorem missing_dram_file_corrupts_cpu_energy (e : env) (s : state) :
  counters_in_range e ->
  exists m s',
    monitor_cpu_memory e s = (Ok m, s') /\
    (forall c1,
       rapl_cpu e (now s') = Some c1 -> rapl_mem e (now s') = None ->
       cpu_energy_usage m = lit_0_0 /\ mem_energy_usage m = lit_0_0) /\
    (forall c0 c1 m1,
       rapl_cpu e (now s) = Some c0 -> rapl_mem e (now s) = None ->
       rapl_cpu e (now s') = Some c1 -> rapl_mem e (now s') = Some m1 ->
       cpu_energy_usage m = Float (round3 (fdiv (of_Z c1) (of_Z 1000000))) /\
       mem_energy_usage m = Float (round3 (fdiv (of_Z m1) (of_Z 1000000)))).
Proof.
  intros Hr.
  destruct (monitor_cpu_memory_run e s Hr)
    as (m & s' & acc & E & _ & _ & _ & J & _).
  exists m, s'. split; [exact E|]. cbv zeta in J.
  destruct (initial_energy_reading e (now s) Hr) as [Ri1 Ri2].
  split.
  - intros c1 Hc1 Hm1. unfold final_energy in J. rewrite Hc1, Hm1 in J.
    destruct J as [Jc Jm].
    rewrite energy_joules_same in Jc by exact Ri1.
    rewrite energy_joules_same in Jm by exact Ri2.
    injection Jc as <-. injection Jm as <-. split; reflexivity.
  - intros c0 c1 m1 Hc0 Hm0 Hc1 Hm1.
    unfold initial_energy, final_energy in J.
    rewrite Hc0, Hm0, Hc1, Hm1 in J. cbn [fst snd] in J.
    pose proof (Hr Package _ _ Hc1). pose proof (Hr Dram _ _ Hm1).
    destruct J as [Jc Jm].
    rewrite energy_joules_from_zero in Jc by (now apply u64_below_2_1023).
    rewrite energy_joules_from_zero in Jm by (now apply u64_below_2_1023).
    injection Jc as <-. injection Jm as <-. split; reflexivity.
Qed.

(** *** Concrete runs *)

Import Scenarios.

Lemma step_counter_in_range (t0 : Q) (a b : Z) (t : Q) (c : Z) :
  0 <= a < 2 ^ 64 -> 0 <= b < 2 ^ 64 ->
  step_counter t0 a b t = Some c -> 0 <= c < 2 ^ 64.
Proof.
  intros Ha Hb H. unfold step_counter in H.
  injection H as <-. destruct (Qle_bool t0 t); assumption.
Qed.

Ltac counters :=
  intros [|] t c H;
  cbv [energy_file rapl_cpu rapl_mem window wrapped no_dram late_dram absent]
    in H;
  try discriminate H;
  try (eapply step_counter_in_range; [| |exact H]; rewrite pow_2_64; lia).

Lemma window_in_range : counters_in_range window.
Proof. counters. Qed.

Lemma wrapped_in_range : counters_in_range wrapped.
Proof. counters. Qed.

Lemma no_dram_in_range : counters_in_range no_dram.
Proof. counters. Qed.

Lemma late_dram_in_range : counters_in_range late_dram.
Proof.
  counters. destruct (Qle_bool 1 t); [|discriminate].
  injection H as <-. rewrite pow_2_64. lia.
Qed.

Lemma uneven_in_range : counters_in_range uneven.
Proof.
  intros [|] t c H; cbv [energy_file rapl_cpu rapl_mem uneven] in H;
    (eapply step_counter_in_range; [| |exact H]; rewrite pow_2_64; lia).
Qed.

(** The scenario of the specification, 1,000,000 to 3,500,000
    microjoules, gives 2.5; 1,234,567 microjoules give 1.235, and
    62,500 microjoules, half-way, give 0.062 and not 0.063. *)
Lemma energy_is_rounded_counter_delta_witness :
  counters_in_range window /\ counters_in_range uneven /\
  (exists m s',
     monitor_cpu_memory window fresh = (Ok m, s') /\
     rapl_cpu window (now fresh) = Some 1000000 /\
     rapl_cpu window (now s') = Some 3500000 /\
     cpu_energy_usage m = Float f_2_5) /\
  (exists m s',
     monitor_cpu_memory uneven fresh = (Ok m, s') /\
     rapl_cpu uneven (now fresh) = Some 1000000 /\
     rapl_cpu uneven (now s') = Some 2234567 /\
     rapl_mem uneven (now fresh) = Some 5000 /\
     rapl_mem uneven (now s') = Some 67500 /\
     cpu_energy_usage m = Float (decimal 1235 3) /\
     mem_energy_usage m = Float (decimal 62 3)).
Proof.
  split; [exact window_in_range|]. split; [exact uneven_in_range|].
  split.
  - destruct (energy_is_rounded_counter_delta window fresh window_in_range)
      as (m & s' & E & J).
    exists m, s'. split; [exact E|].
    vm_compute in E. injection E as <- <-.
    repeat split; reflexivity.
  - destruct (energy_is_rounded_counter_delta uneven fresh uneven_in_range)
      as (m & s' & E & J).
    exists m, s'. split; [exact E|].
    vm_compute in E. injection E as <- <-.
    repeat split; reflexivity.
Defined.

(** The claim C1 fails when the file of the other domain is missing:
    the package counter goes from 1,000,000 to 3,500,000 microjoules,
    with start <= end, and the reported CPU energy is 0.0, not 2.5. *)
Lemma package_delta_lost_without_dram_file :
  exists m s',
    monitor_cpu_memory no_dram fresh = (Ok m, s') /\
    rapl_cpu no_dram (now fresh) = Some 1000000 /\
    rapl_cpu no_dram (now s') = Some 3500000 /\
    cpu_energy_usage m = lit_0_0 /\
    cpu_energy_usage m <> Float f_2_5.
Proof.
  eexists. eexists. split; [vm_compute; reflexivity|].
  split; [reflexivity|]. split; [reflexivity|].
  split; [reflexivity | discriminate].
Qed.

(** The claim C3 fails on a wrapped counter: the window from 3,500,000
    down to 1,000,000 microjoules is reported as -2.5 joules. *)
Lemma wrapped_counter_reports_minus_2_5 :
  exists m s',
    monitor_cpu_memory wrapped fresh = (Ok m, s') /\
    rapl_cpu wrapped (now fresh) = Some 3500000 /\
    rapl_cpu wrapped (now s') = Some 1000000 /\
    cpu_energy_usage m = Float (SFopp f_2_5) /\
    is_zero_value (cpu_energy_usage m) = false.
Proof.
  eexists. eexists. split; [vm_compute; reflexivity|].
  repeat split.
Qed.

Lemma negative_delta_is_reported_witness :
  counters_in_range wrapped /\
  exists m s',
    monitor_cpu_memory wrapped fresh = (Ok m, s') /\
    cpu_energy_usage m = Float (SFopp f_2_5) /\
    cpu_energy_usage m <> lit_0_0.
Proof.
  split; [exact wrapped_in_range|].
  destruct (negative_delta_is_reported wrapped fresh wrapped_in_range)
    as (m & s' & E & J).
  exists m, s'. split; [exact E|].
  vm_compute in E. injection E as <- <-.
  destruct (J 3500000 5000 1000000 6500 eq_refl eq_refl eq_refl eq_refl)
    as [Jc _].
  destruct (Jc ltac:(lia)) as (Jv & _ & _ & Jn).
  split; [exact Jv | exact Jn].
Defined.

Lemma missing_dram_file_corrupts_cpu_energy_witness :
  counters_in_range no_dram /\
  exists m s',
    monitor_cpu_memory no_dram fresh = (Ok m, s') /\
    rapl_cpu no_dram (now fresh) = Some 1000000 /\
    rapl_cpu no_dram (now s') = Some 3500000 /\
    cpu_energy_usage m = lit_0_0.
Proof.
  split; [exact no_dram_in_range|].
  destruct (missing_dram_file_corrupts_cpu_energy no_dram fresh
              no_dram_in_range) as (m & s' & E & A & _).
  exists m, s'. split; [exact E|].
  vm_compute in E. injection E as <- <-.
  split; [reflexivity|]. split; [reflexivity|].
  destruct (A 3500000 eq_refl eq_refl) as [Jc _]. exact Jc.
Defined.

(** With the file of the memory domain appearing during the window, the
    CPU energy is the final counter value, 3.5 joules, and not the 2.5
    joules of the window. *)
Example late_dram_reports_final_counter :
  exists m s',
    monitor_cpu_memory late_dram fresh = (Ok m, s') /\
    cpu_energy_usage m = Float (decimal 35 1).
Proof.
  eexists. eexists. split; [vm_compute; reflexivity|]. reflexivity.
Qed.

(** The claim C2 fails with both files absent: the CPU reader warns, the
    memory reader called after it prints nothing. *)
Lemma second_domain_gets_no_warning :
  let s' := snd (call_readers bare [Package; Dram] fresh) in
  energy_file bare Package (now fresh) = None /\
  energy_file bare Dram (now fresh) = None /\
  stdout s' = [msg_cpu_power] /\
  ~ In msg_mem_power (stdout s').
Proof.
  cbv zeta. split; [reflexivity|]. split; [reflexivity|].
  assert (E : stdout (snd (call_readers bare [Package; Dram] fresh))
              = [msg_cpu_power]) by (vm_compute; reflexivity).
  split; [exact E|]. rewrite E.
  intros [H|[]]. discriminate H.
Qed.

(** Two calls for the same domain print one warning. *)
Example same_domain_twice_warns_once :
  stdout (snd (call_readers bare [Package; Package] fresh)) = [msg_cpu_power].
Proof. vm_compute. reflexivity. Qed.

(** *** [monitor_gpu] *)

Lemma print_run (msg : string) (s : state) : print msg s = (Ok tt, printed msg s).
Proof. reflexivity. Qed.

Lemma check_output_not_found (e : env) (s : state) :
  nvidia_smi e (now s) = SmiNotFound ->
  check_output_nvidia_smi e s = (Raise FileNotFoundError, s).
Proof.
  intros H. unfold check_output_nvidia_smi.
  rewrite (bind_Ok _ _ s s (now s)) by reflexivity. now rewrite H.
Qed.

Lemma check_output_failed (e : env) (s : state) (msg : string) :
  nvidia_smi e (now s) = SmiFailed msg ->
  check_output_nvidia_smi e s =
  (Raise (CalledProcessError msg), later (smi_latency e) s).
Proof.
  intros H. unfold check_output_nvidia_smi.
  rewrite (bind_Ok _ _ s s (now s)) by reflexivity. rewrite H.
  now rewrite (bind_Ok _ _ s _ tt (sleep_run (smi_latency e) s)).
Qed.

Lemma check_output_lines (e : env) (s : state) (lines : list smi_line) :
  nvidia_smi e (now s) = SmiOutput lines ->
  check_output_nvidia_smi e s = (Ok lines, later (smi_latency e) s).
Proof.
  intros H. unfold check_output_nvidia_smi.
  rewrite (bind_Ok _ _ s s (now s)) by reflexivity. rewrite H.
  now rewrite (bind_Ok _ _ s _ tt (sleep_run (smi_latency e) s)).
Qed.

(** A pass in which the tool fails leaves the function with the three
    zeros, whatever the lists hold. *)
Lemma gpu_pass_fails (e : env) (power util : list float) (s : state) :
  tool_fails e (now s) ->
  exists s', gpu_pass e power util s = (Ok (Return gpu_fallback), s').
Proof.
  intros [H|[msg H]]; unfold gpu_pass.
  - exists (printed msg_smi_not_found s).
    rewrite (try_except_caught _ _
               (print msg_smi_not_found ;; ret (Return gpu_fallback))
               s s FileNotFoundError); [reflexivity | | reflexivity].
    apply bind_Raise, check_output_not_found, H.
  - exists (printed (msg_smi_failed msg) (later (smi_latency e) s)).
    rewrite (try_except_caught _ _
               (print (msg_smi_failed msg) ;; ret (Return gpu_fallback))
               s (later (smi_latency e) s) (CalledProcessError msg));
      [reflexivity | | reflexivity].
    apply bind_Raise, check_output_failed, H.
Qed.

(** A pass in which the tool answers goes on with longer lists or
    raises [ValueError], after the latency of the tool. *)
Lemma gpu_pass_answers (e : env) (power util : list float) (s : state)
    (lines : list smi_line) :
  nvidia_smi e (now s) = SmiOutput lines ->
  gpu_pass e power util s =
  (match parse_lines (strip_split lines) power util with
   | Ok acc => Ok (Continue (fst acc) (snd acc))
   | Raise ex => Raise ex
   | OutOfFuel => OutOfFuel
   end, later (smi_latency e) s) /\
  parse_lines (strip_split lines) power util <> OutOfFuel /\
  (forall ex, parse_lines (strip_split lines) power util = Raise ex -> ex = ValueError).
Proof.
  intros H.
  assert (P : forall ls p u, parse_lines ls p u <> OutOfFuel /\
              (forall ex, parse_lines ls p u = Raise ex -> ex = ValueError)).
  { induction ls as [|[pw ut|] ls IH]; intros p u; cbn [parse_lines].
    - split; [discriminate | intros ex E; discriminate].
    - apply IH.
    - split; [discriminate | intros ex E; now injection E as <-]. }
  split; [|apply P].
  unfold gpu_pass.
  set (body := bind (check_output_nvidia_smi e) _).
  assert (Hb : body s =
               (match parse_lines (strip_split lines) power util with
                | Ok acc => Ok (Continue (fst acc) (snd acc))
                | Raise ex => Raise ex
                | OutOfFuel => OutOfFuel
                end, later (smi_latency e) s)).
  { unfold body.
    rewrite (bind_Ok _ _ s _ lines (check_output_lines e s lines H)).
    unfold bind, lift, ret.
    destruct (parse_lines (strip_split lines) power util); reflexivity. }
  destruct (P (strip_split lines) power util) as [Pf Pv].
  destruct (parse_lines (strip_split lines) power util) as [acc|ex|] eqn:E.
  - now apply try_except_Ok.
  - rewrite (Pv ex eq_refl) in *. now apply try_except_passed.
  - congruence.
Qed.

Lemma gpu_passes_enough (e : env) :
  (0 < smi_latency e)%Q ->
  (10 <= inject_Z (Z.of_nat (gpu_passes e)) * smi_latency e)%Q.
Proof.
  intros HL. unfold gpu_passes. set (L := smi_latency e) in *.
  pose proof (Qle_ceiling (10 / L)) as Hc.
  assert (H0 : (0 <= 10 / L)%Q).
  { apply Qle_shift_div_l; [exact HL|]. lra. }
  assert (Hz : (0 <= Qceiling (10 / L))%Z).
  { rewrite Zle_Qle. change (inject_Z 0) with 0%Q. lra. }
  rewrite Nat2Z.inj_succ, Z2Nat.id by exact Hz.
  unfold Z.succ. rewrite inject_Z_plus.
  set (c := inject_Z (Qceiling (10 / L))) in *.
  assert (H1 : (10 / L * L <= c * L)%Q).
  { apply Qmult_le_compat_r; lra. }
  assert (H2 : (10 / L * L == 10)%Q).
  { field. lra. }
  change (inject_Z 1) with 1%Q.
  rewrite Qmult_plus_distr_l. lra.
Qed.

(** The loop of [monitor_gpu] with passes left for the rest of the
    budget does not diverge. *)
Lemma gpu_loop_run (e : env) (start : Q) :
  (0 < smi_latency e)%Q ->
  forall fuel power util s,
    (10 - (now s - start)
     <= inject_Z (Z.of_nat fuel) * smi_latency e)%Q ->
    fst (gpu_loop fuel e start power util s) <> OutOfFuel.
Proof.
  intros HL. induction fuel as [|fuel IH]; intros power util s Hfuel;
    cbn [gpu_loop];
    rewrite (bind_Ok _ _ s s _ (keep_sampling_run e start s));
    destruct (running e (now s) && Qltb (now s - start) 10) eqn:K;
    try (cbn; discriminate).
  - exfalso. apply andb_true_iff in K. destruct K as [_ K].
    apply Qltb_lt in K. change (inject_Z (Z.of_nat 0)) with 0%Q in Hfuel.
    lra.
  - destruct (nvidia_smi e (now s)) as [|msg|lines] eqn:T.
    + destruct (gpu_pass_fails e power util s) as (s' & E);
        [left; exact T|].
      rewrite (bind_Ok _ _ s s' _ E). cbn. discriminate.
    + destruct (gpu_pass_fails e power util s) as (s' & E);
        [right; exists msg; exact T|].
      rewrite (bind_Ok _ _ s s' _ E). cbn. discriminate.
    + destruct (gpu_pass_answers e power util s lines T) as (E & Pf & Pv).
      destruct (parse_lines (strip_split lines) power util) as [acc|ex|]; [| |congruence].
      * rewrite (bind_Ok _ _ s _ _ E). apply IH.
        cbn [now later]. rewrite inject_S, Qmult_plus_distr_l in Hfuel.
        lra.
      * rewrite (bind_Raise _ _ s _ _ E). cbn. discriminate.
Qed.

(** The loop leaves through a [return] only after a failed call of the
    tool, and then with the three zeros. *)
Lemma gpu_loop_return (e : env) (start : Q) : forall fuel power util s m s',
  gpu_loop fuel e start power util s = (Ok (Return m), s') ->
  m = gpu_fallback /\ exists t, tool_fails e t.
Proof.
  induction fuel as [|fuel IH]; intros power util s m s';
    cbn [gpu_loop];
    rewrite (bind_Ok _ _ s s _ (keep_sampling_run e start s));
    destruct (running e (now s) && Qltb (now s - start) 10);
    try (cbn; discriminate).
  destruct (nvidia_smi e (now s)) as [|msg|lines] eqn:T.
  - assert (F : tool_fails e (now s)) by (left; exact T).
    destruct (gpu_pass_fails e power util s F) as (s1 & E).
    rewrite (bind_Ok _ _ s s1 _ E). cbn. intros H. injection H as <- _.
    split; [reflexivity | exists (now s); exact F].
  - assert (F : tool_fails e (now s)) by (right; exists msg; exact T).
    destruct (gpu_pass_fails e power util s F) as (s1 & E).
    rewrite (bind_Ok _ _ s s1 _ E). cbn. intros H. injection H as <- _.
    split; [reflexivity | exists (now s); exact F].
  - destruct (gpu_pass_answers e power util s lines T) as (E & _ & _).
    destruct (parse_lines (strip_split lines) power util) as [acc|ex|].
    + rewrite (bind_Ok _ _ s _ _ E). apply IH.
    + rewrite (bind_Raise _ _ s _ _ E). discriminate.
    + rewrite (bind_OutOfFuel _ _ s _ E). discriminate.
Qed.

Lemma gpu_energy_formula (power : list float) :
  gpu_energy power =
  Ok (Float (round3 (fdiv (float_sum power) (of_Z 1000)))).
Proof. destruct power; reflexivity. Qed.

Lemma gpu_mean_nil : gpu_mean [] = Ok (Int 0).
Proof. reflexivity. Qed.

Lemma gpu_mean_returns_or_raises (xs : list float) : gpu_mean xs <> OutOfFuel.
Proof.
  destruct xs as [|x xs]; [discriminate|]. unfold gpu_mean.
  pose proof (truediv_returns_or_raises (sum (x :: xs)) (len (x :: xs))) as H.
  destruct (truediv (sum (x :: xs)) (len (x :: xs))); cbn [rbind];
    [discriminate | discriminate | congruence].
Qed.

(** The run of [monitor_gpu] after its loop. *)
Lemma monitor_gpu_after_loop (e : env) (s : state) :
  monitor_gpu e s =
  match gpu_loop (gpu_passes e) e (now s) [] [] s with
  | (Ok (Return m), s') => (Ok m, s')
  | (Ok (Continue power util), s') =>
      (rbind (gpu_energy power) (fun energy =>
       rbind (gpu_mean power) (fun a_power =>
       rbind (gpu_mean util) (fun a_util =>
       Ok {| avg_gpu_power := a_power;
             avg_gpu_utilization := a_util;
             gpu_energy_usage := energy |}))), s')
  | (Raise ex, s') => (Raise ex, s')
  | (OutOfFuel, s') => (OutOfFuel, s')
  end.
Proof.
  unfold monitor_gpu.
  rewrite (bind_Ok _ _ s s (now s)) by reflexivity.
  unfold bind at 1.
  destruct (gpu_loop (gpu_passes e) e (now s) [] [] s) as [[[p u|m]|ex|] s'];
    try reflexivity.
  unfold bind, lift, ret.
  destruct (gpu_energy p); cbn [rbind]; try reflexivity.
  destruct (gpu_mean p); cbn [rbind]; try reflexivity.
  destruct (gpu_mean u); reflexivity.
Qed.

(** C7. When the call of nvidia-smi that opens a pass fails, because the
    binary is absent or because the tool exits non-zero, the loop leaves
    with the three metrics at 0.0 whatever it had collected, and
    [monitor_gpu] started at such a moment returns three zeros without
    raising. *)
Theorem gpu_tool_failure_gives_zeros (e : env) (s : state) :
  tool_fails e (now s) ->
  (exists m s', monitor_gpu e s = (Ok m, s') /\ all_zero m /\
                (running e (now s) = true -> m = gpu_fallback)) /\
  (forall fuel start power util,
     running e (now s) && Qltb (now s - start) 10 = true ->
     exists s', gpu_loop (S fuel) e start power util s =
                (Ok (Return gpu_fallback), s')).
Proof.
  intros F.
  assert (L : forall fuel start power util,
            running e (now s) && Qltb (now s - start) 10 = true ->
            exists s', gpu_loop (S fuel) e start power util s =
                       (Ok (Return gpu_fallback), s')).
  { intros fuel start power util K. cbn [gpu_loop].
    rewrite (bind_Ok _ _ s s _ (keep_sampling_run e start s)), K.
    destruct (gpu_pass_fails e power util s F) as (s1 & E).
    rewrite (bind_Ok _ _ s s1 _ E). exists s1. reflexivity. }
  split; [|exact L].
  rewrite monitor_gpu_after_loop.
  destruct (running e (now s) && Qltb (now s - now s) 10) eqn:K.
  - destruct (L (Z.to_nat (Qceiling (10 / smi_latency e))) (now s) [] [] K)
      as (s' & E).
    unfold gpu_passes. rewrite E. exists gpu_fallback, s'.
    split; [reflexivity|]. split; [repeat split | reflexivity].
  - unfold gpu_passes. cbn [gpu_loop].
    rewrite (bind_Ok _ _ s s _ (keep_sampling_run e (now s) s)), K.
    cbn [ret]. exists gpu_nothing, s.
    split; [reflexivity|]. split; [repeat split|].
    intros R. rewrite R in K. cbn [andb] in K.
    apply Qltb_ge in K. lra.
Qed.

Lemma gpu_tool_failure_gives_zeros_witness :
  tool_fails bare (now fresh) /\
  monitor_gpu bare fresh =
    (Ok gpu_fallback, printed msg_smi_not_found fresh).
Proof.
  assert (F : tool_fails bare (now fresh)) by (left; reflexivity).
  split; [exact F|].
  destruct (gpu_tool_failure_gives_zeros bare fresh F)
    as [(m & s' & E & Z & R) _].
  rewrite E. vm_compute in E. injection E as <- <-. reflexivity.
Defined.

(** C4, as the code has it. With a tool that takes time, [monitor_gpu]
    does not diverge; when it returns after a loop that ran to its end,
    the energy is the sum of the collected power samples over [1e3],
    rounded to three decimals; when a call of the tool failed, the
    energy is 0.0 whatever was collected. *)
Theorem gpu_energy_is_rounded_sample_sum (e : env) (s : state) :
  (0 < smi_latency e)%Q ->
  exists r s',
    monitor_gpu e s = (r, s') /\
    r <> OutOfFuel /\
    forall m, r = Ok m ->
      (exists power util,
         gpu_loop (gpu_passes e) e (now s) [] [] s =
           (Ok (Continue power util), s') /\
         gpu_energy_usage m =
           Float (round3 (fdiv (float_sum power) (of_Z 1000)))) \/
      ((exists t, tool_fails e t) /\
       gpu_loop (gpu_passes e) e (now s) [] [] s =
         (Ok (Return gpu_fallback), s') /\
       m = gpu_fallback).
Proof.
  intros HL.
  assert (Hfuel : (10 - (now s - now s)
                   <= inject_Z (Z.of_nat (gpu_passes e)) * smi_latency e)%Q).
  { pose proof (gpu_passes_enough e HL). lra. }
  pose proof (gpu_loop_run e (now s) HL (gpu_passes e) [] [] s Hfuel) as NF.
  rewrite monitor_gpu_after_loop.
  destruct (gpu_loop (gpu_passes e) e (now s) [] [] s)
    as [[[p u|m0]|ex|] s'] eqn:E; cbn [fst] in NF; [| | |congruence].
  - eexists; exists s'. split; [reflexivity|].
    rewrite gpu_energy_formula. cbn [rbind]. split.
    + pose proof (gpu_mean_returns_or_raises p) as Hp.
      pose proof (gpu_mean_returns_or_raises u) as Hu.
      destruct (gpu_mean p); cbn [rbind]; [|discriminate|congruence].
      destruct (gpu_mean u); cbn [rbind]; [discriminate|discriminate|congruence].
    + intros m Hm. left. exists p, u. split; [reflexivity|].
      destruct (gpu_mean p); cbn [rbind] in Hm; [|discriminate..].
      destruct (gpu_mean u); cbn [rbind] in Hm; [|discriminate..].
      injection Hm as <-. reflexivity.
  - destruct (gpu_loop_return e (now s) _ _ _ _ _ _ E) as [-> T].
    exists (Ok gpu_fallback), s'. split; [reflexivity|].
    split; [discriminate|]. intros m Hm. injection Hm as <-.
    right. split; [exact T|]. split; reflexivity.
  - exists (Raise ex), s'. split; [reflexivity|].
    split; [discriminate|]. intros m Hm. discriminate.
Qed.

Lemma gpu_energy_is_rounded_sample_sum_witness :
  (0 < smi_latency two_polls)%Q /\
  exists m s',
    monitor_gpu two_polls fresh = (Ok m, s') /\
    gpu_loop (gpu_passes two_polls) two_polls (now fresh) [] [] fresh =
      (Ok (Continue [of_Z 100; of_Z 150] [of_Z 30; of_Z 40]), s') /\
    gpu_energy_usage m = Float f_0_25.
Proof.
  assert (HL : (0 < smi_latency two_polls)%Q) by reflexivity.
  split; [exact HL|].
  destruct (gpu_energy_is_rounded_sample_sum two_polls fresh HL)
    as (r & s' & E & _ & P).
  vm_compute in E. injection E as <- <-.
  eexists. eexists. split; [vm_compute; reflexivity|].
  split; [vm_compute; reflexivity|].
  destruct (P _ eq_refl) as [(p & u & El & Eg)|(_ & El & _)].
  - vm_compute in El. injection El as <- <-. vm_compute. reflexivity.
  - vm_compute in El. discriminate El.
Defined.

(** The claim C4 fails when the tool answers once and then exits
    non-zero: the sample of 100 W is collected, its energy would be 0.1,
    and the run reports 0.0. *)
Lemma failed_poll_discards_collected_samples :
  gpu_pass flaky [] [] fresh =
    (Ok (Continue [of_Z 100] [of_Z 30]), later (1 # 2) fresh) /\
  gpu_energy [of_Z 100] = Ok (Float f_0_1) /\
  (exists s', monitor_gpu flaky fresh = (Ok gpu_fallback, s')) /\
  gpu_energy_usage gpu_fallback <> Float f_0_1.
Proof.
  split; [vm_compute; reflexivity|].
  split; [vm_compute; reflexivity|].
  split; [eexists; vm_compute; reflexivity|].
  discriminate.
Qed.

End LlamaPowerFacts.

(** ** Whole runs: budgets, empty series, the CSV sink *)

Module RunFacts.
Import Py PyFacts Scenarios.

(** *** When the loops end *)



(** A workload that exits three seconds after the start ends the loop
    at the first test from three seconds on: at three seconds when the
    passes take three seconds (both files) or one second (no file), at
    four seconds when they take two (the file of one domain missing). *)
Example exit_at_three_seconds_ends_the_loop :
  (exists acc s',
     LlamaPower.sampling_loop LlamaPower.sampling_passes window
       (LlamaPower.now LlamaPower.fresh) LlamaPower.no_samples
       LlamaPower.fresh = (Ok acc, s') /\
     (LlamaPower.now s' == 3)%Q) /\
  (exists acc s',
     LlamaPower.sampling_loop LlamaPower.sampling_passes bare
       (LlamaPower.now LlamaPower.fresh) LlamaPower.no_samples
       LlamaPower.fresh = (Ok acc, s') /\
     (LlamaPower.now s' == 3)%Q) /\
  (exists acc s',
     LlamaPower.sampling_loop LlamaPower.sampling_passes no_dram
       (LlamaPower.now LlamaPower.fresh) LlamaPower.no_samples
       LlamaPower.fresh = (Ok acc, s') /\
     (LlamaPower.now s' == 4)%Q).
Proof.
  split; [|split]; eexists; eexists;
    (split; [vm_compute; reflexivity | reflexivity]).
Qed.

(** A target that never exits is terminated, more than twenty seconds
    after the start. *)
Example endless_target_is_terminated :
  exists s',
    PowerJoular.interact_loop PowerJoular.interact_passes endless_target
      (PowerJoular.now PowerJoular.fresh) PowerJoular.fresh = Some s' /\
    PowerJoular.terminated s' = true /\
    (20 < PowerJoular.now s' - PowerJoular.now PowerJoular.fresh)%Q.
Proof.
  eexists. split; [vm_compute; reflexivity|]. split; reflexivity.
Qed.

(** *** Empty series *)

Lemma no_pass_after_exit (e : LlamaPower.env) (start t : Q) :
  LlamaPower.running e t = false -> (LlamaPower.deadline e start <= t)%Q.
Proof.
  intros R. apply LlamaPowerFacts.after_deadline. now rewrite R.
Qed.

Lemma monitor_gpu_no_pass (e : LlamaPower.env) (s : LlamaPower.state) :
  LlamaPower.running e (LlamaPower.now s) = false ->
  LlamaPower.monitor_gpu e s = (Ok LlamaPower.gpu_nothing, s).
Proof.
  intros R. rewrite LlamaPowerFacts.monitor_gpu_after_loop.
  unfold LlamaPower.gpu_passes. cbn [LlamaPower.gpu_loop].
  rewrite (LlamaPowerFacts.bind_Ok _ _ s s _
             (LlamaPowerFacts.keep_sampling_run e (LlamaPower.now s) s)).
  rewrite R. reflexivity.
Qed.

Lemma no_column_no_lookup (df : PowerJoular.dataframe) (name : string) :
  PowerJoular.has_column df name = false ->
  PowerJoular.mean_or_0 df name = Int 0 /\
  PowerJoular.sum_or_0 df name = Int 0.
Proof.
  intros H. unfold PowerJoular.mean_or_0, PowerJoular.sum_or_0.
  rewrite H. split; reflexivity.
Qed.

Lemma empty_column_sum_and_mean (df : PowerJoular.dataframe) (name : string) :
  PowerJoular.has_column df name = true ->
  PowerJoular.column df name = [] ->
  is_zero_value (PowerJoular.sum_or_0 df name) = true /\
  PowerJoular.mean_or_0 df name = Float nan.
Proof.
  intros H C. unfold PowerJoular.mean_or_0, PowerJoular.sum_or_0.
  rewrite H, C. split; reflexivity.
Qed.

(** C6, as the code has it. In llama_power the reductions of an empty
    list give the integer 0 or the float 0.0 without raising: a run
    whose workload has already exited when monitoring starts collects
    nothing and returns 0, 0, 0.0, 0.0 for the four averages of
    [monitor_cpu_memory] and 0, 0, 0.0 for [monitor_gpu]. In
    powerjoular_test a metric is 0 when its column is missing from the
    frame, and the sum of a column that is there without a row is zero
    as well; the mean of such a column alone is NaN. *)
Theorem empty_series_reduce_to_zero :
  (forall default,
     LlamaPower.mean_or default [] = Ok default) /\
  LlamaPower.gpu_mean [] = Ok (Int 0) /\
  LlamaPower.gpu_energy [] = Ok lit_0_0 /\
  (forall (e : LlamaPower.env) (s : LlamaPower.state),
     LlamaPower.counters_in_range e ->
     LlamaPower.running e (LlamaPower.now s) = false ->
     exists m s',
       LlamaPower.monitor_cpu_memory e s = (Ok m, s') /\
       LlamaPower.avg_cpu m = Int 0 /\
       LlamaPower.avg_mem m = Int 0 /\
       LlamaPower.avg_cpu_power m = lit_0_0 /\
       LlamaPower.avg_mem_power m = lit_0_0) /\
  (forall (e : LlamaPower.env) (s : LlamaPower.state),
     LlamaPower.running e (LlamaPower.now s) = false ->
     LlamaPower.monitor_gpu e s = (Ok LlamaPower.gpu_nothing, s)) /\
  (forall (df : PowerJoular.dataframe) (name : string),
     PowerJoular.has_column df name = false ->
     PowerJoular.mean_or_0 df name = Int 0 /\
     PowerJoular.sum_or_0 df name = Int 0) /\
  (forall (df : PowerJoular.dataframe) (name : string),
     PowerJoular.has_column df name = true ->
     PowerJoular.column df name = [] ->
     is_zero_value (PowerJoular.sum_or_0 df name) = true /\
     PowerJoular.mean_or_0 df name = Float nan).
Proof.
  split; [reflexivity|]. split; [reflexivity|]. split; [reflexivity|].
  split; [|split; [exact monitor_gpu_no_pass |
                   split; [exact no_column_no_lookup |
                           exact empty_column_sum_and_mean]]].
  intros e s Hr R.
  destruct (LlamaPowerFacts.monitor_cpu_memory_run e s Hr)
    as (m & s' & acc & E & D & W & _ & _ & A1 & A2 & A3 & A4).
  exists m, s'. split; [exact E|].
  pose proof (no_pass_after_exit e (LlamaPower.now s) _ R) as Hd.
  destruct W as [[_ ->]|(W & _)]; [|lra].
  cbn in A1, A2, A3, A4.
  injection A1 as <-. injection A2 as <-.
  injection A3 as <-. injection A4 as <-.
  repeat split.
Qed.

Lemma empty_series_reduce_to_zero_witness :
  LlamaPower.counters_in_range window /\
  LlamaPower.running window 5 = false /\
  PowerJoular.has_column header_only "GPU Power" = false /\
  (exists m s',
     LlamaPower.monitor_cpu_memory window (LlamaPower.later 5 LlamaPower.fresh)
       = (Ok m, s') /\
     LlamaPower.avg_cpu m = Int 0 /\
     LlamaPower.avg_cpu_power m = lit_0_0) /\
  LlamaPower.monitor_gpu window (LlamaPower.later 5 LlamaPower.fresh)
    = (Ok LlamaPower.gpu_nothing, LlamaPower.later 5 LlamaPower.fresh) /\
  PowerJoular.mean_or_0 header_only "GPU Power" = Int 0 /\
  PowerJoular.has_column header_only "CPU Power" = true /\
  PowerJoular.column header_only "CPU Power" = [] /\
  is_zero_value (PowerJoular.sum_or_0 header_only "CPU Power") = true.
Proof.
  destruct empty_series_reduce_to_zero as (_ & _ & _ & C & G & P & Z).
  split; [exact LlamaPowerFacts.window_in_range|].
  split; [reflexivity|]. split; [reflexivity|].
  split; [|split].
  - destruct (C window (LlamaPower.later 5 LlamaPower.fresh)
                LlamaPowerFacts.window_in_range eq_refl)
      as (m & s' & E & A1 & _ & A3 & _).
    exists m, s'. repeat split; assumption.
  - apply G. reflexivity.
  - split; [apply (P header_only "GPU Power"%string); reflexivity|].
    split; [reflexivity|]. split; [reflexivity|].
    apply (Z header_only "CPU Power"%string); reflexivity.
Defined.

(** The claim C6 fails in powerjoular_test on a frame with a column and
    no row: the mean of the empty column is NaN, and so is the metric. *)
Lemma header_only_frame_gives_nan :
  PowerJoular.has_column header_only "CPU Power" = true /\
  PowerJoular.column header_only "CPU Power" = [] /\
  PowerJoular.mean_or_0 header_only "CPU Power" = Float nan /\
  is_nan nan = true /\
  In ("avg_cpu_power"%string, Float nan) (PowerJoular.run_metrics header_only).
Proof.
  repeat split. right. left. reflexivity.
Qed.

(** *** The CSV sink *)


End RunFacts.


(** ** More on the sampling functions of llama_power *)

Module LlamaPowerMore.
Import Py PyFloatFacts PyFacts LlamaPower LlamaPowerFacts Hooks.
Local Open Scope py_scope.

(** *** [monitor_cpu_memory] around its loop *)

Lemma now_after_read (e : env) (s : state) : now (after_read e s) = now s.
Proof.
  unfold after_read.
  destruct (rapl_cpu e (now s)); [destruct (rapl_mem e (now s))|];
    try apply now_warned; reflexivity.
Qed.

Lemma read_counters_after (e : env) (fallback : value * value) (s : state) :
  read_counters e fallback s =
  (Ok (final_energy e (now s) fallback), after_read e s).
Proof.
  rewrite read_counters_run. unfold final_energy, after_read.
  destruct (rapl_cpu e (now s)); [destruct (rapl_mem e (now s))|]; reflexivity.
Qed.

Lemma monitor_cpu_memory_after_loop (e : env) (s : state) :
  monitor_cpu_memory e s =
  match sampling_loop sampling_passes e (now s) no_samples (after_read e s) with
  | (Ok acc, s2) =>
      (reduce (initial_energy e (now s))
         (final_energy e (now s2) (initial_energy e (now s))) acc,
       after_read e s2)
  | (Raise ex, s2) => (Raise ex, s2)
  | (OutOfFuel, s2) => (OutOfFuel, s2)
  end.
Proof.
  unfold monitor_cpu_memory.
  rewrite (bind_Ok _ _ s _ _ (read_counters_after e (lit_0_0, lit_0_0) s)).
  rewrite <- initial_is_final.
  destruct (initial_energy e (now s)) as [ic im] eqn:Ei.
  rewrite (bind_Ok _ _ (after_read e s) (after_read e s) (now (after_read e s)))
    by reflexivity.
  rewrite now_after_read.
  unfold bind at 1.
  destruct (sampling_loop sampling_passes e (now s) no_samples (after_read e s))
    as [[acc|ex|] s2]; try reflexivity.
  rewrite (bind_Ok _ _ s2 _ _ (read_counters_after e (ic, im) s2)).
  destruct (final_energy e (now s2) (ic, im)) as [fc fm].
  unfold reduce, bind, lift, ret. cbn [fst snd].
  destruct (energy_joules fc ic); cbn [rbind]; try reflexivity.
  destruct (energy_joules fm im); cbn [rbind]; try reflexivity.
  destruct (mean_or (Int 0) (cpu_usage acc)); cbn [rbind]; try reflexivity.
  destruct (mean_or (Int 0) (memory_usage acc)); cbn [rbind]; try reflexivity.
  destruct (mean_or lit_0_0 (cpu_power_usage acc)); cbn [rbind]; try reflexivity.
  destruct (mean_or lit_0_0 (mem_power_usage acc)); reflexivity.
Qed.

(** *** What a run prints *)

Lemma after_read_warns_once (e : env) (s : state) :
  at_most_one_warning s (after_read e s).
Proof.
  unfold after_read.
  destruct (rapl_cpu e (now s)); [destruct (rapl_mem e (now s))|];
    try apply at_most_one_warning_warned; apply at_most_one_warning_refl.
Qed.

Lemma sample_once_warns_once (e : env) (acc : samples) (s : state) :
  at_most_one_warning s (snd (sample_once e acc s)).
Proof.
  unfold sample_once.
  rewrite (bind_Ok _ _ s (later 1 s) tt (sleep_run 1 s)).
  rewrite (bind_Ok _ _ (later 1 s) (later 1 s) (now (later 1 s))) by reflexivity.
  apply (at_most_one_warning_trans s (later 1 s));
    [apply at_most_one_warning_later|].
  unfold bind at 1.
  pose proof (get_power_warns_once (rapl_cpu e) msg_cpu_power (later 1 s)) as H1.
  fold (get_cpu_power e) in H1.
  destruct (get_cpu_power e (later 1 s)) as [[x|ex|] s1]; cbn [snd] in *;
    try exact H1.
  unfold bind at 1.
  pose proof (get_power_warns_once (rapl_mem e) msg_mem_power s1) as H2.
  fold (get_memory_power e) in H2.
  destruct (get_memory_power e s1) as [[y|ex|] s2]; cbn [snd ret] in *;
    eapply at_most_one_warning_trans; eassumption.
Qed.

Lemma sampling_loop_warns_once (e : env) (start : Q) : forall fuel acc s,
  at_most_one_warning s (snd (sampling_loop fuel e start acc s)).
Proof.
  induction fuel as [|fuel IH]; intros acc s; cbn [sampling_loop];
    rewrite (bind_Ok _ _ s s _ (keep_sampling_run e start s));
    destruct (running e (now s) && Qltb (now s - start) 10);
    try apply at_most_one_warning_refl.
  unfold bind at 1.
  pose proof (sample_once_warns_once e acc s) as H1.
  destruct (sample_once e acc s) as [[acc1|ex|] s1]; cbn [snd] in *;
    try exact H1.
  eapply at_most_one_warning_trans; [exact H1 | apply IH].
Qed.

Lemma monitor_cpu_memory_warns_once (e : env) (s : state) :
  at_most_one_warning s (snd (monitor_cpu_memory e s)).
Proof.
  rewrite monitor_cpu_memory_after_loop.
  pose proof (after_read_warns_once e s) as H1.
  pose proof (sampling_loop_warns_once e (now s) sampling_passes no_samples
                (after_read e s)) as H2.
  destruct (sampling_loop sampling_passes e (now s) no_samples (after_read e s))
    as [[acc|ex|] s2]; cbn [snd] in *.
  - eapply at_most_one_warning_trans; [exact H1|].
    eapply at_most_one_warning_trans; [exact H2|].
    apply after_read_warns_once.
  - eapply at_most_one_warning_trans; eassumption.
  - eapply at_most_one_warning_trans; eassumption.
Qed.

(** The two ways a pass of the GPU loop fails, with the state it leaves. *)
Lemma gpu_pass_not_found (e : env) (power util : list float) (s : state) :
  nvidia_smi e (now s) = SmiNotFound ->
  gpu_pass e power util s =
  (Ok (Return gpu_fallback), printed msg_smi_not_found s).
Proof.
  intros H. unfold gpu_pass.
  rewrite (try_except_caught _ _
             (print msg_smi_not_found ;; ret (Return gpu_fallback))
             s s FileNotFoundError); [reflexivity | | reflexivity].
  apply bind_Raise, check_output_not_found, H.
Qed.

Lemma gpu_pass_exit_status (e : env) (power util : list float) (s : state)
    (msg : string) :
  nvidia_smi e (now s) = SmiFailed msg ->
  gpu_pass e power util s =
  (Ok (Return gpu_fallback),
   printed (msg_smi_failed msg) (later (smi_latency e) s)).
Proof.
  intros H. unfold gpu_pass.
  rewrite (try_except_caught _ _
             (print (msg_smi_failed msg) ;; ret (Return gpu_fallback))
             s (later (smi_latency e) s) (CalledProcessError msg));
    [reflexivity | | reflexivity].
  apply bind_Raise, check_output_failed, H.
Qed.

(** The GPU loop leaves the flag alone and prints at most one line, and
    that only when it leaves through a [return]. *)
Lemma gpu_loop_prints (e : env) (start : Q) : forall fuel power util s,
  let r := fst (gpu_loop fuel e start power util s) in
  let s' := snd (gpu_loop fuel e start power util s) in
  rapl_error_printed s' = rapl_error_printed s /\
  exists g, stdout s' = stdout s ++ g /\ (List.length g <= 1)%nat /\
            (g <> [] -> r = Ok (Return gpu_fallback)).
Proof.
  induction fuel as [|fuel IH]; intros power util s; cbv zeta;
    cbn [gpu_loop];
    rewrite (bind_Ok _ _ s s _ (keep_sampling_run e start s));
    destruct (running e (now s) && Qltb (now s - start) 10);
    try (cbn; split; [reflexivity|]; exists []; rewrite app_nil_r;
         split; [reflexivity|]; split; [cbn; lia | intros H; congruence]).
  destruct (nvidia_smi e (now s)) as [|msg|lines] eqn:T.
  - rewrite (bind_Ok _ _ s _ _ (gpu_pass_not_found e power util s T)).
    cbn. split; [reflexivity|]. exists [msg_smi_not_found].
    split; [reflexivity|]. split; [cbn; lia | reflexivity].
  - rewrite (bind_Ok _ _ s _ _ (gpu_pass_exit_status e power util s msg T)).
    cbn. split; [reflexivity|]. exists [msg_smi_failed msg].
    split; [reflexivity|]. split; [cbn; lia | reflexivity].
  - destruct (gpu_pass_answers e power util s lines T) as (E & _ & _).
    destruct (parse_lines (strip_split lines) power util) as [acc|ex|].
    + rewrite (bind_Ok _ _ s _ _ E).
      specialize (IH (fst acc) (snd acc) (later (smi_latency e) s)).
      cbv zeta in IH. exact IH.
    + rewrite (bind_Raise _ _ s _ _ E). cbn.
      split; [reflexivity|]. exists []. rewrite app_nil_r.
      split; [reflexivity|]. split; [cbn; lia | intros H; congruence].
    + rewrite (bind_OutOfFuel _ _ s _ E). cbn.
      split; [reflexivity|]. exists []. rewrite app_nil_r.
      split; [reflexivity|]. split; [cbn; lia | intros H; congruence].
Qed.

Lemma monitor_gpu_prints (e : env) (s : state) :
  let r := fst (monitor_gpu e s) in
  let s' := snd (monitor_gpu e s) in
  rapl_error_printed s' = rapl_error_printed s /\
  exists g, stdout s' = stdout s ++ g /\ (List.length g <= 1)%nat /\
            (g <> [] -> r = Ok gpu_fallback).
Proof.
  cbv zeta. rewrite monitor_gpu_after_loop.
  pose proof (gpu_loop_prints e (now s) (gpu_passes e) [] [] s) as H.
  cbv zeta in H.
  destruct (gpu_loop (gpu_passes e) e (now s) [] [] s) as [[[p u|m]|ex|] s'];
    cbn [fst snd] in *; destruct H as (Hf & g & Hg & Hl & Hr);
    (split; [exact Hf|]); exists g; (split; [exact Hg|]);
    (split; [exact Hl|]); intros Hne; specialize (Hr Hne);
    try discriminate Hr.
  injection Hr as ->. reflexivity.
Qed.

Lemma monitor_usage_steps (e : env) (s : state) :
  monitor_usage e s =
  match monitor_cpu_memory e s with
  | (Ok cm, s1) =>
      match monitor_gpu e s1 with
      | (Ok g, s2) => (Ok (cm, g), s2)
      | (Raise ex, s2) => (Raise ex, s2)
      | (OutOfFuel, s2) => (OutOfFuel, s2)
      end
  | (Raise ex, s1) => (Raise ex, s1)
  | (OutOfFuel, s1) => (OutOfFuel, s1)
  end.
Proof.
  unfold monitor_usage, bind, ret.
  destruct (monitor_cpu_memory e s) as [[cm|ex|] s1]; reflexivity.
Qed.

(** X1. Whatever the files, the workload and the tool do, one call of
    [monitor_usage] prints at most two lines: at most one RAPL warning,
    none if the flag was already set, then at most one line about
    nvidia-smi, and that only when the GPU metrics are abandoned; the
    flag, once set, stays set. *)
Theorem monitor_usage_prints_at_most_two_lines (e : env) (s : state) :
  let s' := snd (monitor_usage e s) in
  exists w g,
    stdout s' = stdout s ++ w ++ g /\
    (List.length w <= 1)%nat /\ (List.length g <= 1)%nat /\
    (rapl_error_printed s = true -> w = [] /\ rapl_error_printed s' = true) /\
    (w <> [] -> rapl_error_printed s' = true) /\
    (g <> [] -> exists cm, fst (monitor_usage e s) = Ok (cm, gpu_fallback)).
Proof.
  cbv zeta. rewrite monitor_usage_steps.
  pose proof (monitor_cpu_memory_warns_once e s) as H1.
  assert (W : forall s1, at_most_one_warning s s1 ->
            exists w, stdout s1 = stdout s ++ w /\ (List.length w <= 1)%nat /\
              (rapl_error_printed s = true ->
               w = [] /\ rapl_error_printed s1 = true) /\
              (w <> [] -> rapl_error_printed s1 = true)).
  { intros s1 [[Ho Hf]|(Hf & Ht & msg & Ho)].
    - exists []. rewrite app_nil_r. split; [exact Ho|]. split; [cbn; lia|].
      split; [intros H; split; [reflexivity | congruence]|].
      intros H; congruence.
    - exists [msg]. split; [exact Ho|]. split; [cbn; lia|].
      split; [intros H; congruence | intros _; exact Ht]. }
  destruct (monitor_cpu_memory e s) as [[cm|ex|] s1]; cbn [snd] in H1;
    destruct (W s1 H1) as (w & Hw & Lw & Fw & Nw).
  - pose proof (monitor_gpu_prints e s1) as H2. cbv zeta in H2.
    destruct (monitor_gpu e s1) as [[g0|ex|] s2]; cbn [fst snd] in *;
      destruct H2 as (Hf & g & Hg & Lg & Rg);
      exists w, g; rewrite Hg, Hw, <- app_assoc;
      (split; [reflexivity|]); (split; [exact Lw|]); (split; [exact Lg|]);
      rewrite Hf; (split; [exact Fw|]); (split; [exact Nw|]);
      intros Hne; specialize (Rg Hne); try discriminate Rg.
    injection Rg as ->. exists cm. reflexivity.
  - exists w, []. cbn [snd fst]. rewrite app_nil_r.
    split; [exact Hw|]. split; [exact Lw|]. split; [cbn; lia|].
    split; [exact Fw|]. split; [exact Nw|]. intros H; congruence.
  - exists w, []. cbn [snd fst]. rewrite app_nil_r.
    split; [exact Hw|]. split; [exact Lw|]. split; [cbn; lia|].
    split; [exact Fw|]. split; [exact Nw|]. intros H; congruence.
Qed.

(** *** Without a RAPL interface *)

Lemma warned_when_set (msg : string) (s : state) :
  rapl_error_printed s = true -> warned msg s = s.
Proof. intros H. unfold warned. now rewrite H. Qed.

Lemma warned_sets (msg : string) (s : state) :
  rapl_error_printed (warned msg s) = true.
Proof.
  unfold warned. destruct (rapl_error_printed s) eqn:E; [exact E | reflexivity].
Qed.

Lemma stdout_warned (msg : string) (s : state) :
  stdout (warned msg s) =
  if rapl_error_printed s then stdout s else stdout s ++ [msg].
Proof. unfold warned. destruct (rapl_error_printed s); reflexivity. Qed.

(** A pass without RAPL files, once the flag is set: one second, no
    print, two zeros for the power lists. *)
Lemma sample_once_no_rapl (e : env) (acc : samples) (s : state) :
  no_rapl e -> rapl_error_printed s = true ->
  sample_once e acc s =
  (Ok {| cpu_usage := cpu_usage acc ++ [cpu_percent e (now s + 1)%Q];
         memory_usage :=
           memory_usage acc ++ [virtual_memory_percent e (now s + 1)%Q];
         cpu_power_usage := cpu_power_usage acc ++ [zero];
         mem_power_usage := mem_power_usage acc ++ [zero] |},
   later 1 s).
Proof.
  intros Hn Hf. unfold sample_once.
  rewrite (bind_Ok _ _ s (later 1 s) tt (sleep_run 1 s)).
  rewrite (bind_Ok _ _ (later 1 s) (later 1 s) (now (later 1 s))) by reflexivity.
  assert (E1 : get_cpu_power e (later 1 s) = (Ok zero, later 1 s)).
  { unfold get_cpu_power. rewrite get_power_absent by apply Hn.
    now rewrite warned_when_set. }
  assert (E2 : get_memory_power e (later 1 s) = (Ok zero, later 1 s)).
  { unfold get_memory_power. rewrite get_power_absent by apply Hn.
    now rewrite warned_when_set. }
  rewrite (bind_Ok _ _ _ _ _ E1), (bind_Ok _ _ _ _ _ E2). reflexivity.
Qed.

Lemma no_power_snoc (acc : samples) (c m : float) :
  no_power acc ->
  no_power {| cpu_usage := cpu_usage acc ++ [c];
              memory_usage := memory_usage acc ++ [m];
              cpu_power_usage := cpu_power_usage acc ++ [zero];
              mem_power_usage := mem_power_usage acc ++ [zero] |}.
Proof.
  intros [H1 H2]. split; cbn; apply Forall_app; split;
    try assumption; repeat constructor.
Qed.

Lemma sampling_loop_no_rapl (e : env) (start : Q) :
  no_rapl e ->
  forall fuel acc s,
    (10 - (now s - start) <= inject_Z (Z.of_nat fuel))%Q ->
    rapl_error_printed s = true -> no_power acc ->
    exists acc' s',
      sampling_loop fuel e start acc s = (Ok acc', s') /\
      no_power acc' /\
      rapl_error_printed s' = true /\ stdout s' = stdout s.
Proof.
  intros Hn. induction fuel as [|fuel IH]; intros acc s Hfuel Hf Hz;
    cbn [sampling_loop];
    rewrite (bind_Ok _ _ s s _ (keep_sampling_run e start s));
    destruct (running e (now s) && Qltb (now s - start) 10) eqn:K;
    try (exists acc, s; split; [reflexivity|]; split; [assumption|];
         split; [assumption | reflexivity]).
  - exfalso. apply andb_true_iff in K. destruct K as [_ K].
    apply Qltb_lt in K. change (inject_Z (Z.of_nat 0)) with 0%Q in Hfuel. lra.
  - rewrite (bind_Ok _ _ s _ _ (sample_once_no_rapl e acc s Hn Hf)).
    assert (Hfuel1 : (10 - (now (later 1 s) - start)
                      <= inject_Z (Z.of_nat fuel))%Q).
    { cbn [now later]. rewrite inject_S in Hfuel. lra. }
    destruct (IH _ (later 1 s) Hfuel1 Hf
                (no_power_snoc acc (cpu_percent e (now s + 1)%Q)
                   (virtual_memory_percent e (now s + 1)%Q) Hz))
      as (acc' & s' & E & Z' & F' & O').
    exists acc', s'. split; [exact E|]. split; [exact Z'|].
    split; [exact F' | exact O'].
Qed.

Lemma fold_fadd_zeros (xs : list float) :
  Forall (fun x => x = zero) xs -> fold_left fadd xs zero = zero.
Proof. induction 1 as [|x xs -> _ IH]; [reflexivity | exact IH]. Qed.

(** The mean of up to ten zeros is 0.0. *)
Lemma mean_or_zeros (xs : list float) :
  Forall (fun x => x = zero) xs -> (List.length xs <= 10)%nat ->
  mean_or lit_0_0 xs = Ok lit_0_0.
Proof.
  intros Hz Hl. destruct xs as [|x xs]; [reflexivity|].
  unfold mean_or. rewrite truediv_sum_len by (rewrite pow_2_53; lia).
  inversion Hz as [|? ? -> Hz']; subst.
  change (fadd zero zero) with zero. rewrite fold_fadd_zeros by exact Hz'.
  cbn [rbind].
  assert (Hn : Z.abs (Z.of_nat (List.length (zero :: xs))) < 2 ^ 53)
    by (rewrite pow_2_53; lia).
  rewrite (of_Z_small _ Hn).
  destruct (Z.of_nat (List.length (zero :: xs))) as [|p|p] eqn:E;
    [cbn [List.length] in E; lia | reflexivity | lia].
Qed.

(** Without RAPL files [monitor_cpu_memory] reduces at most ten samples
    whose powers are all 0.0, with 0.0 for the four counter variables. *)
Lemma monitor_cpu_memory_no_rapl (e : env) (s : state) :
  no_rapl e ->
  exists acc s' k,
    monitor_cpu_memory e s =
      (reduce (lit_0_0, lit_0_0) (lit_0_0, lit_0_0) acc, s') /\
    (k <= 10)%nat /\ sizes acc k /\ no_power acc /\
    rapl_error_printed s' = true /\
    stdout s' = stdout (warned msg_energy s).
Proof.
  intros Hn. rewrite monitor_cpu_memory_after_loop.
  assert (A : forall s0, after_read e s0 = warned msg_energy s0).
  { intros s0. unfold after_read. destruct (Hn (now s0)) as [-> _].
    reflexivity. }
  assert (I : forall t, initial_energy e t = (lit_0_0, lit_0_0)).
  { intros t. unfold initial_energy. destruct (Hn t) as [-> _]. reflexivity. }
  assert (F : forall t i, final_energy e t i = i).
  { intros t i. unfold final_energy. destruct (Hn t) as [-> _]. reflexivity. }
  rewrite A, I.
  assert (Hfuel : (10 - (now (warned msg_energy s) - now s)
                   <= inject_Z (Z.of_nat sampling_passes))%Q).
  { rewrite now_warned. unfold sampling_passes.
    change (inject_Z (Z.of_nat 10)) with 10%Q. lra. }
  destruct (sampling_loop_no_rapl e (now s) Hn sampling_passes no_samples
              (warned msg_energy s) Hfuel (warned_sets _ _))
    as (acc & s2 & E & Z & Fl & O).
  { split; constructor. }
  destruct (sampling_loop_run e (now s) sampling_passes no_samples
              (warned msg_energy s) Hfuel) as (r & s2' & E' & _ & P & _).
  rewrite E in E'. injection E' as <- <-.
  destruct (P acc eq_refl) as (_ & _ & Sz).
  destruct (Sz 0%nat) as (k & Hk & Hs); [repeat split|].
  cbn [Nat.add] in Hs. unfold sampling_passes in Hk.
  rewrite E, F, A, (warned_when_set _ _ Fl).
  exists acc, s2, k. split; [reflexivity|]. split; [exact Hk|].
  split; [exact Hs|]. split; [exact Z|]. split; [exact Fl | exact O].
Qed.

(** The reductions of such samples. *)
Lemma reduce_no_power (acc : samples) (k : nat) :
  (k <= 10)%nat -> sizes acc k -> no_power acc ->
  exists m,
    reduce (lit_0_0, lit_0_0) (lit_0_0, lit_0_0) acc = Ok m /\
    avg_cpu_power m = lit_0_0 /\ avg_mem_power m = lit_0_0 /\
    cpu_energy_usage m = lit_0_0 /\ mem_energy_usage m = lit_0_0.
Proof.
  intros Hk (L1 & L2 & L3 & L4) [Z1 Z2].
  destruct (mean_or_total (Int 0) (cpu_usage acc)) as [a1 A1]; [lia|].
  destruct (mean_or_total (Int 0) (memory_usage acc)) as [a2 A2]; [lia|].
  unfold reduce. cbn [fst snd].
  change (energy_joules lit_0_0 lit_0_0) with (Ok lit_0_0). cbn [rbind].
  rewrite A1, A2, (mean_or_zeros _ Z1), (mean_or_zeros _ Z2) by lia.
  cbn [rbind]. eexists. split; [reflexivity|].
  cbn [avg_cpu_power avg_mem_power cpu_energy_usage mem_energy_usage].
  repeat split.
Qed.

(** X2. On a machine without RAPL files [monitor_cpu_memory] still
    returns: the two power averages and the two energies are 0.0, the one
    warning of the run comes from the initial read (none if the flag was
    already set), and the flag is set afterwards. *)
Theorem no_rapl_gives_zero_power_and_energy (e : env) (s : state) :
  no_rapl e ->
  exists m s',
    monitor_cpu_memory e s = (Ok m, s') /\
    avg_cpu_power m = lit_0_0 /\ avg_mem_power m = lit_0_0 /\
    cpu_energy_usage m = lit_0_0 /\ mem_energy_usage m = lit_0_0 /\
    stdout s' =
      (if rapl_error_printed s then stdout s else stdout s ++ [msg_energy]) /\
    rapl_error_printed s' = true.
Proof.
  intros Hn.
  destruct (monitor_cpu_memory_no_rapl e s Hn)
    as (acc & s' & k & E & Hk & Hs & Hz & Fl & O).
  destruct (reduce_no_power acc k Hk Hs Hz) as (m & R & P1 & P2 & P3 & P4).
  exists m, s'. rewrite E, R.
  split; [reflexivity|].
  split; [exact P1|]. split; [exact P2|].
  split; [exact P3|]. split; [exact P4|].
  split; [|exact Fl]. rewrite O. apply stdout_warned.
Qed.

Lemma no_rapl_gives_zero_power_and_energy_witness :
  no_rapl Scenarios.bare /\
  exists m s',
    monitor_cpu_memory Scenarios.bare fresh = (Ok m, s') /\
    avg_cpu_power m = lit_0_0 /\ cpu_energy_usage m = lit_0_0 /\
    stdout s' = [msg_energy].
Proof.
  assert (Hn : no_rapl Scenarios.bare) by (intros t; split; reflexivity).
  split; [exact Hn|].
  destruct (no_rapl_gives_zero_power_and_energy Scenarios.bare fresh Hn)
    as (m & s' & E & P1 & _ & P3 & _ & O & _).
  exists m, s'. repeat split; assumption.
Defined.

(** *** How many samples a run collects *)

(** A pass without RAPL files takes one second. *)
Lemma sample_once_one_second (e : env) (acc : samples) (s : state) :
  no_rapl e ->
  exists acc' s',
    sample_once e acc s = (Ok acc', s') /\ now s' = (now s + 1)%Q /\
    forall n, sizes acc n -> sizes acc' (S n).
Proof.
  intros Hn. unfold sample_once.
  rewrite (bind_Ok _ _ s (later 1 s) tt (sleep_run 1 s)).
  rewrite (bind_Ok _ _ (later 1 s) (later 1 s) (now (later 1 s))) by reflexivity.
  assert (E1 : get_cpu_power e (later 1 s)
               = (Ok zero, warned msg_cpu_power (later 1 s))).
  { unfold get_cpu_power. apply get_power_absent, Hn. }
  rewrite (bind_Ok _ _ _ _ _ E1).
  assert (E2 : get_memory_power e (warned msg_cpu_power (later 1 s))
               = (Ok zero,
                  warned msg_mem_power (warned msg_cpu_power (later 1 s)))).
  { unfold get_memory_power. apply get_power_absent, Hn. }
  rewrite (bind_Ok _ _ _ _ _ E2).
  eexists. eexists. split; [reflexivity|].
  split; [now rewrite !now_warned|].
  intros n (H1 & H2 & H3 & H4). unfold sizes. cbn.
  rewrite !length_app. cbn. lia.
Qed.

(** A pass with both RAPL files takes three seconds. *)
Lemma sample_once_three_seconds (e : env) (acc : samples) (s : state) :
  rapl_present e -> counters_in_range e ->
  exists acc' s',
    sample_once e acc s = (Ok acc', s') /\
    now s' = (now s + 1 + 1 + 1)%Q /\
    forall n, sizes acc n -> sizes acc' (S n).
Proof.
  intros Hp Hr. unfold sample_once.
  rewrite (bind_Ok _ _ s (later 1 s) tt (sleep_run 1 s)).
  rewrite (bind_Ok _ _ (later 1 s) (later 1 s) (now (later 1 s))) by reflexivity.
  assert (G : forall d s0, exists x,
            get_power (energy_file e d) (reader_message d) s0
            = (Ok x, later 1 s0)).
  { intros d s0.
    assert (Hd : forall t, energy_file e d t <> None)
      by (intros t; destruct d; apply (Hp t)).
    destruct (energy_file e d (now s0)) as [a|] eqn:Ea;
      [|now destruct (Hd (now s0))].
    destruct (energy_file e d (now s0 + 1)%Q) as [b|] eqn:Eb;
      [|now destruct (Hd (now s0 + 1)%Q)].
    rewrite (get_power_present _ _ s0 a b Ea Eb).
    rewrite truediv_int_1e6
      by (apply u64_difference; [apply (Hr d _ _ Eb) | apply (Hr d _ _ Ea)]).
    eexists; reflexivity. }
  destruct (G Package (later 1 s)) as [x Ex].
  destruct (G Dram (later 1 (later 1 s))) as [y Ey].
  change (get_power (energy_file e Package) (reader_message Package))
    with (get_cpu_power e) in Ex.
  change (get_power (energy_file e Dram) (reader_message Dram))
    with (get_memory_power e) in Ey.
  rewrite (bind_Ok _ _ _ _ _ Ex), (bind_Ok _ _ _ _ _ Ey).
  eexists. eexists. split; [reflexivity|]. split; [reflexivity|].
  intros n (H1 & H2 & H3 & H4). unfold sizes. cbn.
  rewrite !length_app. cbn. lia.
Qed.

(** A loop whose passes all take [d] seconds, [k] passes before the
    first check at which ten seconds have elapsed, and a workload that
    runs until then. *)
Lemma sampling_loop_counts (e : env) (start d last : Q) :
  (forall acc s, exists acc' s',
      sample_once e acc s = (Ok acc', s') /\ (now s' == now s + d)%Q /\
      forall n, sizes acc n -> sizes acc' (S n)) ->
  (forall t, (t < start + 10)%Q -> running e t = true) ->
  (10 <= last)%Q -> (last - d < 10)%Q -> (0 <= d)%Q ->
  forall k fuel acc s n,
    (k <= fuel)%nat ->
    (now s - start == last - inject_Z (Z.of_nat k) * d)%Q ->
    sizes acc n ->
    exists acc' s',
      sampling_loop fuel e start acc s = (Ok acc', s') /\
      sizes acc' (n + k) /\ (now s' - start == last)%Q.
Proof.
  intros Hpass Hrun Hlast Hprev Hd.
  induction k as [|k IH]; intros fuel acc s n Hk Hnow Hs.
  - change (inject_Z (Z.of_nat 0)) with 0%Q in Hnow.
    assert (K : running e (now s) && Qltb (now s - start) 10 = false).
    { apply andb_false_iff. right. apply Qltb_ge. lra. }
    destruct fuel; cbn [sampling_loop];
      rewrite (bind_Ok _ _ s s _ (keep_sampling_run e start s)), K;
      exists acc, s; (split; [reflexivity|]);
      (split; [now rewrite Nat.add_0_r | lra]).
  - destruct fuel as [|fuel]; [lia|].
    rewrite inject_S, Qmult_plus_distr_l in Hnow.
    assert (Hk0 : (0 <= inject_Z (Z.of_nat k) * d)%Q).
    { apply Qmult_le_0_compat; [|exact Hd].
      change 0%Q with (inject_Z 0). rewrite <- Zle_Qle. lia. }
    assert (K : running e (now s) && Qltb (now s - start) 10 = true).
    { apply andb_true_iff. split; [apply Hrun; lra | apply Qltb_lt; lra]. }
    cbn [sampling_loop].
    rewrite (bind_Ok _ _ s s _ (keep_sampling_run e start s)), K.
    destruct (Hpass acc s) as (acc1 & s1 & E1 & T1 & Z1).
    rewrite (bind_Ok _ _ s s1 acc1 E1).
    destruct (IH fuel acc1 s1 (S n)) as (acc' & s' & E & Sz & T);
      [lia | lra | now apply Z1 |].
    exists acc', s'. split; [exact E|].
    split; [|exact T].
    replace (n + S k)%nat with (S n + k)%nat by lia. exact Sz.
Qed.

(** X3. While the workload outlives the budget, the number of samples
    depends on the RAPL interface alone: without RAPL files a pass takes
    one second and the loop collects ten samples of every metric in
    exactly ten seconds; with both files a pass takes three seconds and
    the loop collects four samples and ends twelve seconds after its
    start. *)
Theorem sample_count_depends_on_rapl (e : env) (s : state) :
  (forall t, (t < now s + 10)%Q -> running e t = true) ->
  (no_rapl e ->
   exists acc s',
     sampling_loop sampling_passes e (now s) no_samples s = (Ok acc, s') /\
     sizes acc 10 /\ (now s' - now s == 10)%Q) /\
  (rapl_present e -> counters_in_range e ->
   exists acc s',
     sampling_loop sampling_passes e (now s) no_samples s = (Ok acc, s') /\
     sizes acc 4 /\ (now s' - now s == 12)%Q).
Proof.
  intros Hrun. split.
  - intros Hn.
    destruct (sampling_loop_counts e (now s) 1 10) with
      (k := 10%nat) (fuel := sampling_passes) (acc := no_samples) (s := s)
      (n := 0%nat) as (acc & s' & E & Sz & T);
      try lra; try assumption.
    + intros acc0 s0.
      destruct (sample_once_one_second e acc0 s0 Hn) as (a & s1 & E & T & Z).
      exists a, s1. split; [exact E|]. split; [rewrite T; reflexivity | exact Z].
    + unfold sampling_passes. lia.
    + change (inject_Z (Z.of_nat 10)) with 10%Q. lra.
    + repeat split.
    + exists acc, s'. split; [exact E|]. split; assumption.
  - intros Hp Hr.
    destruct (sampling_loop_counts e (now s) 3 12) with
      (k := 4%nat) (fuel := sampling_passes) (acc := no_samples) (s := s)
      (n := 0%nat) as (acc & s' & E & Sz & T);
      try lra; try assumption.
    + intros acc0 s0.
      destruct (sample_once_three_seconds e acc0 s0 Hp Hr)
        as (a & s1 & E & T & Z).
      exists a, s1. split; [exact E|]. split; [rewrite T; lra | exact Z].
    + unfold sampling_passes. lia.
    + change (inject_Z (Z.of_nat 4)) with 4%Q. lra.
    + repeat split.
    + exists acc, s'. split; [exact E|]. split; assumption.
Qed.

Lemma busy_in_range : counters_in_range Scenarios.busy.
Proof.
  intros [|] t c H;
    cbv [energy_file rapl_cpu rapl_mem Scenarios.busy] in H;
    (eapply step_counter_in_range; [| |exact H]; rewrite pow_2_64; lia).
Qed.

Lemma sample_count_depends_on_rapl_witness :
  (forall t, (t < now fresh + 10)%Q -> running Scenarios.busy t = true) /\
  exists acc s',
    sampling_loop sampling_passes Scenarios.busy (now fresh) no_samples fresh
    = (Ok acc, s') /\
    sizes acc 4 /\ (now s' - now fresh == 12)%Q.
Proof.
  assert (Hrun : forall t, (t < now fresh + 10)%Q ->
                           running Scenarios.busy t = true)
    by (intros t _; reflexivity).
  split; [exact Hrun|].
  apply (sample_count_depends_on_rapl Scenarios.busy fresh Hrun).
  - intros t; split; discriminate.
  - exact busy_in_range.
Defined.

(** *** The GPU loop starts when the CPU loop is over *)

(** X4. The two loops run one after the other, so a workload that exits
    within the ten seconds of CPU sampling is gone when GPU sampling
    starts: [monitor_usage] then reports the GPU metrics (0, 0, 0.0)
    without calling nvidia-smi, and its result and its state are those
    of [monitor_cpu_memory]. *)
Theorem short_workload_never_samples_gpu (e : env) (s : state) (x : Q) :
  counters_in_range e ->
  exit_time e = Some x -> (x <= now s + 10)%Q ->
  exists cm s',
    monitor_cpu_memory e s = (Ok cm, s') /\
    monitor_usage e s = (Ok (cm, gpu_nothing), s') /\
    (x <= now s')%Q.
Proof.
  intros Hr Hx Hle.
  destruct (monitor_cpu_memory_run e s Hr) as (cm & s' & acc & E & D & _).
  assert (Hd : (x <= now s')%Q).
  { unfold deadline in D. rewrite Hx in D.
    rewrite (Q.min_l x (now s + 10)%Q Hle) in D. exact D. }
  assert (R : running e (now s') = false).
  { unfold running. rewrite Hx. apply Qltb_ge. exact Hd. }
  exists cm, s'. split; [exact E|]. split; [|exact Hd].
  rewrite monitor_usage_steps, E, (RunFacts.monitor_gpu_no_pass e s' R).
  reflexivity.
Qed.

Lemma short_workload_never_samples_gpu_witness :
  counters_in_range Scenarios.window /\
  exists cm s',
    monitor_cpu_memory Scenarios.window fresh = (Ok cm, s') /\
    monitor_usage Scenarios.window fresh = (Ok (cm, gpu_nothing), s') /\
    (3 <= now s')%Q.
Proof.
  split; [exact window_in_range|].
  apply (short_workload_never_samples_gpu Scenarios.window fresh 3
           window_in_range eq_refl).
  cbn. lra.
Defined.

(** *** Output of the tool that cannot be parsed *)

Lemma parse_lines_malformed (lines : list smi_line) :
  In SmiMalformed lines ->
  forall power util, parse_lines lines power util = Raise ValueError.
Proof.
  induction lines as [|[p u|] lines IH]; intros Hin power util;
    cbn [parse_lines].
  - destruct Hin.
  - apply IH. destruct Hin as [H|H]; [discriminate | exact H].
  - reflexivity.
Qed.

Lemma parse_unparsable (lines : list smi_line) :
  unparsable lines ->
  forall power util,
    parse_lines (strip_split lines) power util = Raise ValueError.
Proof.
  intros [->|Hin] power util; [reflexivity|].
  destruct lines as [|l lines]; [destruct Hin|].
  cbn [strip_split]. now apply parse_lines_malformed.
Qed.

Lemma gpu_pass_unparsable (e : env) (power util : list float) (s : state)
    (lines : list smi_line) :
  nvidia_smi e (now s) = SmiOutput lines -> unparsable lines ->
  gpu_pass e power util s = (Raise ValueError, later (smi_latency e) s).
Proof.
  intros T U. destruct (gpu_pass_answers e power util s lines T) as (E & _ & _).
  now rewrite (parse_unparsable lines U) in E.
Qed.

(** X5. Neither handler of [monitor_gpu] catches [ValueError]: when the
    workload runs and nvidia-smi exits with status 0 but prints nothing,
    or prints a line that is not two numbers, the pass raises
    [ValueError] once the tool has answered, whatever the earlier
    passes have collected, and prints nothing; so does [monitor_gpu]
    when this is the first answer. *)
Theorem unparsable_gpu_output_raises_ValueError (e : env) (s : state)
    (lines : list smi_line) :
  running e (now s) = true ->
  nvidia_smi e (now s) = SmiOutput lines ->
  unparsable lines ->
  monitor_gpu e s = (Raise ValueError, later (smi_latency e) s) /\
  forall fuel start power util,
    (now s - start < 10)%Q ->
    gpu_loop (S fuel) e start power util s
    = (Raise ValueError, later (smi_latency e) s).
Proof.
  intros R T U.
  assert (L : forall fuel start power util,
            (now s - start < 10)%Q ->
            gpu_loop (S fuel) e start power util s
            = (Raise ValueError, later (smi_latency e) s)).
  { intros fuel start power util B. cbn [gpu_loop].
    rewrite (bind_Ok _ _ s s _ (keep_sampling_run e start s)), R.
    apply Qltb_lt in B. rewrite B. cbn [andb].
    now rewrite (bind_Raise _ _ s _ _ (gpu_pass_unparsable e power util s lines T U)). }
  split; [|exact L].
  rewrite monitor_gpu_after_loop. unfold gpu_passes.
  rewrite L by lra. reflexivity.
Qed.

Lemma unparsable_gpu_output_raises_ValueError_witness :
  monitor_gpu Scenarios.garbled fresh
  = (Raise ValueError, later (1 # 2) fresh) /\
  monitor_gpu Scenarios.mute fresh
  = (Raise ValueError, later (1 # 2) fresh).
Proof.
  split.
  - apply (unparsable_gpu_output_raises_ValueError Scenarios.garbled fresh
             [SmiLine (of_Z 100) (of_Z 30); SmiMalformed]);
      [reflexivity | reflexivity | right; right; left; reflexivity].
  - apply (unparsable_gpu_output_raises_ValueError Scenarios.mute fresh []);
      [reflexivity | reflexivity | left; reflexivity].
Defined.

(** *** How long a run blocks *)

Lemma deadline_le (e : env) (start : Q) : (deadline e start <= start + 10)%Q.
Proof.
  unfold deadline. destruct (exit_time e) as [x|];
    [apply Q.le_min_r | lra].
Qed.

(** The GPU loop never ends a full call of the tool after its deadline. *)
Lemma gpu_loop_time (e : env) (start : Q) :
  (0 <= smi_latency e)%Q ->
  forall fuel power util s,
    let s' := snd (gpu_loop fuel e start power util s) in
    (now s <= now s')%Q /\
    (now s' == now s \/ now s' < deadline e start + smi_latency e)%Q.
Proof.
  intros HL.
  induction fuel as [|fuel IH]; intros power util s; cbv zeta;
    cbn [gpu_loop];
    rewrite (bind_Ok _ _ s s _ (keep_sampling_run e start s));
    destruct (running e (now s) && Qltb (now s - start) 10) eqn:K;
    try (cbn; split; [lra | left; reflexivity]).
  apply before_deadline in K.
  destruct (nvidia_smi e (now s)) as [|msg|lines] eqn:T.
  - rewrite (bind_Ok _ _ s _ _ (gpu_pass_not_found e power util s T)).
    cbn. split; [lra | left; reflexivity].
  - rewrite (bind_Ok _ _ s _ _ (gpu_pass_exit_status e power util s msg T)).
    cbn. split; [lra | right; lra].
  - destruct (gpu_pass_answers e power util s lines T) as (E & _ & _).
    destruct (parse_lines (strip_split lines) power util) as [acc|ex|].
    + rewrite (bind_Ok _ _ s _ _ E).
      specialize (IH (fst acc) (snd acc) (later (smi_latency e) s)).
      cbv zeta in IH. destruct IH as (I1 & I2).
      change (now (later (smi_latency e) s)) with (now s + smi_latency e)%Q
        in I1, I2.
      split; [lra|]. right. destruct I2 as [I2|I2]; lra.
    + rewrite (bind_Raise _ _ s _ _ E). cbn. split; [lra | right; lra].
    + rewrite (bind_OutOfFuel _ _ s _ E). cbn. split; [lra | right; lra].
Qed.

(** X6. With counters in range and a tool that takes some time to
    answer, [monitor_usage] ends, with a result or with an
    exception, and blocks for less than 23 seconds and one call of the tool: ten
    seconds of budget and a pass of at most three seconds for the CPU
    loop, ten seconds and a call for the GPU loop. *)
Theorem monitor_usage_blocks_23_seconds_and_a_call (e : env) (s : state) :
  counters_in_range e -> (0 < smi_latency e)%Q ->
  exists r s',
    monitor_usage e s = (r, s') /\
    r <> OutOfFuel /\
    (now s <= now s')%Q /\
    (now s' - now s < 23 + smi_latency e)%Q.
Proof.
  intros Hr HL.
  destruct (monitor_cpu_memory_run e s Hr)
    as (cm & s1 & acc & E & D & W & _).
  pose proof (deadline_le e (now s)) as Dl.
  assert (T1 : (now s <= now s1 /\ now s1 < now s + 13)%Q).
  { destruct W as [[W _]|(W1 & W2 & W3)]; [rewrite W; split; lra | split; lra]. }
  rewrite monitor_usage_steps, E, monitor_gpu_after_loop.
  pose proof (gpu_loop_time e (now s1) (Qlt_le_weak _ _ HL)
                (gpu_passes e) [] [] s1) as G.
  pose proof (gpu_loop_run e (now s1) HL (gpu_passes e) [] [] s1) as F.
  pose proof (deadline_le e (now s1)) as Dl1.
  cbv zeta in G.
  destruct (gpu_loop (gpu_passes e) e (now s1) [] [] s1)
    as [[[p u|m]|ex|] s2] eqn:L; cbn [fst snd] in *.
  - destruct G as (G1 & G2).
    rewrite gpu_energy_formula. cbn [rbind].
    pose proof (gpu_mean_returns_or_raises p) as Mp.
    pose proof (gpu_mean_returns_or_raises u) as Mu.
    assert (B : (now s <= now s2 /\ now s2 - now s < 23 + smi_latency e)%Q)
      by (destruct G2; split; lra).
    destruct (gpu_mean p) as [a|ex|]; cbn [rbind]; [| |congruence];
      [destruct (gpu_mean u) as [b|ex|]; cbn [rbind]; [| |congruence]|];
      eexists; exists s2; (split; [reflexivity|]);
      (split; [discriminate | exact B]).
  - destruct G as (G1 & G2).
    eexists. exists s2. split; [reflexivity|].
    split; [discriminate|].
    split; [lra | destruct G2; lra].
  - destruct G as (G1 & G2).
    eexists. exists s2. split; [reflexivity|].
    split; [discriminate|].
    split; [lra | destruct G2; lra].
  - exfalso. apply F; [|reflexivity].
    pose proof (gpu_passes_enough e HL). lra.
Qed.

Lemma monitor_usage_blocks_23_seconds_and_a_call_witness :
  counters_in_range Scenarios.busy /\
  exists r s',
    monitor_usage Scenarios.busy fresh = (r, s') /\
    r <> OutOfFuel /\
    (now fresh <= now s')%Q /\
    (now s' - now fresh < 23 + (1 # 2))%Q.
Proof.
  split; [exact busy_in_range|].
  apply (monitor_usage_blocks_23_seconds_and_a_call Scenarios.busy fresh
           busy_in_range).
  reflexivity.
Defined.

(** *** What a reader returns *)

(** X7. A reader whose file, at each of its two reads, either gives a
    counter in range or does not exist. When the file is read before
    and after the second of sleep the reader returns the difference of
    the two counters divided by 1e6 after that second, prints nothing,
    and the value is no NaN and is negative exactly when the counter
    went down. When the file does not exist at the first read the
    reader returns 0.0 at once, when it does not exist at the second
    read 0.0 after the second, in both cases after the handler of
    [FileNotFoundError] has warned, unless the flag was set. *)
Theorem reader_reports_counter_delta_per_second (e : env) (d : domain)
    (s : state) :
  counters_in_range e ->
  match energy_file e d (now s), energy_file e d (now s + 1)%Q with
  | Some a, Some b =>
      let watts := fdiv (of_Z (b - a)) (of_Z 1000000) in
      reader e d s = (Ok watts, later 1 s) /\
      is_nan watts = false /\ sign_bit watts = (b <? a)
  | Some _, None =>
      reader e d s = (Ok zero, warned (reader_message d) (later 1 s))
  | None, _ =>
      reader e d s = (Ok zero, warned (reader_message d) s)
  end.
Proof.
  intros Hr. rewrite reader_get_power.
  destruct (energy_file e d (now s)) as [a|] eqn:Ea.
  - destruct (energy_file e d (now s + 1)%Q) as [b|] eqn:Eb.
    + assert (Hd : Z.abs (b - a) < 2 ^ 1023)
        by (apply u64_difference; [apply (Hr d _ _ Eb) | apply (Hr d _ _ Ea)]).
      cbv zeta. rewrite (get_power_present _ _ s a b Ea Eb).
      rewrite (truediv_int_1e6 _ Hd).
      split; [reflexivity|].
      destruct (fdiv_1e6_sign (b - a) Hd) as (Hn & Hs).
      split; [exact Hn|]. rewrite Hs.
      destruct (Z.ltb_spec (b - a) 0), (Z.ltb_spec b a); (reflexivity || lia).
    + exact (get_power_vanished _ _ s a Ea Eb).
  - destruct (energy_file e d (now s + 1)%Q);
      exact (get_power_absent _ _ s Ea).
Qed.

Lemma reader_reports_counter_delta_per_second_witness :
  counters_in_range Scenarios.window /\
  reader Scenarios.window Package (later 2 fresh)
  = (Ok (fdiv (of_Z (3500000 - 1000000)) (of_Z 1000000)),
     later 1 (later 2 fresh)) /\
  sign_bit (fdiv (of_Z (3500000 - 1000000)) (of_Z 1000000)) = false.
Proof.
  split; [exact window_in_range|].
  destruct (reader_reports_counter_delta_per_second Scenarios.window Package
              (later 2 fresh) window_in_range) as (E & _ & Sg).
  split; [exact E | exact Sg].
Defined.

(** *** [start_run] on a machine without the two interfaces *)




End LlamaPowerMore.

(** ** pressure.py on every integer and in its loop *)

Module PressureMore.
Import Pressure PressureFacts PressureMain.

(** X9. [is_prime] answers [True] on every negative integer, for which
    the range of trial divisors is empty, and on the other integers
    exactly on the primes. *)
Theorem is_prime_accepts_negative_integers (p : Z) :
  is_prime p = true <-> p < 0 \/ prime p.
Proof.
  destruct (Z_lt_le_dec p 0) as [Hn|Hp].
  - split; [intros _; left; exact Hn|]. intros _.
    unfold is_prime, range_len.
    destruct (Z.eqb_spec p 0); [lia|]. destruct (Z.eqb_spec p 1); [lia|].
    cbn [orb].
    assert (H : p / 2 < 0) by (apply Z.div_lt_upper_bound; lia).
    replace (Z.to_nat (p / 2 + 1 - 2)) with 0%nat by lia. reflexivity.
  - rewrite (is_prime_true p Hp). split.
    + intros [H2 H]. right. apply no_small_divisor_prime; assumption.
    + intros [Hn|Hpr]; [lia | now apply prime_no_small_divisor].
Qed.

Lemma little_endian_bound (data : list Byte.byte) :
  0 <= little_endian data < 256 ^ Z.of_nat (List.length data).
Proof.
  induction data as [|b data IH]; cbn [little_endian List.length].
  - cbn. lia.
  - pose proof (Strings.Byte.to_N_bounded b) as Hb.
    rewrite Nat2Z.inj_succ, Z.pow_succ_r by lia. lia.
Qed.

Lemma unpack_Q_eight_bytes (data : list Byte.byte) :
  List.length data = 8%nat ->
  unpack_Q data = Some (little_endian data) /\
  0 <= little_endian data < 2 ^ 64.
Proof.
  intros H. unfold unpack_Q. rewrite H. split; [reflexivity|].
  pose proof (little_endian_bound data) as B. rewrite H in B.
  change (256 ^ Z.of_nat 8) with (2 ^ 64) in B. exact B.
Qed.

Lemma unpack_Q_other_length (data : list Byte.byte) :
  List.length data <> 8%nat -> unpack_Q data = None.
Proof.
  intros H. unfold unpack_Q.
  destruct (Nat.eqb_spec (List.length data) 8); [contradiction | reflexivity].
Qed.

(** X10. While every read gives eight bytes the loop of [pressure.py]
    goes on and prints two lines per read: the number, which lies
    between 0 and 2^64 - 1, and a verdict that is [prime] exactly when
    the number is prime. A read of another length makes [struct.unpack]
    raise, after the lines of the reads before it. *)
Theorem main_loop_prints_a_right_verdict_per_read
    (reads : list (list Byte.byte)) (printed : list line) :
  Forall (fun data => List.length data = 8%nat) reads ->
  let lines := flat_map (fun data =>
                 [Testing (little_endian data);
                  if is_prime (little_endian data) then Is_prime
                  else Is_not_prime]) reads in
  main_loop reads printed = Still_looping (printed ++ lines) /\
  Forall (fun data =>
            0 <= little_endian data < 2 ^ 64 /\
            (is_prime (little_endian data) = true
             <-> prime (little_endian data))) reads /\
  (forall data rest,
     List.length data <> 8%nat ->
     main_loop (reads ++ data :: rest) printed = Struct_error (printed ++ lines)).
Proof.
  intros H. revert printed.
  induction H as [|d reads Hd Hreads IH]; intros printed; cbv zeta.
  - cbn [flat_map main_loop app]. rewrite app_nil_r.
    split; [reflexivity|]. split; [constructor|].
    intros data rest Hl. unfold test_once.
    now rewrite (unpack_Q_other_length data Hl).
  - destruct (unpack_Q_eight_bytes d Hd) as (U & B).
    specialize (IH (printed ++ [Testing (little_endian d);
                                if is_prime (little_endian d) then Is_prime
                                else Is_not_prime])).
    cbv zeta in IH. destruct IH as (I1 & I2 & I3).
    cbn [flat_map main_loop app]. unfold test_once. rewrite U.
    rewrite <- app_assoc in I1. cbn [app] in I1.
    split; [exact I1|]. split.
    + constructor; [|exact I2]. split; [exact B|].
      rewrite (is_prime_true _ (proj1 B)). split.
      * intros [H2 H]. apply no_small_divisor_prime; assumption.
      * apply prime_no_small_divisor.
    + intros data rest Hl. rewrite (I3 data rest Hl).
      now rewrite <- app_assoc.
Qed.

Lemma main_loop_prints_a_right_verdict_per_read_witness :
  main_loop [[Byte.x07; Byte.x00; Byte.x00; Byte.x00;
              Byte.x00; Byte.x00; Byte.x00; Byte.x00];
             [Byte.x09; Byte.x00; Byte.x00; Byte.x00;
              Byte.x00; Byte.x00; Byte.x00; Byte.x00]] []
  = Still_looping [Testing 7; Is_prime; Testing 9; Is_not_prime].
Proof.
  apply (main_loop_prints_a_right_verdict_per_read
           [[Byte.x07; Byte.x00; Byte.x00; Byte.x00;
             Byte.x00; Byte.x00; Byte.x00; Byte.x00];
            [Byte.x09; Byte.x00; Byte.x00; Byte.x00;
             Byte.x00; Byte.x00; Byte.x00; Byte.x00]] []).
  repeat constructor.
Defined.

End PressureMore.

(** ** The run data of powerjoular_test from run to run *)

Module HooksFacts.
Import Py PowerJoular PowerJoularFacts Hooks.

Lemma append_nil_r (a : string) : (a ++ "")%string = a.
Proof. induction a as [|x a IH]; cbn; [reflexivity | now rewrite IH]. Qed.

Lemma concat_empty_cons (x : string) (l : list string) :
  String.concat "" (x :: l) = (x ++ String.concat "" l)%string.
Proof.
  destruct l as [|y l]; cbn [String.concat];
    [now rewrite append_nil_r | reflexivity].
Qed.

Lemma keys_run_metrics (df : dataframe) :
  keys value (run_metrics df) = data_columns.
Proof. reflexivity. Qed.

Lemma populate_runs_list (str : value -> string) :
  forall runs k,
    run_data_list (populate_runs str runs k)
    = run_data_list k ++ map (fun r => run_metrics (snd r)) runs.
Proof.
  induction runs as [|[path df] runs IH]; intros k; cbn [populate_runs map].
  - now rewrite app_nil_r.
  - rewrite IH. cbn [populate_run_data snd run_data_list].
    now rewrite <- app_assoc.
Qed.

(** X11. Called for one run after the other, [populate_run_data] appends
    the metrics of every run to [run_data_list], in run order, and adds
    one value row per run to the CSV of that run's directory: a path no
    run names is left as it was, a file that existed gets the rows of
    its runs appended, and a file that did not exist starts with one
    header row, the data columns of the run table joined by commas. *)
Theorem populate_runs_writes_one_row_per_run (str : value -> string)
    (runs : list (string * dataframe)) (k : sink) (path : string) :
  let k' := populate_runs str runs k in
  let mine := filter (fun r => String.eqb (fst r) path) runs in
  let rows := String.concat ""
                (map (fun r => value_row value str (run_metrics (snd r)))
                   mine) in
  run_data_list k' = run_data_list k ++ map (fun r => run_metrics (snd r)) runs /\
  files k' path =
    match mine, files k path with
    | [], old => old
    | _ :: _, Some old => Some (old ++ rows)%string
    | _ :: _, None =>
        Some (String.concat "," data_columns ++ newline ++ rows)%string
    end.
Proof.
  cbv zeta. split; [apply populate_runs_list|].
  revert k.
  induction runs as [|[p df] runs IH]; intros k;
    cbn [populate_runs filter fst].
  - reflexivity.
  - rewrite IH. cbn [populate_run_data snd files].
    destruct (String.eqb_spec p path) as [->|Hne].
    + cbn [map]. rewrite concat_empty_cons. cbn [snd].
      destruct (files k path) as [old|] eqn:Ek.
      * rewrite (log_present value str path _ _ old Ek).
        destruct (filter _ runs);
          [cbn [map String.concat]; now rewrite append_nil_r|].
        now rewrite append_assoc.
      * rewrite (log_absent value str path _ _ Ek).
        unfold header_row. rewrite keys_run_metrics.
        destruct (filter _ runs);
          [cbn [map String.concat]; now rewrite append_nil_r, append_assoc|].
        now rewrite !append_assoc.
    + rewrite (log_other value str p _ _ path) by congruence.
      reflexivity.
Qed.

Lemma row_data_run_metrics (df : dataframe) :
  row_data (run_metrics df) = Found (values value (run_metrics df)).
Proof. reflexivity. Qed.

Lemma transfer_rows_metrics : forall (dfs : list dataframe) table console,
  transfer_rows (map run_metrics dfs) table console =
  Found (match table with
         | With_add_row rows =>
             With_add_row
               (rows ++ map (fun df => values value (run_metrics df)) dfs)
         | Without_add_row => Without_add_row
         end,
         console ++
         match table with
         | With_add_row _ => []
         | Without_add_row =>
             repeat Does_not_support_adding_rows (List.length dfs)
         end).
Proof.
  induction dfs as [|df dfs IH]; intros table console;
    cbn [map transfer_rows].
  - destruct table; cbn [map List.length repeat]; now rewrite !app_nil_r.
  - rewrite row_data_run_metrics. cbn [sbind].
    destruct table as [rows|]; rewrite IH; cbn [map List.length repeat].
    + now rewrite <- app_assoc.
    + now rewrite <- app_assoc.
Qed.

(** X12. After any runs on a new instance [after_experiment] raises no
    [KeyError] and logs its first and its last line. A table with
    [add_row] receives one row per run, in run order, holding the six
    values in the order of the data columns; on an object without
    [add_row] every run logs that rows cannot be added and the table is
    left as it was. *)
Theorem after_experiment_transfers_every_run (str : value -> string)
    (runs : list (string * dataframe)) (fs : filesystem)
    (table : run_table_model) (console : list transfer_log) :
  let k := populate_runs str runs {| run_data_list := []; files := fs |} in
  (forall df, keys value (run_metrics df) = data_columns) /\
  after_experiment (run_data_list k) table console =
  Found (match table with
         | With_add_row rows =>
             With_add_row
               (rows ++ map (fun r => values value (run_metrics (snd r))) runs)
         | Without_add_row => Without_add_row
         end,
         console ++ [Experiment_complete] ++
         match table with
         | With_add_row _ => []
         | Without_add_row =>
             repeat Does_not_support_adding_rows (List.length runs)
         end ++ [Data_transferred]).
Proof.
  cbv zeta. split; [exact keys_run_metrics|].
  rewrite populate_runs_list. cbn [run_data_list app].
  unfold after_experiment.
  rewrite <- (map_map snd run_metrics), transfer_rows_metrics.
  cbn [sbind fst snd]. rewrite !map_map, length_map.
  destruct table; rewrite <- !app_assoc; reflexivity.
Qed.

End HooksFacts.

(** ** What [interact] logs *)

Module InteractMore.
Import Py PyFacts PowerJoular PowerJoularFacts.

Lemma interact_loop_console (e : env) (start : Q) : forall fuel s s',
  terminated s = false ->
  interact_loop fuel e start s = Some s' ->
  exists usages,
    (List.length usages <= fuel)%nat /\
    (now s' == now s + inject_Z (Z.of_nat (List.length usages)))%Q /\
    console s' =
      console s ++ map Current_CPU_usage usages ++
      (if terminated s' then [Terminated_after_20_seconds] else []) /\
    (running e (now s) = false -> usages = []).
Proof.
  induction fuel as [|fuel IH]; intros s s' Ht; cbn [interact_loop];
    destruct (running e (now s)) eqn:R.
  - discriminate.
  - intros H. injection H as <-. exists [].
    split; [cbn [List.length]; lia|].
    split; [cbn [List.length]; change (inject_Z (Z.of_nat 0)) with 0%Q; lra|].
    split; [|reflexivity].
    rewrite Ht. cbn [map app]. now rewrite app_nil_r.
  - cbn [now sleep console_log].
    destruct (Qltb 20 (now s + 1 - start)) eqn:B.
    + intros H. injection H as <-.
      exists [process_cpu_percent e (now s + 1)].
      split; [cbn [List.length]; lia|].
      split; [cbn [List.length now terminate console_log sleep];
              change (inject_Z (Z.of_nat 1)) with 1%Q; lra|].
      split; [|discriminate].
      cbn [console terminated terminate console_log sleep map app].
      now rewrite <- app_assoc.
    + intros H.
      destruct (IH (console_log
                      (Current_CPU_usage (process_cpu_percent e (now s + 1)))
                      (sleep 1 s)) s' Ht H) as (us & L & T & C & _).
      exists (process_cpu_percent e (now s + 1) :: us).
      cbn [now console sleep console_log] in T, C.
      split; [cbn [List.length]; lia|].
      split; [cbn [List.length]; rewrite inject_S; lra|].
      split; [|discriminate].
      rewrite C, <- app_assoc. reflexivity.
  - intros H. injection H as <-. exists [].
    split; [cbn [List.length]; lia|].
    split; [cbn [List.length]; change (inject_Z (Z.of_nat 0)) with 0%Q; lra|].
    split; [|reflexivity].
    rewrite Ht. cbn [map app]. now rewrite app_nil_r.
Qed.

(** X13. [interact] returns after at most 21 passes of one second each.
    It logs one CPU usage line per pass, then the line about the
    termination exactly when it terminated the target, and last the
    closing line; when the target has exited before the first test it
    logs the closing line alone. *)
Theorem interact_logs_one_usage_line_per_second (e : env) (s : state) :
  terminated s = false ->
  exists s' usages,
    interact e s = Some s' /\
    (List.length usages <= 21)%nat /\
    (now s' == now s + inject_Z (Z.of_nat (List.length usages)))%Q /\
    console s' =
      console s ++ map Current_CPU_usage usages ++
      (if terminated s' then [Terminated_after_20_seconds] else []) ++
      [What_to_do_next] /\
    (running e (now s) = false -> usages = []).
Proof.
  intros Ht. unfold interact.
  destruct (interact_loop_run e (now s) interact_passes s) as (s1 & E & _).
  { lra. }
  { unfold interact_passes. change (inject_Z (Z.of_nat 21)) with 21%Q. lra. }
  rewrite E.
  destruct (interact_loop_console e (now s) _ s s1 Ht E)
    as (us & L & T & C & N).
  exists (console_log What_to_do_next s1), us.
  split; [reflexivity|]. split; [exact L|]. split; [exact T|].
  split; [|exact N].
  cbn [console console_log terminated]. rewrite C, <- !app_assoc. reflexivity.
Qed.

Lemma interact_logs_one_usage_line_per_second_witness :
  exists s' usages,
    interact Scenarios.short_target fresh = Some s' /\
    (List.length usages <= 21)%nat /\
    (now s' == now fresh + inject_Z (Z.of_nat (List.length usages)))%Q /\
    console s' =
      console fresh ++ map Current_CPU_usage usages ++
      (if terminated s' then [Terminated_after_20_seconds] else []) ++
      [What_to_do_next] /\
    (running Scenarios.short_target (now fresh) = false -> usages = []).
Proof.
  apply (interact_logs_one_usage_line_per_second Scenarios.short_target fresh).
  reflexivity.
Defined.

End InteractMore.
